(** * Barrel Cellar: a shallow embedding of the barrel analysis engine

    The development follows the TypeScript sources of the extension:

    - [src/barrel.treeview.ts] ([BarrelFilesProvider], the provider that
      [extension.ts] registers): module [Treeview]; the second copy of
      [BarrelFilesProvider] in the sources has the same
      [resolveModulePath], [parseBarrel] and [collectBarrelFiles];
    - the [BarrelViewProvider] with the source-file cache and the
      export/import statistics: module [Provider];
    - the [BarrelViewProvider] that parses on every call: module
      [ProviderUncached].

    Further modules hold [getTreeItem] ([TreeviewItem]), the expansion of
    an element in the second copy of [BarrelFilesProvider]
    ([TreeviewNested]), the directory branch of the cached provider
    ([ProviderListing]) and the counts of the provider that parses on
    every call ([UncachedCounts]).

    What the sources call from their libraries is modelled first:
    JavaScript string methods ([JsString]), [node:path] in its POSIX
    flavour ([path]), the part of the TypeScript syntax tree the sources
    inspect ([ts]) and [node:fs] over a directory tree ([fs]). *)

From Stdlib Require Import Ascii String List Bool Arith Lia DecimalString Permutation.
From stdpp Require Import base option gmap strings.
Import ListNotations.

Local Open Scope string_scope.
Local Open Scope list_scope.
Set Warnings "-register-all".

(** ** JavaScript string methods *)

Module JsString.

(** [s.startsWith(p)] *)
Definition startsWith (s p : string) : bool := String.prefix p s.

(** [s.endsWith(p)]: some tail of [s] is [p]. *)
Fixpoint endsWith (s p : string) : bool :=
  String.eqb s p ||
  match s with
  | EmptyString => false
  | String _ s' => endsWith s' p
  end.

(** [s.includes(p)]: [p] is a prefix of some tail of [s]. *)
Fixpoint includes (s p : string) : bool :=
  String.prefix p s ||
  match s with
  | EmptyString => false
  | String _ s' => includes s' p
  end.

(** [s.replace] with the pattern of the two quote characters, global:
    every single or double quote is dropped. *)
Fixpoint stripQuotes (s : string) : string :=
  match s with
  | EmptyString => EmptyString
  | String c s' =>
      if (Ascii.eqb c "'" || Ascii.eqb c "034")%char
      then stripQuotes s'
      else String c (stripQuotes s')
  end.

(** [s.replace] with the pattern of a final [.d.ts]: it is dropped. *)
Fixpoint stripDts (s : string) : string :=
  if String.eqb s ".d.ts" then EmptyString
  else match s with
       | EmptyString => EmptyString
       | String c s' => String c (stripDts s')
       end.

End JsString.

(** ** [node:path], POSIX *)

Module path.

Definition isSep (c : ascii) : bool := Ascii.eqb c "/"%char.

(** The segments of a path between its separators. *)
Fixpoint split (s : string) : list string :=
  match s with
  | EmptyString => [EmptyString]
  | String c s' =>
      if isSep c then EmptyString :: split s'
      else match split s' with
           | h :: t => String c h :: t
           | [] => [String c EmptyString]
           end
  end.

(** One step of [normalizeString]: the stack holds the segments kept so
    far, last one first. *)
Definition normStep (allowAboveRoot : bool) (stack : list string) (seg : string)
  : list string :=
  if String.eqb seg EmptyString || String.eqb seg "." then stack
  else if String.eqb seg ".." then
    match stack with
    | top :: rest =>
        if String.eqb top ".." then (if allowAboveRoot then ".." :: stack else stack)
        else rest
    | [] => if allowAboveRoot then [".."] else []
    end
  else seg :: stack.

Definition normalizeString (p : string) (allowAboveRoot : bool) : string :=
  String.concat "/" (rev (fold_left (normStep allowAboveRoot) (split p) [])).

Definition firstIsSep (p : string) : bool :=
  match p with
  | String c _ => isSep c
  | EmptyString => false
  end.

Fixpoint lastIsSep (p : string) : bool :=
  match p with
  | EmptyString => false
  | String c EmptyString => isSep c
  | String _ p' => lastIsSep p'
  end.

Definition normalize (p : string) : string :=
  if String.eqb p EmptyString then "."
  else
    let isAbsolute := firstIsSep p in
    let trailingSeparator := lastIsSep p in
    let q := normalizeString p (negb isAbsolute) in
    if String.eqb q EmptyString then
      (if isAbsolute then "/" else if trailingSeparator then "./" else ".")
    else
      let q := if trailingSeparator then q +:+ "/" else q in
      if isAbsolute then "/" +:+ q else q.

(** [path.join(...parts)] *)
Definition joinAll (parts : list string) : string :=
  match List.filter (fun s => negb (String.eqb s EmptyString)) parts with
  | [] => "."
  | ps => normalize (String.concat "/" ps)
  end.

Definition join (a b : string) : string := joinAll [a; b].
Definition join3 (a b c : string) : string := joinAll [a; b; c].

Fixpoint dropWhile {A} (f : A -> bool) (l : list A) : list A :=
  match l with
  | x :: l' => if f x then dropWhile f l' else l
  | [] => []
  end.

Fixpoint takeWhile {A} (f : A -> bool) (l : list A) : list A :=
  match l with
  | x :: l' => if f x then x :: takeWhile f l' else []
  | [] => []
  end.

(** [path.dirname(p)]: trailing separators and the last segment are
    dropped; the separator at index 0 is never taken as the cut. *)
Definition dirname (p : string) : string :=
  if String.eqb p EmptyString then "."
  else
    let hasRoot := firstIsSep p in
    let r := rev (list_ascii_of_string p) in
    let r := dropWhile isSep r in
    let r := dropWhile (fun c => negb (isSep c)) r in
    match r with
    | [] => if hasRoot then "/" else "."
    | _ :: rest =>
        match rest with
        | [] => if hasRoot then "/" else "."
        | [_] => if hasRoot then "//" else string_of_list_ascii (rev rest)
        | _ => string_of_list_ascii (rev rest)
        end
    end.

(** [path.basename(p)] *)
Definition basename (p : string) : string :=
  let r := rev (list_ascii_of_string p) in
  let r := dropWhile isSep r in
  string_of_list_ascii (rev (takeWhile (fun c => negb (isSep c)) r)).

Definition isDot (c : ascii) : bool := Ascii.eqb c "."%char.

(** [path.extname(p)]: from the last dot of the base name, unless that dot
    is its first character or the base name is [..]. *)
Definition extname (p : string) : string :=
  let base := basename p in
  let r := rev (list_ascii_of_string base) in
  let ext := takeWhile (fun c => negb (isDot c)) r in
  match dropWhile (fun c => negb (isDot c)) r with
  | [] => EmptyString
  | _ :: before =>
      if String.eqb base ".." then EmptyString
      else match before with
           | [] => EmptyString
           | _ => string_of_list_ascii ("."%char :: rev ext)
           end
  end.

(** [path.resolve(a, b)]; the working directory is passed explicitly. *)
Definition resolve (cwd a b : string) : string :=
  let joined :=
    if firstIsSep b then b
    else if firstIsSep a then (if String.eqb b EmptyString then a else a +:+ "/" +:+ b)
    else String.concat "/" (List.filter (fun s => negb (String.eqb s EmptyString)) [cwd; a; b]) in
  let q := normalizeString joined (negb (firstIsSep joined)) in
  if firstIsSep joined then "/" +:+ q
  else if String.eqb q EmptyString then "." else q.

End path.

(** ** Results of calls that may throw *)

Inductive Error := ENOENT | EACCES | EISDIR | ENOTDIR | SyntaxError.

Inductive Result (A : Type) : Type :=
| Ok (a : A)
| Throw (e : Error).
Arguments Ok {A} a.
Arguments Throw {A} e.

Definition isOk {A} (r : Result A) : bool :=
  match r with Ok _ => true | Throw _ => false end.

(** A computation over mutable state [S] that returns or throws; what was
    written to the state before a throw stays written. *)
Definition M (S A : Type) : Type := S -> Result A * S.

Definition ret {S A} (a : A) : M S A := fun s => (Ok a, s).
Definition throw {S A} (e : Error) : M S A := fun s => (Throw e, s).
Definition bind {S A B} (m : M S A) (k : A -> M S B) : M S B :=
  fun s => match m s with
           | (Ok a, s') => k a s'
           | (Throw e, s') => (Throw e, s')
           end.
Definition modify {S} (f : S -> S) : M S unit := fun s => (Ok tt, f s).
Definition lift {S A} (r : Result A) : M S A := fun s => (r, s).

Notation "'let*' x := m 'in' k" := (bind m (fun x => k))
  (at level 10, x name, m at level 100, k at level 200).

(** [for (const x of l) body(x)] *)
Definition forOf {S A} (l : list A) (body : A -> M S unit) : M S unit :=
  (fix loop (l : list A) : M S unit :=
     match l with
     | [] => ret tt
     | x :: rest => let* _ := body x in loop rest
     end) l.

(** [try { m } catch { }] with an empty handler: what [m] wrote before it
    threw stays written. *)
Definition tryCatch {S} (m : M S unit) : M S unit :=
  fun s => (Ok tt, snd (m s)).

(** [array.filter(f)] where [f] may throw: the first throw ends the
    filter. *)
Fixpoint filterResult {A} (f : A -> Result bool) (l : list A) : Result (list A) :=
  match l with
  | [] => Ok []
  | x :: rest =>
      match f x with
      | Throw e => Throw e
      | Ok keep =>
          match filterResult f rest with
          | Throw e => Throw e
          | Ok kept => Ok (if keep then x :: kept else kept)
          end
      end
  end.

(** ** The TypeScript syntax tree, as far as the sources read it *)

Module ts.

Module SyntaxKind.
Inductive t :=
| SourceFile | EndOfFileToken
| ExportDeclaration | ExportAssignment
| ImportDeclaration | ImportEqualsDeclaration
| EnumDeclaration | TypeAliasDeclaration | InterfaceDeclaration
| ClassDeclaration | FunctionDeclaration | VariableStatement
| ModuleDeclaration | ModuleBlock | ExpressionStatement
| NamedExports | NamespaceExport | ExportSpecifier | ImportClause
| StringLiteral | Identifier
| ExportKeyword | DefaultKeyword | DeclareKeyword | AbstractKeyword
| Unknown.

#[global] Instance eq_dec : EqDecision t.
Proof. solve_decision. Defined.
End SyntaxKind.

(** [node.exportClause]: [{ a, b }] or [* as ns]. *)
Inductive ExportClause :=
| NamedExports (elements : list string)
| NamespaceExport (name : string).

(** [node.moduleSpecifier]: an expression; [text] is the value of a string
    literal, [getText] the source text of the expression. *)
Record Expression := {
  isStringLiteral : bool;
  text : string;
  getText : string
}.

Record ImportClause := { clauseIsTypeOnly : bool }.

(** A node carries its kind, the properties the sources read, and the
    children [forEachChild] visits. A property a kind does not have is
    [None], [false] or [[]]. *)
Inductive Node := mkNode {
  kind : SyntaxKind.t;
  modifiers : list SyntaxKind.t;
  isTypeOnly : bool;
  exportClause : option ExportClause;
  moduleSpecifier : option Expression;
  importClause : option ImportClause;
  children : list Node
}.

Definition isKind (k : SyntaxKind.t) (n : Node) : bool := bool_decide (kind n = k).

Definition isExportDeclaration := isKind SyntaxKind.ExportDeclaration.
Definition isExportAssignment := isKind SyntaxKind.ExportAssignment.
Definition isImportDeclaration := isKind SyntaxKind.ImportDeclaration.
Definition isImportEqualsDeclaration := isKind SyntaxKind.ImportEqualsDeclaration.
Definition isEnumDeclaration := isKind SyntaxKind.EnumDeclaration.
Definition isTypeAliasDeclaration := isKind SyntaxKind.TypeAliasDeclaration.
Definition isInterfaceDeclaration := isKind SyntaxKind.InterfaceDeclaration.

(** [node.exportClause && ts.isNamedExports(node.exportClause)], with the
    elements when it holds. *)
Definition namedExports (n : Node) : option (list string) :=
  match exportClause n with
  | Some (NamedExports els) => Some els
  | _ => None
  end.

(** [ts.canHaveModifiers(node) &&
     ts.getModifiers(node)?.some(m => m.kind === ts.SyntaxKind.ExportKeyword)];
    a node that cannot have modifiers has none. *)
Definition hasExportModifier (n : Node) : bool :=
  existsb (fun m => bool_decide (m = SyntaxKind.ExportKeyword)) (modifiers n).

(** *** Statements as the parser builds them *)

Definition leaf (k : SyntaxKind.t) : Node := mkNode k [] false None None None [].

Definition stringLiteral (s : string) : Expression :=
  {| isStringLiteral := true; text := s; getText := "'" +:+ s +:+ "'" |}.

Definition namedExportsNode (names : list string) : Node :=
  mkNode SyntaxKind.NamedExports [] false None None None
         (map (fun _ => mkNode SyntaxKind.ExportSpecifier [] false None None None
                               [leaf SyntaxKind.Identifier]) names).

(** [export * from 'spec'] and [export type * from 'spec'] *)
Definition exportStar (typeOnly : bool) (spec : string) : Node :=
  mkNode SyntaxKind.ExportDeclaration [] typeOnly None (Some (stringLiteral spec)) None
         [leaf SyntaxKind.StringLiteral].

(** [export { a, b } from 'spec'] and [export type { a, b } from 'spec'] *)
Definition exportNamedFrom (typeOnly : bool) (names : list string) (spec : string) : Node :=
  mkNode SyntaxKind.ExportDeclaration [] typeOnly (Some (NamedExports names))
         (Some (stringLiteral spec)) None
         [namedExportsNode names; leaf SyntaxKind.StringLiteral].

(** [export { a, b }], no module specifier *)
Definition exportNamedLocal (typeOnly : bool) (names : list string) : Node :=
  mkNode SyntaxKind.ExportDeclaration [] typeOnly (Some (NamedExports names)) None None
         [namedExportsNode names].

(** [export default e] and [export = e], for an expression without
    declarations inside *)
Definition exportAssignment : Node :=
  mkNode SyntaxKind.ExportAssignment [] false None None None [leaf SyntaxKind.Identifier].

(** A declaration statement of kind [k] with the given modifiers. *)
Definition declaration (k : SyntaxKind.t) (mods : list SyntaxKind.t) (body : list Node)
    : Node :=
  mkNode k mods false None None None (map leaf mods ++ body).

(** [import ... from 'spec'] and [import type ... from 'spec'] *)
Definition importFrom (typeOnly : bool) (spec : string) : Node :=
  mkNode SyntaxKind.ImportDeclaration [] false None (Some (stringLiteral spec))
         (Some {| clauseIsTypeOnly := typeOnly |})
         [leaf SyntaxKind.ImportClause; leaf SyntaxKind.StringLiteral].

Definition endOfFileToken : Node := leaf SyntaxKind.EndOfFileToken.

(** The source file of the given statements. *)
Definition sourceFile (statements : list Node) : Node :=
  mkNode SyntaxKind.SourceFile [] false None None None (statements ++ [endOfFileToken]).

(** A node in the tree of [n] is an export declaration, an export
    assignment or carries the [export] modifier. *)
Fixpoint exportBearing (n : Node) : bool :=
  isExportDeclaration n || isExportAssignment n || hasExportModifier n
  || existsb exportBearing (children n).

(** A node in the tree of [n] is an import declaration or an
    import-equals declaration. *)
Fixpoint importBearing (n : Node) : bool :=
  isImportDeclaration n || isImportEqualsDeclaration n
  || existsb importBearing (children n).

(** No node of the trees of [l] bears an export, or an import. *)
Definition exportFree (l : list Node) : bool := forallb (fun n => negb (exportBearing n)) l.
Definition importFree (l : list Node) : bool := forallb (fun n => negb (importBearing n)) l.

(** The top-level declarations of [sf] hold a re-export-from declaration:
    an export declaration with a module specifier. *)
Definition hasReExportFrom (sf : Node) : Prop :=
  exists node, In node (children sf)
               /\ isExportDeclaration node = true
               /\ moduleSpecifier node <> None.

End ts.

(** ** [node:fs] over a directory tree *)

Module fs.

(** What a directory lists under a name: a file with its text ([None]
    when it may not be read), a directory with its entries, a directory
    that may be neither listed nor searched, or a link whose target is
    missing. *)
Inductive Entry :=
| File (name : string) (content : option string)
| Directory (name : string) (entries : list Entry)
| Closed (name : string)
| Dangling (name : string).

Definition entryName (e : Entry) : string :=
  match e with File n _ => n | Directory n _ => n | Closed n => n | Dangling n => n end.

(** A disk is the list of the entries of its root; the working directory
    is the root. *)
Definition Disk := list Entry.

(** [statSync] at an entry of a listing: it throws at a link whose target
    is missing. *)
Definition statEntry (e : Entry) : Result Entry :=
  match e with
  | Dangling _ => Throw ENOENT
  | _ => Ok e
  end.

(** [stats.isFile()] and [stats.isDirectory()] *)
Definition isFile (e : Entry) : bool :=
  match e with File _ _ => true | _ => false end.

Definition isDirectory (e : Entry) : bool :=
  match e with Directory _ _ | Closed _ => true | _ => false end.

Fixpoint lookupIn (segs : list string) (es : list Entry) : Result Entry :=
  match segs with
  | [] => Throw ENOENT
  | s :: rest =>
      match find (fun e => String.eqb (entryName e) s) es with
      | None => Throw ENOENT
      | Some e =>
          match rest with
          | [] => statEntry e
          | _ => match e with
                 | Directory _ es' => lookupIn rest es'
                 | File _ _ => Throw ENOTDIR
                 | Closed _ => Throw EACCES
                 | Dangling _ => Throw ENOENT
                 end
          end
      end
  end.

Definition segments (p : string) : list string :=
  rev (fold_left (path.normStep false) (path.split p) []).

(** [statSync(p)] *)
Definition statSync (disk : Disk) (p : string) : Result Entry :=
  if String.eqb p EmptyString then Throw ENOENT
  else match segments p with
       | [] => Ok (Directory EmptyString disk)
       | segs => lookupIn segs disk
       end.

(** [existsSync(p)]: whether [p] can be examined; it never throws. *)
Definition existsSync (disk : Disk) (p : string) : bool := isOk (statSync disk p).

Definition readFileSync (disk : Disk) (p : string) : Result string :=
  match statSync disk p with
  | Ok (File _ (Some text)) => Ok text
  | Ok (File _ None) => Throw EACCES
  | Ok (Directory _ _) => Throw EISDIR
  | Ok (Closed _) => Throw EISDIR
  | Ok (Dangling _) => Throw ENOENT
  | Throw e => Throw e
  end.

(** [readdirSync(p)], each name with what the directory holds under it. *)
Definition readdirSync (disk : Disk) (p : string) : Result (list Entry) :=
  match statSync disk p with
  | Ok (Directory _ es) => Ok es
  | Ok (Closed _) => Throw EACCES
  | Ok (File _ _) => Throw ENOTDIR
  | Ok (Dangling _) => Throw ENOENT
  | Throw e => Throw e
  end.

End fs.

(** The parser, [ts.createSourceFile(fileName, text, ...)], is a parameter
    of the development: [None] when it throws. *)
Definition Parser := string -> string -> option ts.Node.

(** ** [src/barrel.treeview.ts]: [BarrelFilesProvider] *)

Module Treeview.

Definition extensionPriority : list string := [".ts"; ".tsx"; ".d.ts"; ".patch.ts"].

(** [pathCache]: a key is present with a path or with [undefined]. *)
Abbreviation PathCache := (gmap string (option string)).

Record ExportedModuleInfo := {
  label : string;
  path : string;
  directory : string;
  extension : string;
  isTypeOnly : bool;
  moduleName : string;
  modulePath : string
}.

Record BarrelFile := {
  barrelPath : string;
  exports : list ExportedModuleInfo
}.

Definition possiblePaths (baseDir moduleSpecifier : string) : list string :=
  flat_map (fun ext =>
              [path.join baseDir (moduleSpecifier +:+ ext);
               path.join3 baseDir moduleSpecifier ("index" +:+ ext)])
           extensionPriority.

Definition resolveModulePath (disk : fs.Disk) (pathCache : PathCache)
    (baseDir moduleSpecifier : string) : option string * PathCache :=
  let cacheKey := path.join baseDir moduleSpecifier in
  match pathCache !! cacheKey with
  | Some cached => (cached, pathCache)
  | None =>
      match find (fs.existsSync disk) (possiblePaths baseDir moduleSpecifier) with
      | Some p => (Some p, <[cacheKey := Some p]> pathCache)
      | None => (None, <[cacheKey := None]> pathCache)
      end
  end.

(** Every path that [pathCache] holds is on the disk. *)
Definition memoOnDisk (disk : fs.Disk) (pathCache : PathCache) : Prop :=
  forall key p, pathCache !! key = Some (Some p) -> fs.existsSync disk p = true.

(** JavaScript truthiness of [string | undefined]. *)
Definition truthy (r : option string) : option string :=
  match r with
  | Some p => if String.eqb p EmptyString then None else Some p
  | None => None
  end.

(** The callback of [sourceFile.forEachChild] in [parseBarrel]: the state
    is the [exports] array and [pathCache]. *)
Definition parseBarrelNode (disk : fs.Disk) (barrelDir : string)
    (st : list ExportedModuleInfo * PathCache) (node : ts.Node)
    : list ExportedModuleInfo * PathCache :=
  let '(exports, pathCache) := st in
  match ts.moduleSpecifier node with
  | Some spec =>
      if ts.isExportDeclaration node && ts.isStringLiteral spec then
        let modulePath := ts.text spec in
        let '(resolved, pathCache) := resolveModulePath disk pathCache barrelDir modulePath in
        match truthy resolved with
        | Some resolvedPath =>
            (exports ++ [{| label := path.basename modulePath;
                            path := resolvedPath;
                            directory := path.dirname resolvedPath;
                            extension := path.extname resolvedPath;
                            isTypeOnly := ts.isTypeOnly node;
                            moduleName := JsString.stripDts modulePath;
                            modulePath := JsString.stripDts resolvedPath |}],
             pathCache)
        | None => (exports, pathCache)
        end
      else st
  | None => st
  end.

Definition parseBarrel (createSourceFile : Parser) (disk : fs.Disk)
    (filePath : string) : M PathCache BarrelFile :=
  let* sourceText := lift (fs.readFileSync disk filePath) in
  match createSourceFile filePath sourceText with
  | None => throw SyntaxError
  | Some sourceFile =>
      let barrelDir := path.dirname filePath in
      fun pathCache =>
        let '(exports, pathCache) :=
          fold_left (parseBarrelNode disk barrelDir) (ts.children sourceFile)
                    ([], pathCache) in
        (Ok {| barrelPath := filePath; exports := exports |}, pathCache)
  end.

(** [parseBarrel] run where the state also holds the [barrelFiles] array. *)
Definition onPathCache {A B} (m : M PathCache A) : M (B * PathCache) A :=
  fun st => let '(r, pathCache) := m (snd st) in (r, (fst st, pathCache)).

(** The body of the loop of [collectBarrelFiles(directory)] at one entry
    of the directory; the state is the [barrelFiles] array and
    [pathCache]. Nothing handles what [statSync(filePath)] throws at a
    dangling link, nor what [readdirSync] throws in the call for a
    directory that does not list. *)
Fixpoint collectBarrelFilesEntry (createSourceFile : Parser) (disk : fs.Disk)
    (directory : string) (e : fs.Entry) {struct e}
    : M (list BarrelFile * PathCache) unit :=
  let file := fs.entryName e in
  let filePath := path.join directory file in
  match e with
  | fs.Dangling _ => throw ENOENT
  | fs.Closed _ => throw EACCES
  | fs.Directory _ sub =>
      forOf sub (collectBarrelFilesEntry createSourceFile disk filePath)
  | fs.File _ _ =>
      if JsString.endsWith file "index.ts" then
        let* barrelFile := onPathCache (parseBarrel createSourceFile disk filePath) in
        modify (fun st => (fst st ++ [barrelFile], snd st))
      else ret tt
  end.

Definition collectBarrelFiles (createSourceFile : Parser) (disk : fs.Disk)
    (directory : string) : M (list BarrelFile * PathCache) unit :=
  let* entries := lift (fs.readdirSync disk directory) in
  forOf entries (collectBarrelFilesEntry createSourceFile disk directory).

(** [searchFiles(directory)] of [findFilesUsingBarrel], at one entry; the
    state is the [filesUsingBarrel] array. As in [collectBarrelFiles],
    [statSync(filePath)] and the [readdirSync] of the call for a
    directory throw out of the loop. *)
Fixpoint searchFilesEntry (barrelPath : string) (directory : string) (e : fs.Entry)
    {struct e} : M (list string) unit :=
  let file := fs.entryName e in
  let filePath := path.join directory file in
  match e with
  | fs.Dangling _ => throw ENOENT
  | fs.Closed _ => throw EACCES
  | fs.Directory _ sub => forOf sub (searchFilesEntry barrelPath filePath)
  | fs.File _ text =>
      if JsString.endsWith file ".ts" then
        match text with
        | None => throw EACCES
        | Some content =>
            if JsString.includes content ("'" +:+ barrelPath +:+ "'")
               || JsString.includes content
                    (String "034" barrelPath +:+ String "034" EmptyString)
            then modify (fun files => files ++ [filePath])
            else ret tt
        end
      else ret tt
  end.

Definition searchFiles (disk : fs.Disk) (barrelPath directory : string)
    : M (list string) unit :=
  let* entries := lift (fs.readdirSync disk directory) in
  forOf entries (searchFilesEntry barrelPath directory).

(** [findFilesUsingBarrel(barrelPath)]; [workspaceFolders] holds the
    [uri.fsPath] of the folders, [None] when no folder is open. *)
Definition findFilesUsingBarrel (disk : fs.Disk) (workspaceFolders : option (list string))
    (barrelPath : string) : Result (list string) :=
  match workspaceFolders with
  | None => Ok []
  | Some folders =>
      match forOf folders (searchFiles disk barrelPath) [] with
      | (Ok _, filesUsingBarrel) => Ok filesUsingBarrel
      | (Throw e, _) => Throw e
      end
  end.

(** The files below a directory, each with its path, its name and its
    text, in the order of the traversal; every directory is entered. *)
Fixpoint filesUnderEntry (directory : string) (e : fs.Entry) {struct e}
    : list (string * string * option string) :=
  let filePath := path.join directory (fs.entryName e) in
  match e with
  | fs.Directory _ sub => flat_map (filesUnderEntry filePath) sub
  | fs.File name content => [(filePath, name, content)]
  | fs.Closed _ => []
  | fs.Dangling _ => []
  end.

(** Below the entry every link has its target and every directory lists:
    [statSync] and [readdirSync] answer throughout. *)
Fixpoint openEntry (e : fs.Entry) : bool :=
  match e with
  | fs.File _ _ => true
  | fs.Directory _ sub => forallb openEntry sub
  | fs.Closed _ => false
  | fs.Dangling _ => false
  end.

(** The folder lists, and so does everything below it. *)
Definition openFolder (disk : fs.Disk) (folder : string) : bool :=
  match fs.readdirSync disk folder with
  | Ok entries => forallb openEntry entries
  | Throw _ => false
  end.

(** Below the entry no link dangles: [statSync] answers throughout;
    directories that do not list are allowed. *)
Fixpoint linkedEntry (e : fs.Entry) : bool :=
  match e with
  | fs.File _ _ => true
  | fs.Directory _ sub => forallb linkedEntry sub
  | fs.Closed _ => true
  | fs.Dangling _ => false
  end.

(** No link dangles below the folder; a folder that does not list has
    nothing below. *)
Definition linkedFolder (disk : fs.Disk) (folder : string) : bool :=
  match fs.readdirSync disk folder with
  | Ok entries => forallb linkedEntry entries
  | Throw _ => true
  end.

Definition filesUnder (disk : fs.Disk) (directory : string)
    : list (string * string * option string) :=
  match fs.readdirSync disk directory with
  | Ok entries => flat_map (filesUnderEntry directory) entries
  | Throw _ => []
  end.

(** The text holds [barrelPath] between single or between double quotes. *)
Definition quotes (barrelPath content : string) : bool :=
  JsString.includes content ("'" +:+ barrelPath +:+ "'")
  || JsString.includes content (String "034" barrelPath +:+ String "034" EmptyString).

(** The file is named [*.ts] and its text quotes [barrelPath]. *)
Definition references (barrelPath : string) (f : string * string * option string) : bool :=
  let '(_, name, content) := f in
  JsString.endsWith name ".ts"
  && match content with Some text => quotes barrelPath text | None => false end.

(** The paths of the files of a listing that reference [barrelPath]. *)
Definition found (barrelPath : string) (files : list (string * string * option string))
    : list string :=
  map (fun f => fst (fst f)) (List.filter (references barrelPath) files).

(** A file named [*.ts] can be read. *)
Definition readableTs (f : string * string * option string) : bool :=
  let '(_, name, content) := f in
  if JsString.endsWith name ".ts" then bool_decide (content <> None) else true.

(** The paths of the entries of each barrel of an answer. *)
Definition exportPaths (r : Result (list BarrelFile)) : list (list string) :=
  match r with
  | Ok barrels => map (fun b => map path (exports b)) barrels
  | Throw _ => []
  end.

(** [getChildren(element)] *)
Definition getChildren (createSourceFile : Parser) (disk : fs.Disk)
    (workspaceFolders : option (list string)) (element : option BarrelFile)
    : M PathCache (list BarrelFile) :=
  match workspaceFolders with
  | None => ret []
  | Some folders =>
      match element with
      | Some element =>
          match exports element with
          | [] =>
              let* files := lift (findFilesUsingBarrel disk workspaceFolders (barrelPath element)) in
              ret (map (fun filePath => {| barrelPath := filePath; exports := [] |}) files)
          | exps =>
              ret (map (fun exp => {| barrelPath := path exp; exports := [] |}) exps)
          end
      | None =>
          fun pathCache =>
            match forOf folders (collectBarrelFiles createSourceFile disk) ([], pathCache) with
            | (Ok _, (barrelFiles, pathCache)) => (Ok barrelFiles, pathCache)
            | (Throw e, (_, pathCache)) => (Throw e, pathCache)
            end
      end
  end.

(** The provider's state: the module-level [pathCache], and how often
    [_onDidChangeTreeData] has fired. *)
Record State := {
  pathCache : PathCache;
  fired : nat
}.

Definition initial : State := {| pathCache := ∅; fired := 0 |}.

(** [refresh()] *)
Definition refresh (st : State) : State :=
  {| pathCache := pathCache st; fired := S (fired st) |}.

(** The three watcher callbacks of the constructor; none reads the uri. *)
Definition onDidChange (uri : string) (st : State) : State := refresh st.
Definition onDidCreate (uri : string) (st : State) : State := refresh st.
Definition onDidDelete (uri : string) (st : State) : State := refresh st.

(** A query of the view, with the state it leaves. *)
Definition query {A} (m : M PathCache A) (st : State) : Result A * State :=
  let '(r, pc) := m (pathCache st) in
  (r, {| pathCache := pc; fired := fired st |}).

End Treeview.

(** ** The cached [BarrelViewProvider]: source-file cache and statistics *)

Module Provider.

Definition extensionPriority : list string := [".ts"; ".tsx"; ".d.ts"; ".patch.ts"].

(** [sourceFileCache]: file path to [ts.SourceFile]. *)
Abbreviation SourceFileCache := (gmap string ts.Node).

Definition cacheSourceFile (createSourceFile : Parser) (disk : fs.Disk)
    (filePath : string) (sourceFileCache : SourceFileCache) : SourceFileCache :=
  match fs.readFileSync disk filePath with
  | Ok content =>
      match createSourceFile filePath content with
      | Some sourceFile => <[filePath := sourceFile]> sourceFileCache
      | None => delete filePath sourceFileCache
      end
  | Throw _ => delete filePath sourceFileCache
  end.

Definition removeSourceFileFromCache (filePath : string)
    (sourceFileCache : SourceFileCache) : SourceFileCache :=
  delete filePath sourceFileCache.

(** The body of the loop of [scanAndCacheSourceFiles(dir)] at one entry
    of the directory; the state is [sourceFileCache]. What
    [statSync(fullPath)] throws leaves the loop, whose [try] encloses it;
    the call for a directory has its own [try] around its [readdirSync]
    and its loop, and so returns. *)
Fixpoint scanAndCacheEntry (createSourceFile : Parser) (disk : fs.Disk)
    (dir : string) (e : fs.Entry) {struct e} : M SourceFileCache unit :=
  let fullPath := path.join dir (fs.entryName e) in
  match e with
  | fs.Dangling _ => throw ENOENT
  | fs.Closed _ => tryCatch (throw EACCES)
  | fs.Directory _ sub =>
      tryCatch (forOf sub (scanAndCacheEntry createSourceFile disk fullPath))
  | fs.File _ _ =>
      if JsString.endsWith fullPath ".ts" || JsString.endsWith fullPath ".tsx"
      then modify (cacheSourceFile createSourceFile disk fullPath)
      else ret tt
  end.

Definition scanAndCacheSourceFiles (createSourceFile : Parser) (disk : fs.Disk)
    (dir : string) (sourceFileCache : SourceFileCache) : SourceFileCache :=
  snd (tryCatch (let* entries := lift (fs.readdirSync disk dir) in
                 forOf entries (scanAndCacheEntry createSourceFile disk dir))
                sourceFileCache).

(** The two arrays of [getExportSymbolCounts]: the count of symbols of
    each export statement. *)
Record SymbolCounts := {
  value : list nat;
  type : list nat
}.

Definition pushValue (n : nat) (c : SymbolCounts) : SymbolCounts :=
  {| value := value c ++ [n]; type := type c |}.
Definition pushType (n : nat) (c : SymbolCounts) : SymbolCounts :=
  {| value := value c; type := type c ++ [n] |}.

Definition handleExportDeclaration (node : ts.Node) (c : SymbolCounts) : SymbolCounts :=
  let isType := ts.isTypeOnly node in
  match ts.namedExports node with
  | Some elements =>
      let count := length elements in
      if isType then pushType count c else pushValue count c
  | None => if isType then pushType 1 c else pushValue 1 c
  end.

Definition handleExportKeyword (node : ts.Node) (c : SymbolCounts) : SymbolCounts :=
  if ts.isEnumDeclaration node then pushValue 1 c
  else if ts.isTypeAliasDeclaration node || ts.isInterfaceDeclaration node then pushType 1 c
  else pushValue 1 c.

(** What [countExports] does at a node before it visits the children. *)
Definition countExportsHere (node : ts.Node) (c : SymbolCounts) : SymbolCounts :=
  if ts.isExportDeclaration node then handleExportDeclaration node c
  else if ts.isExportAssignment node then pushValue 1 c
  else if ts.hasExportModifier node then handleExportKeyword node c
  else c.

Fixpoint countExports (node : ts.Node) (c : SymbolCounts) {struct node} : SymbolCounts :=
  fold_left (fun c child => countExports child c) (ts.children node)
            (countExportsHere node c).

Definition getExportSymbolCounts (sourceFileCache : SourceFileCache) (filePath : string)
    : SymbolCounts :=
  match sourceFileCache !! filePath with
  | None => {| value := []; type := [] |}
  | Some sourceFile => countExports sourceFile {| value := []; type := [] |}
  end.

Definition checkBarrelFile (sourceFileCache : SourceFileCache) (filePath : string) : bool :=
  match sourceFileCache !! filePath with
  | None => false
  | Some sourceFile =>
      fold_left (fun isBarrelFile node =>
                   if ts.isExportDeclaration node then true else isBarrelFile)
                (ts.children sourceFile) false
  end.

(** What [countExports] of [getNumberOfExports] adds at a node. *)
Definition numberOfExportsHere (typeOnly : bool) (node : ts.Node) : nat :=
  if ts.isExportDeclaration node then
    let isType := ts.isTypeOnly node in
    if (if typeOnly then isType else negb isType) then
      match ts.namedExports node with
      | Some elements => length elements
      | None => 1
      end
    else 0
  else if ts.isExportAssignment node then
    (if negb typeOnly then 1 else 0)
  else if ts.hasExportModifier node then
    let isType := ts.isTypeAliasDeclaration node || ts.isInterfaceDeclaration node
                  || ts.isEnumDeclaration node in
    if (if typeOnly then isType else negb isType) then 1 else 0
  else 0.

Fixpoint numberOfExportsIn (typeOnly : bool) (node : ts.Node) (exportCount : nat)
    {struct node} : nat :=
  fold_left (fun n child => numberOfExportsIn typeOnly child n) (ts.children node)
            (exportCount + numberOfExportsHere typeOnly node).

Definition getNumberOfExports (sourceFileCache : SourceFileCache) (filePath : string)
    (typeOnly : bool) : nat :=
  match sourceFileCache !! filePath with
  | None => 0
  | Some sourceFile => numberOfExportsIn typeOnly sourceFile 0
  end.

(** What [countImports] adds at a node. *)
Definition numberOfImportsHere (typeOnly : bool) (node : ts.Node) : nat :=
  if ts.isImportDeclaration node then
    let isType := match ts.importClause node with
                  | Some clause => ts.clauseIsTypeOnly clause
                  | None => false
                  end in
    if (if typeOnly then isType else negb isType) then 1 else 0
  else if ts.isImportEqualsDeclaration node then
    (if negb typeOnly then 1 else 0)
  else 0.

Fixpoint numberOfImportsIn (typeOnly : bool) (node : ts.Node) (importCount : nat)
    {struct node} : nat :=
  fold_left (fun n child => numberOfImportsIn typeOnly child n) (ts.children node)
            (importCount + numberOfImportsHere typeOnly node).

Definition getNumberOfImports (sourceFileCache : SourceFileCache) (filePath : string)
    (typeOnly : bool) : nat :=
  match sourceFileCache !! filePath with
  | None => 0
  | Some sourceFile => numberOfImportsIn typeOnly sourceFile 0
  end.

(** The six numbers the constructor of [TreeItem] computes for a file. *)
Record Counts := {
  exportSymbolCount : nat;
  valueExportCount : nat;
  typeExportCount : nat;
  importSymbolCount : nat;
  valueImportCount : nat;
  typeImportCount : nat
}.

Definition sum (l : list nat) : nat := fold_left (fun a b => a + b) l 0.

Definition counts (sourceFileCache : SourceFileCache) (directory : string) : Counts :=
  let expCounts := getExportSymbolCounts sourceFileCache directory in
  {| exportSymbolCount := sum (value expCounts) + sum (type expCounts);
     valueExportCount := length (value expCounts);
     typeExportCount := length (type expCounts);
     importSymbolCount := getNumberOfImports sourceFileCache directory false
                          + getNumberOfImports sourceFileCache directory true;
     valueImportCount := getNumberOfImports sourceFileCache directory false;
     typeImportCount := getNumberOfImports sourceFileCache directory true |}.

Record TreeItem := {
  directory : string;
  isBarrel : bool;
  isDirectory : bool;
  description : option Counts
}.

(** [new TreeItem(directory, isDirectory, isBarrel)] *)
Definition newTreeItem (sourceFileCache : SourceFileCache)
    (directory : string) (isDirectory isBarrel : bool) : TreeItem :=
  {| directory := directory;
     isBarrel := isBarrel;
     isDirectory := isDirectory;
     description := if isDirectory then None else Some (counts sourceFileCache directory) |}.

(** The callback of [ts.forEachChild] in the barrel branch of
    [getChildren]: the path an export declaration is shown under, if any. *)
Definition exportFilePathOf (disk : fs.Disk) (cwd barrel : string) (node : ts.Node)
    : option string :=
  match ts.moduleSpecifier node with
  | Some spec =>
      if ts.isExportDeclaration node then
        let exportPath := JsString.stripQuotes (ts.getText spec) in
        let exportPath :=
          if negb (JsString.endsWith exportPath ".ts" || JsString.endsWith exportPath ".tsx")
          then match find (fun ext => fs.existsSync disk
                                        (path.join (path.dirname barrel) (exportPath +:+ ext)))
                          extensionPriority with
               | Some ext => exportPath +:+ ext
               | None => exportPath
               end
          else exportPath in
        let exportFilePath := path.resolve cwd (path.dirname barrel) exportPath in
        if fs.existsSync disk exportFilePath then Some exportFilePath else None
      else None
  | None => None
  end.

(** [getChildren(element)] for an element with [isBarrel]. *)
Definition getChildrenOfBarrel (createSourceFile : Parser) (disk : fs.Disk)
    (sourceFileCache : SourceFileCache) (cwd : string) (element : TreeItem)
    : Result (list TreeItem) :=
  match fs.readFileSync disk (directory element) with
  | Throw e => Throw e
  | Ok text =>
      match createSourceFile (directory element) text with
      | None => Throw SyntaxError
      | Some sourceFile =>
          Ok (flat_map (fun node =>
                          match exportFilePathOf disk cwd (directory element) node with
                          | Some exportFilePath =>
                              [newTreeItem sourceFileCache exportFilePath false false]
                          | None => []
                          end)
                       (ts.children sourceFile))
      end
  end.

(** The three watcher callbacks of the constructor, on [sourceFileCache]. *)
Definition onDidChange (createSourceFile : Parser) (disk : fs.Disk) (uri : string)
    (c : SourceFileCache) : SourceFileCache := cacheSourceFile createSourceFile disk uri c.
Definition onDidCreate (createSourceFile : Parser) (disk : fs.Disk) (uri : string)
    (c : SourceFileCache) : SourceFileCache := cacheSourceFile createSourceFile disk uri c.
Definition onDidDelete (uri : string) (c : SourceFileCache) : SourceFileCache :=
  removeSourceFileFromCache uri c.

End Provider.

(** ** The uncached [BarrelViewProvider] *)

Module ProviderUncached.

Definition checkBarrelFile (createSourceFile : Parser) (disk : fs.Disk) (filePath : string)
    : Result bool :=
  match fs.readFileSync disk filePath with
  | Throw e => Throw e
  | Ok text =>
      match createSourceFile filePath text with
      | None => Throw SyntaxError
      | Some sourceFile =>
          Ok (fold_left (fun isBarrelFile node =>
                           match ts.moduleSpecifier node with
                           | Some _ => if ts.isExportDeclaration node then true else isBarrelFile
                           | None => isBarrelFile
                           end)
                        (ts.children sourceFile) false)
      end
  end.

End ProviderUncached.

(** ** The package of the scenarios

    Directory [/ws/pkg] holds [a.ts], [b.ts] and the barrel [index.ts];
    [parse] gives the tree of each text the scenarios use. *)

Module Scenario.

Definition aText := "export const a = 1;".
Definition bText := "export type B = number;".
Definition indexText := "export * from './a'; export type { B } from './b';".
Definition localText := "const a = 1; export { a };".
Definition enumText := "export enum E { A }".
Definition xIndexText := "export * from './x';".

Definition parse : Parser := fun _ text =>
  if String.eqb text aText then
    Some (ts.sourceFile [ts.declaration ts.SyntaxKind.VariableStatement
                                        [ts.SyntaxKind.ExportKeyword] []])
  else if String.eqb text bText then
    Some (ts.sourceFile [ts.declaration ts.SyntaxKind.TypeAliasDeclaration
                                        [ts.SyntaxKind.ExportKeyword] []])
  else if String.eqb text indexText then
    Some (ts.sourceFile [ts.exportStar false "./a"; ts.exportNamedFrom true ["B"] "./b"])
  else if String.eqb text localText then
    Some (ts.sourceFile [ts.declaration ts.SyntaxKind.VariableStatement [] [];
                         ts.exportNamedLocal false ["a"]])
  else if String.eqb text enumText then
    Some (ts.sourceFile [ts.declaration ts.SyntaxKind.EnumDeclaration
                                        [ts.SyntaxKind.ExportKeyword] []])
  else if String.eqb text xIndexText then
    Some (ts.sourceFile [ts.exportStar false "./x"])
  else None.

Definition pkg (files : list fs.Entry) : fs.Disk :=
  [fs.Directory "ws" [fs.Directory "pkg" files]].

Definition a_ts := fs.File "a.ts" (Some aText).
Definition b_ts := fs.File "b.ts" (Some bText).
Definition index_ts := fs.File "index.ts" (Some indexText).

(** The package, and the package once [a.ts] is deleted. *)
Definition disk : fs.Disk := pkg [a_ts; b_ts; index_ts].
Definition diskAfterDelete : fs.Disk := pkg [b_ts; index_ts].

Definition workspaceFolders : option (list string) := Some ["/ws"].

(** A folder whose barrel re-exports [./x], with the declaration file
    [x.d.ts] alone, and the folder once [x.ts] is created. *)
Definition declarationDisk : fs.Disk :=
  [fs.Directory "ws" [fs.File "index.ts" (Some xIndexText);
                      fs.File "x.d.ts" (Some EmptyString)]].
Definition sourceDisk : fs.Disk :=
  [fs.Directory "ws" [fs.File "index.ts" (Some xIndexText);
                      fs.File "x.d.ts" (Some EmptyString);
                      fs.File "x.ts" (Some EmptyString)]].

(** The package with a link whose target is missing listed between
    [a.ts] and [b.ts]. *)
Definition linkDisk : fs.Disk :=
  pkg [a_ts; fs.Dangling "link.ts"; b_ts; index_ts].

(** A workspace whose files import the barrel by its path. *)
Definition usersDisk : fs.Disk :=
  [fs.Directory "ws"
     [fs.Directory "node_modules"
        [fs.Directory "dep" [fs.File "main.ts" (Some "export * from '/ws/pkg/index.ts';")]];
      fs.Directory ".cache" [fs.File "gen.ts" (Some "import '/ws/pkg/index.ts';")];
      fs.Directory "src"
        [fs.File "app.ts" (Some "import { a } from '/ws/pkg/index.ts';");
         fs.File "view.tsx" (Some "import { a } from '/ws/pkg/index.ts';");
         fs.File "other.ts" (Some "import { a } from './pkg';")]]].

End Scenario.

(** [array.map(f)] where [f] may throw and writes to the state. *)
Definition mapM {S A B} (f : A -> M S B) : list A -> M S (list B) :=
  fix loop (l : list A) : M S (list B) :=
    match l with
    | [] => ret []
    | x :: rest =>
        let* y := f x in
        let* ys := loop rest in
        ret (y :: ys)
    end.

(** ** [getTreeItem] of [src/barrel.treeview.ts] *)

Module TreeviewItem.

(** [vscode.TreeItemCollapsibleState] *)
Inductive TreeItemCollapsibleState := NotCollapsible | Collapsed | Expanded.

Record TreeItem := {
  id : string;
  label : string;
  collapsibleState : TreeItemCollapsibleState;
  accessibilityLabel : string;
  contextValue : string;
  resourceUri : string;
  commandArguments : list string;
  tooltip : string;
  description : string;
  iconLight : string;
  iconDark : string
}.

(** A number in a template literal. *)
Definition decimal (n : nat) : string := NilZero.string_of_uint (Nat.to_uint n).

(** [context.asAbsolutePath(relativePath)] *)
Definition asAbsolutePath (extensionPath relativePath : string) : string :=
  path.join extensionPath relativePath.

Definition getTreeItem (extensionPath : string) (element : Treeview.BarrelFile) : TreeItem :=
  let barrelPath := Treeview.barrelPath element in
  let isIndexFile := String.eqb (path.basename barrelPath) "index.ts" in
  let parentFolderName := path.basename (path.dirname barrelPath) in
  let icon := if isIndexFile then "folder.png" else "file.png" in
  let n := length (Treeview.exports element) in
  {| id := barrelPath;
     label := if isIndexFile
              then parentFolderName +:+ " / " +:+ path.basename barrelPath
              else path.basename barrelPath;
     collapsibleState := if Nat.ltb 0 n then Collapsed else NotCollapsible;
     accessibilityLabel := "Barrel file: " +:+ barrelPath;
     contextValue := "barrelFile";
     resourceUri := barrelPath;
     commandArguments := [barrelPath];
     tooltip := "Barrel file: " +:+ barrelPath;
     description := if Nat.ltb 0 n then "Exports: " +:+ decimal n
                    else "Used for barrel file(s)";
     iconLight := asAbsolutePath extensionPath (path.join3 "resources" "light" icon);
     iconDark := asAbsolutePath extensionPath (path.join3 "resources" "dark" icon) |}.

End TreeviewItem.

(** ** [getChildren] of the second copy of [BarrelFilesProvider]

    An element is expanded by parsing each of its exports as a barrel. *)

Module TreeviewNested.

Definition getChildren (createSourceFile : Parser) (disk : fs.Disk)
    (workspaceFolders : option (list string)) (element : option Treeview.BarrelFile)
    : M Treeview.PathCache (list Treeview.BarrelFile) :=
  match workspaceFolders with
  | None => ret []
  | Some folders =>
      match element with
      | Some element =>
          mapM (fun exportInfo =>
                  let* childBarrelFile :=
                    Treeview.parseBarrel createSourceFile disk (Treeview.path exportInfo) in
                  ret {| Treeview.barrelPath := Treeview.path exportInfo;
                         Treeview.exports := Treeview.exports childBarrelFile |})
               (Treeview.exports element)
      | None => Treeview.getChildren createSourceFile disk workspaceFolders None
      end
  end.

End TreeviewNested.

(** ** The directory branch of [getChildren] of the cached provider *)

Module ProviderListing.

(** [hasIndex] of the first filter. *)
Definition hasIndex (sourceFileCache : Provider.SourceFileCache) (disk : fs.Disk)
    (filePath : string) : bool :=
  fs.existsSync disk (path.join filePath "index.ts")
  && (Nat.ltb 0 (Provider.getNumberOfExports sourceFileCache (path.join filePath "index.ts") false)).

(** The callback of the first filter, at an entry of the directory:
    [statSync(filePath)] is called, and may throw, once the two tests on
    the name have passed. *)
Definition listed (sourceFileCache : Provider.SourceFileCache) (disk : fs.Disk)
    (directory : string) (e : fs.Entry) : Result bool :=
  let file := fs.entryName e in
  let filePath := path.join directory file in
  let hasIndex := hasIndex sourceFileCache disk filePath in
  if negb (String.eqb file "node_modules") && negb (JsString.startsWith file ".")
  then match fs.statEntry e with
       | Ok stats => Ok (fs.isFile stats || hasIndex)
       | Throw err => Throw err
       end
  else Ok false.

(** The items before [sort], from the names the first filter kept; each
    of them has been examined by [statSync] there. *)
Definition directoryItems (sourceFileCache : Provider.SourceFileCache) (disk : fs.Disk)
    (directory : string) (files : list fs.Entry) : list Provider.TreeItem :=
  map (fun e => Provider.newTreeItem sourceFileCache
                  (path.join directory (fs.entryName e)) true false)
      (List.filter (fun e => fs.existsSync disk (path.join directory (fs.entryName e))
                             && fs.isDirectory e) files)
  ++ (if fs.existsSync disk (path.join directory "index.ts")
         && Provider.checkBarrelFile sourceFileCache (path.join directory "index.ts")
      then [Provider.newTreeItem sourceFileCache (path.join directory "index.ts") false true]
      else []).

(** [getChildren(element)] for an element that is not a barrel; the [try]
    encloses [readdirSync] and the first filter, and its handler answers
    with no item. [sort] is [Array.prototype.sort] with the comparison of
    the labels by [localeCompare]. *)
Definition getChildrenOfDirectory (sort : list Provider.TreeItem -> list Provider.TreeItem)
    (sourceFileCache : Provider.SourceFileCache) (disk : fs.Disk) (directory : string)
    : list Provider.TreeItem :=
  match fs.readdirSync disk directory with
  | Throw _ => []
  | Ok entries =>
      match filterResult (listed sourceFileCache disk directory) entries with
      | Throw _ => []
      | Ok files => sort (directoryItems sourceFileCache disk directory files)
      end
  end.

(** [getChildren(element)]; [workspacePath] is [None] when no folder is
    open. *)
Definition getChildren (sort : list Provider.TreeItem -> list Provider.TreeItem)
    (createSourceFile : Parser) (disk : fs.Disk)
    (sourceFileCache : Provider.SourceFileCache) (cwd : string)
    (workspacePath : option string) (element : option Provider.TreeItem)
    : Result (list Provider.TreeItem) :=
  match workspacePath with
  | None => Ok []
  | Some workspacePath =>
      if String.eqb workspacePath EmptyString then Ok []
      else match element with
           | None => Ok [Provider.newTreeItem sourceFileCache workspacePath true false]
           | Some element =>
               if Provider.isBarrel element
               then Provider.getChildrenOfBarrel createSourceFile disk sourceFileCache
                                                 cwd element
               else Ok (getChildrenOfDirectory sort sourceFileCache disk
                                               (Provider.directory element))
           end
  end.

End ProviderListing.

(** ** The counts of the provider that parses on every call *)

Module UncachedCounts.

(** The top-level nodes of kind [k] with a module specifier. *)
Definition countWithSpecifier (k : ts.SyntaxKind.t) (sourceFile : ts.Node) : nat :=
  fold_left (fun count node =>
               match ts.moduleSpecifier node with
               | Some _ => if ts.isKind k node then S count else count
               | None => count
               end)
            (ts.children sourceFile) 0.

Definition getNumberOfExports (createSourceFile : Parser) (disk : fs.Disk)
    (filePath : string) : Result nat :=
  match fs.readFileSync disk filePath with
  | Throw e => Throw e
  | Ok text =>
      match createSourceFile filePath text with
      | None => Throw SyntaxError
      | Some sourceFile => Ok (countWithSpecifier ts.SyntaxKind.ExportDeclaration sourceFile)
      end
  end.

Definition getNumberOfImports (createSourceFile : Parser) (disk : fs.Disk)
    (filePath : string) : Result nat :=
  match fs.readFileSync disk filePath with
  | Throw e => Throw e
  | Ok text =>
      match createSourceFile filePath text with
      | None => Throw SyntaxError
      | Some sourceFile => Ok (countWithSpecifier ts.SyntaxKind.ImportDeclaration sourceFile)
      end
  end.

End UncachedCounts.

(** ** Notions the statements about the whole tree use *)

Module Notions.

(** The number of nodes of the tree of [n] that bear an export: export
    declarations, export assignments and nodes with the [export]
    modifier. *)
Fixpoint exportStatements (n : ts.Node) : nat :=
  (if ts.isExportDeclaration n || ts.isExportAssignment n || ts.hasExportModifier n
   then 1 else 0)
  + fold_right (fun child k => exportStatements child + k) 0 (ts.children n).

Definition noCounts : Provider.SymbolCounts :=
  {| Provider.value := []; Provider.type := [] |}.

(** The arrays of [c] followed by those of [d]. *)
Definition appendCounts (c d : Provider.SymbolCounts) : Provider.SymbolCounts :=
  {| Provider.value := Provider.value c ++ Provider.value d;
     Provider.type := Provider.type c ++ Provider.type d |}.

(** The counts of a file that has no record. *)
Definition zeroCounts : Provider.Counts :=
  {| Provider.exportSymbolCount := 0;
     Provider.valueExportCount := 0;
     Provider.typeExportCount := 0;
     Provider.importSymbolCount := 0;
     Provider.valueImportCount := 0;
     Provider.typeImportCount := 0 |}.

(** A top-level node of kind [k] with a module specifier. *)
Definition withSpecifier (k : ts.SyntaxKind.t) (node : ts.Node) : bool :=
  match ts.moduleSpecifier node with
  | Some _ => ts.isKind k node
  | None => false
  end.

(** The number of nodes of the tree of [n] that are import declarations
    or import-equals declarations. *)
Fixpoint importStatements (n : ts.Node) : nat :=
  (if ts.isImportDeclaration n || ts.isImportEqualsDeclaration n then 1 else 0)
  + fold_right (fun child k => importStatements child + k) 0 (ts.children n).

(** A node of the tree of [n] is an enum exported through its modifier. *)
Fixpoint exportsEnum (n : ts.Node) : bool :=
  (negb (ts.isExportDeclaration n) && negb (ts.isExportAssignment n)
   && ts.hasExportModifier n && ts.isEnumDeclaration n)
  || existsb exportsEnum (ts.children n).

(** What the disk holds under a path, parsed. *)
Definition parsedAt (createSourceFile : Parser) (disk : fs.Disk) (filePath : string)
    : option ts.Node :=
  match fs.readFileSync disk filePath with
  | Ok text => createSourceFile filePath text
  | Throw _ => None
  end.

(** Every record of the cache is the parse of what the disk holds. *)
Definition cacheOnDisk (createSourceFile : Parser) (disk : fs.Disk)
    (sourceFileCache : Provider.SourceFileCache) : Prop :=
  forall filePath sourceFile,
    sourceFileCache !! filePath = Some sourceFile ->
    parsedAt createSourceFile disk filePath = Some sourceFile.

(** The file is named [*index.ts]. *)
Definition namedIndex (f : string * string * option string) : bool :=
  let '(_, name, _) := f in JsString.endsWith name "index.ts".

(** The paths of the files of a listing that are named [*index.ts]. *)
Definition indexPaths (files : list (string * string * option string)) : list string :=
  map (fun f => fst (fst f)) (List.filter namedIndex files).

(** A file named [*index.ts] can be read and parsed. *)
Definition parsableIndex (createSourceFile : Parser) (disk : fs.Disk)
    (f : string * string * option string) : bool :=
  let '(filePath, name, _) := f in
  if JsString.endsWith name "index.ts"
  then match parsedAt createSourceFile disk filePath with Some _ => true | None => false end
  else true.

(** The statement is an export declaration with a string literal as its
    module specifier: what [parseBarrel] resolves. *)
Definition reExport (node : ts.Node) : bool :=
  match ts.moduleSpecifier node with
  | Some spec => ts.isExportDeclaration node && ts.isStringLiteral spec
  | None => false
  end.

Definition specifierText (node : ts.Node) : string :=
  match ts.moduleSpecifier node with
  | Some spec => ts.text spec
  | None => EmptyString
  end.

(** A property of the [barrelFiles] array and [pathCache] that a call of
    [parseBarrel] followed by the push of its result keeps. *)
Definition keptByParse (createSourceFile : Parser) (disk : fs.Disk)
    (I : list Treeview.BarrelFile * Treeview.PathCache -> Prop) : Prop :=
  forall filePath barrelFiles pathCache,
    I (barrelFiles, pathCache) ->
    match Treeview.parseBarrel createSourceFile disk filePath pathCache with
    | (Ok barrel, pathCache') => I (barrelFiles ++ [barrel], pathCache')
    | (Throw _, pathCache') => I (barrelFiles, pathCache')
    end.

(** Every entry of the barrel is on the disk. *)
Definition entriesOnDisk (disk : fs.Disk) (barrel : Treeview.BarrelFile) : Prop :=
  Forall (fun e => fs.existsSync disk (Treeview.path e) = true) (Treeview.exports barrel).

(** What an entry of a barrel keeps of its declaration: the specifier
    without a final [.d.ts], and the type-only flag. *)
Definition entryOrigin (e : Treeview.ExportedModuleInfo) : string * bool :=
  (Treeview.moduleName e, Treeview.isTypeOnly e).

Definition declarationOrigin (node : ts.Node) : string * bool :=
  (JsString.stripDts (specifierText node), ts.isTypeOnly node).

End Notions.

(** * Facts *)

(** ** Paths *)

(** The model of [node:path] on the examples of its documentation. *)
Example path_documented :
  path.joinAll ["/foo"; "bar"; "baz/asdf"; "quux"; ".."] = "/foo/bar/baz/asdf"
  /\ path.normalize "/foo/bar//baz/asdf/quux/.." = "/foo/bar/baz/asdf"
  /\ path.dirname "/foo/bar/baz/asdf/quux" = "/foo/bar/baz/asdf"
  /\ path.basename "/foo/bar/baz/asdf/quux.html" = "quux.html"
  /\ path.extname "index.html" = ".html"
  /\ path.extname "index.coffee.md" = ".md"
  /\ path.extname "index." = "."
  /\ path.extname "index" = EmptyString
  /\ path.extname ".index" = EmptyString
  /\ path.extname ".index.md" = ".md"
  /\ path.resolve "/" "/foo/bar" "./baz" = "/foo/bar/baz"
  /\ path.resolve "/" "/foo/bar" "/tmp/file/" = "/tmp/file".
Proof. repeat split. Qed.

(** The paths of the package scenario. *)
Example path_scenario :
  path.dirname "/ws/pkg/index.ts" = "/ws/pkg"
  /\ path.join "/ws/pkg" "./a" = "/ws/pkg/a"
  /\ path.join "/ws/pkg" ("./a" +:+ ".ts") = "/ws/pkg/a.ts"
  /\ path.join3 "/ws/pkg" "./a" ("index" +:+ ".d.ts") = "/ws/pkg/a/index.d.ts"
  /\ path.join "/ws/pkg" "../lib/x.ts" = "/ws/lib/x.ts".
Proof. repeat split. Qed.

Lemma append_cons ch (a b : string) : String ch a +:+ b = String ch (a +:+ b).
Proof. reflexivity. Qed.

Lemma append_assoc (a b c : string) : (a +:+ b) +:+ c = a +:+ (b +:+ c).
Proof.
  induction a as [|ch a IH]; [reflexivity|]. rewrite !append_cons. now f_equal.
Qed.

Lemma append_length (a b : string) :
  String.length (a +:+ b) = String.length a + String.length b.
Proof.
  induction a as [|ch a IH]; [reflexivity|]. rewrite append_cons. simpl. now f_equal.
Qed.

Lemma split_nonempty s : path.split s <> [].
Proof.
  destruct s as [|c s]; simpl; [discriminate|].
  destruct (path.isSep c); [discriminate|]. now destruct (path.split s).
Qed.

Lemma split_app_sep a c :
  path.split (a +:+ String "/" c) = path.split a ++ path.split c.
Proof.
  induction a as [|ch a IH]; [reflexivity|]. rewrite append_cons.
  cbn [path.split]. destruct (path.isSep ch); [now rewrite IH|].
  rewrite IH. destruct (path.split a) as [|h t] eqn:Ha; [|reflexivity].
  now apply split_nonempty in Ha.
Qed.

Lemma lastIsSep_app a s :
  s <> EmptyString -> path.lastIsSep (a +:+ s) = path.lastIsSep s.
Proof.
  intros Hs. induction a as [|ch a IH]; [reflexivity|]. rewrite append_cons.
  cbn [path.lastIsSep]. destruct (a +:+ s) eqn:Has; [|exact IH].
  destruct a; [contradiction|discriminate].
Qed.

Lemma concat_snoc sep l x :
  String.concat sep (l ++ [x]) =
  match l with
  | [] => x
  | _ => String.concat sep l +:+ sep +:+ x
  end.
Proof.
  induction l as [|y l IH]; [reflexivity|].
  simpl. destruct l as [|z l]; simpl in *.
  - reflexivity.
  - rewrite IH. now rewrite !append_assoc.
Qed.

Lemma endsWith_app_long a s p :
  String.length p <= String.length s ->
  JsString.endsWith (a +:+ s) p = JsString.endsWith s p.
Proof.
  intros Hlen. induction a as [|ch a IH]; [reflexivity|]. rewrite append_cons.
  cbn [JsString.endsWith]. rewrite IH.
  destruct (String.eqb_spec (String ch (a +:+ s)) p) as [Heq|]; [|reflexivity].
  apply (f_equal String.length) in Heq. simpl in Heq. rewrite append_length in Heq. lia.
Qed.

Lemma split_dot_slash seg : path.split ("./" +:+ seg) = "." :: path.split seg.
Proof. reflexivity. Qed.

(** A plain segment appended as [./seg] is the last segment of the join. *)
Lemma join_dot_segment baseDir seg :
  path.split seg = [seg] -> path.lastIsSep seg = false ->
  (forall allow st, path.normStep allow st seg = seg :: st) ->
  path.join baseDir ("./" +:+ seg) = seg
  \/ exists pre, path.join baseDir ("./" +:+ seg) = pre +:+ "/" +:+ seg.
Proof.
  intros Hsplit Hlast Hstep.
  assert (Hseg : seg <> EmptyString).
  { intros ->. specialize (Hstep true []). discriminate Hstep. }
  assert (Hnorm : forall p l,
             p <> EmptyString -> path.lastIsSep p = false ->
             path.split p = l ++ ["."; seg] ->
             path.normalize p = seg \/ exists pre, path.normalize p = pre +:+ "/" +:+ seg).
  { intros p l Hp Htrail Hl. unfold path.normalize, path.normalizeString.
    apply String.eqb_neq in Hp. rewrite Hp, Htrail, Hl, fold_left_app.
    cbn [fold_left]. rewrite Hstep.
    change (path.normStep (negb (path.firstIsSep p)) (fold_left _ l []) ".")
      with (fold_left (path.normStep (negb (path.firstIsSep p))) l []).
    cbn [rev]. rewrite concat_snoc.
    set (st := rev (fold_left _ l [])). clearbody st.
    destruct st as [|s st].
    - apply String.eqb_neq in Hseg. rewrite Hseg.
      destruct (path.firstIsSep p); [right; now exists EmptyString|now left].
    - set (q := String.concat "/" (s :: st) +:+ "/" +:+ seg).
      assert (Hq : String.eqb q EmptyString = false).
      { apply String.eqb_neq. intros Hq. apply (f_equal String.length) in Hq.
        unfold q in Hq. rewrite !append_length in Hq. simpl in Hq. lia. }
      rewrite Hq. right. destruct (path.firstIsSep p).
      + exists ("/" +:+ String.concat "/" (s :: st)). unfold q. now rewrite !append_assoc.
      + now exists (String.concat "/" (s :: st)). }
  unfold path.join, path.joinAll. cbn [List.filter].
  assert (Hd : String.eqb ("./" +:+ seg) EmptyString = false) by reflexivity.
  rewrite Hd. cbn [negb].
  destruct (String.eqb baseDir EmptyString) eqn:Hb; cbn [negb String.concat].
  - apply (Hnorm _ []); [discriminate| |].
    + now rewrite (lastIsSep_app "./" seg Hseg).
    + now rewrite split_dot_slash, Hsplit.
  - apply (Hnorm _ (path.split baseDir)).
    + apply String.eqb_neq in Hb. destruct baseDir; [contradiction|discriminate].
    + change (baseDir +:+ "/" +:+ "./" +:+ seg) with (baseDir +:+ ("/./" +:+ seg)).
      rewrite lastIsSep_app by discriminate.
      now rewrite (lastIsSep_app "/./" seg Hseg).
    + change (baseDir +:+ "/" +:+ "./" +:+ seg) with (baseDir +:+ String "/" ("./" +:+ seg)).
      now rewrite split_app_sep, split_dot_slash, Hsplit.
Qed.

(** The [.ts] candidate of [./x] ends in [.ts] and not in [.d.ts]; the
    [.d.ts] candidate ends in [.d.ts]. *)
Lemma join_x_ts baseDir :
  JsString.endsWith (path.join baseDir "./x.ts") ".ts" = true
  /\ JsString.endsWith (path.join baseDir "./x.ts") ".d.ts" = false.
Proof.
  assert (H := join_dot_segment baseDir "x.ts" eq_refl eq_refl (fun _ _ => eq_refl)).
  change ("./" +:+ "x.ts") with "./x.ts" in H. destruct H as [->|[pre ->]].
  - split; reflexivity.
  - change (pre +:+ "/" +:+ "x.ts") with (pre +:+ "/x.ts").
    rewrite !endsWith_app_long by (simpl; lia). split; reflexivity.
Qed.

Lemma join_x_d_ts baseDir :
  JsString.endsWith (path.join baseDir "./x.d.ts") ".d.ts" = true.
Proof.
  assert (H := join_dot_segment baseDir "x.d.ts" eq_refl eq_refl (fun _ _ => eq_refl)).
  change ("./" +:+ "x.d.ts") with "./x.d.ts" in H. destruct H as [->|[pre ->]].
  - reflexivity.
  - change (pre +:+ "/" +:+ "x.d.ts") with (pre +:+ "/x.d.ts").
    rewrite endsWith_app_long by (simpl; lia). reflexivity.
Qed.


(** Induction on a node, with the property for all its children. *)
Lemma Node_ind' (P : ts.Node -> Prop) :
  (forall n, Forall P (ts.children n) -> P n) -> forall n, P n.
Proof.
  intros step. fix IH 1. intros [k ms t ec spec ic cs]. apply step. simpl.
  induction cs as [|c cs IHcs]; constructor; [apply IH|exact IHcs].
Qed.

Lemma countExports_eq node c :
  Provider.countExports node c =
  fold_left (fun c child => Provider.countExports child c) (ts.children node)
            (Provider.countExportsHere node c).
Proof. destruct node; reflexivity. Qed.

Lemma exportBearing_eq n :
  ts.exportBearing n =
  ts.isExportDeclaration n || ts.isExportAssignment n || ts.hasExportModifier n
  || existsb ts.exportBearing (ts.children n).
Proof. destruct n; reflexivity. Qed.

Lemma countExports_exportFree node :
  ts.exportBearing node = false -> forall c, Provider.countExports node c = c.
Proof.
  induction node as [n IH] using Node_ind'.
  rewrite exportBearing_eq. intros Hfree c.
  apply orb_false_elim in Hfree as [Hfree Hkids].
  apply orb_false_elim in Hfree as [Hfree Hmod].
  apply orb_false_elim in Hfree as [Hdecl Hassign].
  rewrite countExports_eq. unfold Provider.countExportsHere.
  rewrite Hdecl, Hassign, Hmod.
  revert c. induction (ts.children n) as [|k ks IHks]; intros c; [reflexivity|].
  simpl in Hkids. apply orb_false_elim in Hkids as [Hk Hks].
  apply Forall_cons in IH as [IHk IHrest].
  simpl. rewrite IHk by exact Hk. apply IHks; assumption.
Qed.


Lemma countExports_fold_exportFree l :
  ts.exportFree l = true ->
  forall c, fold_left (fun c child => Provider.countExports child c) l c = c.
Proof.
  induction l as [|n l IH]; intros Hfree c; [reflexivity|].
  simpl in Hfree. apply andb_prop in Hfree as [Hn Hl].
  simpl. rewrite countExports_exportFree by (now apply negb_true_iff). now apply IH.
Qed.

Lemma numberOfImportsIn_eq t node k :
  Provider.numberOfImportsIn t node k =
  fold_left (fun n child => Provider.numberOfImportsIn t child n) (ts.children node)
            (k + Provider.numberOfImportsHere t node).
Proof. destruct node; reflexivity. Qed.

Lemma importBearing_eq n :
  ts.importBearing n =
  ts.isImportDeclaration n || ts.isImportEqualsDeclaration n
  || existsb ts.importBearing (ts.children n).
Proof. destruct n; reflexivity. Qed.

Lemma numberOfImportsIn_importFree t node :
  ts.importBearing node = false -> forall k, Provider.numberOfImportsIn t node k = k.
Proof.
  induction node as [n IH] using Node_ind'.
  rewrite importBearing_eq. intros Hfree k.
  apply orb_false_elim in Hfree as [Hfree Hkids].
  apply orb_false_elim in Hfree as [Hdecl Heq].
  rewrite numberOfImportsIn_eq. unfold Provider.numberOfImportsHere.
  rewrite Hdecl, Heq, Nat.add_0_r.
  revert k. induction (ts.children n) as [|c cs IHcs]; intros k; [reflexivity|].
  simpl in Hkids. apply orb_false_elim in Hkids as [Hc Hcs].
  apply Forall_cons in IH as [IHc IHrest].
  simpl. rewrite IHc by exact Hc. apply IHcs; assumption.
Qed.

Lemma numberOfImportsIn_fold_importFree t l :
  ts.importFree l = true ->
  forall k, fold_left (fun n child => Provider.numberOfImportsIn t child n) l k = k.
Proof.
  induction l as [|n l IH]; intros Hfree k; [reflexivity|].
  simpl in Hfree. apply andb_prop in Hfree as [Hn Hl].
  simpl. rewrite numberOfImportsIn_importFree by (now apply negb_true_iff). now apply IH.
Qed.

Lemma isKind_true k n : ts.isKind k n = true -> ts.kind n = k.
Proof. unfold ts.isKind. intros H. now apply bool_decide_eq_true in H. Qed.

Lemma isKind_other k k' n : ts.kind n = k -> k <> k' -> ts.isKind k' n = false.
Proof. unfold ts.isKind. intros -> Hne. now apply bool_decide_eq_false. Qed.

Lemma exportDeclaration_no_import t d :
  ts.isExportDeclaration d = true -> ts.importFree (ts.children d) = true ->
  forall k, Provider.numberOfImportsIn t d k = k.
Proof.
  intros Hd Hkids k. apply isKind_true in Hd.
  rewrite numberOfImportsIn_eq. unfold Provider.numberOfImportsHere.
  unfold ts.isImportDeclaration, ts.isImportEqualsDeclaration.
  rewrite (isKind_other _ ts.SyntaxKind.ImportDeclaration _ Hd),
    (isKind_other _ ts.SyntaxKind.ImportEqualsDeclaration _ Hd) by done.
  rewrite Nat.add_0_r. now apply numberOfImportsIn_fold_importFree.
Qed.

(** Removing an export declaration from the statements of a source file
    leaves the number of imports as it is. *)
Lemma numberOfImports_without_export t pre d post :
  ts.isExportDeclaration d = true -> ts.importFree (ts.children d) = true ->
  Provider.numberOfImportsIn t (ts.sourceFile (pre ++ d :: post)) 0 =
  Provider.numberOfImportsIn t (ts.sourceFile (pre ++ post)) 0.
Proof.
  intros Hd Hkids. rewrite !numberOfImportsIn_eq. cbn [ts.sourceFile ts.children].
  rewrite <- !app_assoc, !fold_left_app. cbn [fold_left app].
  change (Provider.numberOfImportsHere t (ts.sourceFile (pre ++ d :: post))) with 0.
  change (Provider.numberOfImportsHere t (ts.sourceFile (pre ++ post))) with 0.
  rewrite (exportDeclaration_no_import t d) by assumption. reflexivity.
Qed.

Lemma typeOnly_named_reexport_counts pre d post names :
  ts.isExportDeclaration d = true -> ts.isTypeOnly d = true ->
  ts.namedExports d = Some names ->
  ts.exportFree (ts.children d) = true -> ts.exportFree pre = true -> ts.exportFree post = true ->
  Provider.countExports (ts.sourceFile (pre ++ d :: post))
                        {| Provider.value := []; Provider.type := [] |}
  = {| Provider.value := []; Provider.type := [length names] |}.
Proof.
  intros Hd Hty Hnamed Hkids Hpre Hpost.
  rewrite countExports_eq. cbn [ts.sourceFile ts.children].
  change (Provider.countExportsHere _ _) with {| Provider.value := []; Provider.type := [] |}.
  rewrite <- app_assoc, fold_left_app, (countExports_fold_exportFree pre Hpre).
  cbn [fold_left app].
  rewrite (countExports_eq d). unfold Provider.countExportsHere.
  rewrite Hd. unfold Provider.handleExportDeclaration. rewrite Hty, Hnamed.
  rewrite (countExports_fold_exportFree _ Hkids).
  rewrite fold_left_app, (countExports_fold_exportFree post Hpost).
  reflexivity.
Qed.

(** C6, amended: a source file whose one export-bearing statement is a
    type-only re-export of a list of names gets, from the constructor of
    [TreeItem], an export symbol count of the number of names, a type
    export count of one (the statement), a value export count of zero, and
    the import counts of the file without the statement. *)
Theorem counts_single_type_reexport
    (sourceFileCache : gmap string ts.Node) (filePath : string)
    (pre post : list ts.Node) (d : ts.Node) (names : list string) :
  sourceFileCache !! filePath = Some (ts.sourceFile (pre ++ d :: post)) ->
  ts.isExportDeclaration d = true -> ts.isTypeOnly d = true ->
  ts.namedExports d = Some names ->
  ts.exportFree (ts.children d) = true -> ts.importFree (ts.children d) = true ->
  ts.exportFree pre = true -> ts.exportFree post = true ->
  let stats := Provider.counts sourceFileCache filePath in
  let without :=
    Provider.counts (<[filePath := ts.sourceFile (pre ++ post)]> sourceFileCache) filePath in
  Provider.exportSymbolCount stats = length names
  /\ Provider.typeExportCount stats = 1
  /\ Provider.valueExportCount stats = 0
  /\ Provider.importSymbolCount stats = Provider.importSymbolCount without
  /\ Provider.valueImportCount stats = Provider.valueImportCount without
  /\ Provider.typeImportCount stats = Provider.typeImportCount without.
Proof.
  intros Hsf Hd Hty Hnamed Hkids Himp Hpre Hpost stats without.
  subst stats without. unfold Provider.counts, Provider.getExportSymbolCounts,
    Provider.getNumberOfImports.
  rewrite Hsf, lookup_insert_eq.
  rewrite (typeOnly_named_reexport_counts pre d post names) by assumption.
  rewrite !(numberOfImports_without_export _ pre d post) by assumption.
  cbn. repeat split; lia.
Qed.

(** The amended C6 at an import followed by a type-only re-export of
    three names. *)
Lemma counts_single_type_reexport_witness :
  let d := ts.exportNamedFrom true ["A"; "B"; "C"] "./x" in
  let sf := ts.sourceFile [ts.importFrom false "./y"; d] in
  let stats := Provider.counts {["/ws/m.ts" := sf]} "/ws/m.ts" in
  Provider.exportSymbolCount stats = 3
  /\ Provider.typeExportCount stats = 1
  /\ Provider.valueExportCount stats = 0
  /\ Provider.importSymbolCount stats = 1.
Proof.
  intros d sf stats.
  destruct (counts_single_type_reexport {["/ws/m.ts" := sf]} "/ws/m.ts"
              [ts.importFrom false "./y"] [] d ["A"; "B"; "C"])
    as (Hsym & Hty & Hval & Himp & _); try reflexivity.
  repeat split; assumption.
Defined.

(** C6, as stated, fails: a type-only re-export of two members gives a
    type count of one, not two. *)
Lemma typeExportCount_is_not_member_count :
  let sf := ts.sourceFile [ts.exportNamedFrom true ["A"; "B"] "./x"] in
  Provider.typeExportCount (Provider.counts {["/ws/m.ts" := sf]} "/ws/m.ts")
  <> length ["A"; "B"].
Proof. vm_compute. discriminate. Qed.

(** The barrel of the package scenario: two exported symbols, one value
    statement and one type statement, no imports. *)
Example counts_pkg_index :
  let sourceFileCache :=
    Provider.scanAndCacheSourceFiles Scenario.parse Scenario.disk "/ws" ∅ in
  Provider.counts sourceFileCache "/ws/pkg/index.ts"
  = {| Provider.exportSymbolCount := 2;
       Provider.valueExportCount := 1;
       Provider.typeExportCount := 1;
       Provider.importSymbolCount := 0;
       Provider.valueImportCount := 0;
       Provider.typeImportCount := 0 |}
  /\ Provider.checkBarrelFile sourceFileCache "/ws/pkg/index.ts" = true.
Proof. vm_compute. split; reflexivity. Qed.

(** ** Barrel detection *)

Lemma fold_left_flag {A} (f : A -> bool) (l : list A) (b : bool) :
  fold_left (fun acc x => if f x then true else acc) l b = b || existsb f l.
Proof.
  revert b. induction l as [|x l IH]; intros b; simpl.
  - now rewrite orb_false_r.
  - rewrite IH. destruct (f x), b; reflexivity.
Qed.

Lemma fold_left_pointwise {A B} (f g : A -> B -> A) :
  (forall a x, f a x = g a x) -> forall l a, fold_left f l a = fold_left g l a.
Proof.
  intros Hfg l. induction l as [|x l IH]; intros a; simpl; [reflexivity|].
  now rewrite Hfg, IH.
Qed.

(** The uncached [checkBarrelFile] answers [true] exactly for a source
    file with a re-export-from declaration at top level. *)
Lemma checkBarrelFile_uncached_iff createSourceFile disk filePath text sf :
  fs.readFileSync disk filePath = Ok text ->
  createSourceFile filePath text = Some sf ->
  exists b, ProviderUncached.checkBarrelFile createSourceFile disk filePath = Ok b
            /\ (b = true <-> ts.hasReExportFrom sf).
Proof.
  intros Hread Hparse. unfold ProviderUncached.checkBarrelFile.
  rewrite Hread, Hparse. eexists; split; [reflexivity|].
  rewrite (fold_left_pointwise _ (fun acc node =>
             if ts.isExportDeclaration node && bool_decide (ts.moduleSpecifier node <> None)
             then true else acc)).
  2:{ intros acc node. destruct (ts.moduleSpecifier node), (ts.isExportDeclaration node);
      reflexivity. }
  rewrite fold_left_flag. simpl. rewrite existsb_exists. unfold ts.hasReExportFrom.
  split.
  - intros (node & Hin & Hnode). apply andb_prop in Hnode as [Hk Hs].
    apply bool_decide_eq_true in Hs. eauto.
  - intros (node & Hin & Hk & Hs). exists node. split; [assumption|].
    rewrite Hk. now apply bool_decide_eq_true.
Qed.

(** It answers [false] for a source file without export-bearing
    declarations. *)
Lemma checkBarrelFile_uncached_exportFree createSourceFile disk filePath text sf :
  fs.readFileSync disk filePath = Ok text ->
  createSourceFile filePath text = Some sf ->
  ts.exportFree (ts.children sf) = true ->
  ProviderUncached.checkBarrelFile createSourceFile disk filePath = Ok false.
Proof.
  intros Hread Hparse Hfree.
  destruct (checkBarrelFile_uncached_iff _ _ _ _ _ Hread Hparse) as (b & -> & Hb).
  destruct b; [|reflexivity]. destruct Hb as [Hb _].
  destruct (Hb eq_refl) as (node & Hin & Hk & _).
  unfold ts.exportFree in Hfree. rewrite forallb_forall in Hfree.
  specialize (Hfree node Hin). apply negb_true_iff in Hfree.
  destruct node; simpl in *. rewrite Hk in Hfree. discriminate.
Qed.

(** The cached [checkBarrelFile] answers [true] exactly for a cached
    source file with an export declaration at top level, with or without
    a module specifier. *)
Lemma checkBarrelFile_cached_iff (sourceFileCache : gmap string ts.Node) filePath :
  Provider.checkBarrelFile sourceFileCache filePath = true <->
  exists sf node, sourceFileCache !! filePath = Some sf
                  /\ In node (ts.children sf) /\ ts.isExportDeclaration node = true.
Proof.
  unfold Provider.checkBarrelFile. destruct (sourceFileCache !! filePath) as [sf|].
  - rewrite fold_left_flag. simpl. rewrite existsb_exists. split.
    + intros (node & Hin & Hk). eauto.
    + intros (sf' & node & [= <-] & Hin & Hk). eauto.
  - split; [discriminate|]. intros (sf & node & [=] & _).
Qed.

(** It too answers [false] for a source file without export-bearing
    declarations. *)
Lemma checkBarrelFile_cached_exportFree (sourceFileCache : gmap string ts.Node) filePath sf :
  sourceFileCache !! filePath = Some sf -> ts.exportFree (ts.children sf) = true ->
  Provider.checkBarrelFile sourceFileCache filePath = false.
Proof.
  intros Hsf Hfree. apply not_true_is_false. rewrite checkBarrelFile_cached_iff.
  intros (sf' & node & Hsf' & Hin & Hk). rewrite Hsf in Hsf'. injection Hsf' as <-.
  unfold ts.exportFree in Hfree. rewrite forallb_forall in Hfree.
  specialize (Hfree node Hin). apply negb_true_iff in Hfree.
  destruct node; simpl in *. rewrite Hk in Hfree. discriminate.
Qed.

(** C1: the cached [checkBarrelFile] reports a module whose only export
    declaration has no module specifier as a barrel. *)
Theorem checkBarrelFile_accepts_local_export :
  let sourceFileCache :=
    Provider.cacheSourceFile Scenario.parse
      [fs.Directory "ws" [fs.File "index.ts" (Some Scenario.localText)]]
      "/ws/index.ts" ∅ in
  exists sf, sourceFileCache !! "/ws/index.ts" = Some sf
             /\ ~ ts.hasReExportFrom sf
             /\ Provider.checkBarrelFile sourceFileCache "/ws/index.ts" = true.
Proof.
  eexists. split; [vm_compute; reflexivity|]. split; [|vm_compute; reflexivity].
  intros (node & Hin & Hk & Hs). simpl in Hin.
  destruct Hin as [<-|[<-|[<-|[]]]]; first [discriminate Hk | now apply Hs].
Qed.

(** ** Classification of exports *)

(** [handleExportKeyword]: a node that is exported through its modifier
    adds one unit, to the type bucket for a type alias or an interface, to
    the value bucket otherwise (an enum included). *)
Lemma countExportsHere_modifier node c :
  ts.isExportDeclaration node = false -> ts.isExportAssignment node = false ->
  ts.hasExportModifier node = true ->
  Provider.countExportsHere node c =
  if ts.isTypeAliasDeclaration node || ts.isInterfaceDeclaration node
  then Provider.pushType 1 c else Provider.pushValue 1 c.
Proof.
  intros Hd Ha Hm. unfold Provider.countExportsHere, Provider.handleExportKeyword.
  rewrite Hd, Ha, Hm.
  destruct (ts.isEnumDeclaration node) eqn:He; [|reflexivity].
  apply isKind_true in He.
  unfold ts.isTypeAliasDeclaration, ts.isInterfaceDeclaration.
  rewrite (isKind_other _ ts.SyntaxKind.TypeAliasDeclaration _ He),
    (isKind_other _ ts.SyntaxKind.InterfaceDeclaration _ He) by done.
  reflexivity.
Qed.

(** [getNumberOfExports] at the same node: the enum is taken for a type. *)
Lemma numberOfExportsHere_modifier typeOnly node :
  ts.isExportDeclaration node = false -> ts.isExportAssignment node = false ->
  ts.hasExportModifier node = true ->
  Provider.numberOfExportsHere typeOnly node =
  let isType := ts.isTypeAliasDeclaration node || ts.isInterfaceDeclaration node
                || ts.isEnumDeclaration node in
  if eqb typeOnly isType then 1 else 0.
Proof.
  intros Hd Ha Hm. unfold Provider.numberOfExportsHere. rewrite Hd, Ha, Hm. simpl.
  destruct typeOnly, (_ || _ || _); reflexivity.
Qed.

(** C7: for an exported enum, [getExportSymbolCounts] adds one unit to the
    value bucket, and [getNumberOfExports] counts it as a type. *)
Theorem getNumberOfExports_counts_enum_as_type :
  let sourceFileCache :=
    Provider.cacheSourceFile Scenario.parse
      [fs.Directory "ws" [fs.File "index.ts" (Some Scenario.enumText)]]
      "/ws/index.ts" ∅ in
  Provider.getExportSymbolCounts sourceFileCache "/ws/index.ts"
    = {| Provider.value := [1]; Provider.type := [] |}
  /\ Provider.getNumberOfExports sourceFileCache "/ws/index.ts" false = 0
  /\ Provider.getNumberOfExports sourceFileCache "/ws/index.ts" true = 1.
Proof. vm_compute. repeat split. Qed.

(** ** The source-file cache *)

(** A file that cannot be read or parsed leaves no record under its path. *)
Lemma cacheSourceFile_absent createSourceFile disk filePath
    (sourceFileCache : gmap string ts.Node) :
  (forall text, fs.readFileSync disk filePath = Ok text ->
                createSourceFile filePath text = None) ->
  Provider.cacheSourceFile createSourceFile disk filePath sourceFileCache !! filePath = None.
Proof.
  intros Hbad. unfold Provider.cacheSourceFile.
  destruct (fs.readFileSync disk filePath) as [text|e].
  - rewrite (Hbad text eq_refl). apply lookup_delete_eq.
  - apply lookup_delete_eq.
Qed.

(** The records of the other paths stay. *)
Lemma cacheSourceFile_other createSourceFile disk filePath other
    (sourceFileCache : gmap string ts.Node) :
  filePath <> other ->
  Provider.cacheSourceFile createSourceFile disk filePath sourceFileCache !! other
  = sourceFileCache !! other.
Proof.
  intros Hne. unfold Provider.cacheSourceFile.
  destruct (fs.readFileSync disk filePath) as [text|e].
  - destruct (createSourceFile filePath text).
    + now apply lookup_insert_ne.
    + now apply lookup_delete_ne.
  - now apply lookup_delete_ne.
Qed.

(** Without a record every query of the cached provider reports no facts. *)
Lemma no_record_no_facts (sourceFileCache : gmap string ts.Node) filePath typeOnly :
  sourceFileCache !! filePath = None ->
  Provider.getExportSymbolCounts sourceFileCache filePath
    = {| Provider.value := []; Provider.type := [] |}
  /\ Provider.getNumberOfExports sourceFileCache filePath typeOnly = 0
  /\ Provider.getNumberOfImports sourceFileCache filePath typeOnly = 0
  /\ Provider.checkBarrelFile sourceFileCache filePath = false.
Proof.
  intros Hnone. unfold Provider.getExportSymbolCounts, Provider.getNumberOfExports,
    Provider.getNumberOfImports, Provider.checkBarrelFile.
  rewrite Hnone. repeat split.
Qed.

(** [parseBarrel] has no handler: a failed read is thrown to its caller,
    and [pathCache] stays as it was. *)
Lemma parseBarrel_throws createSourceFile disk filePath
    (pathCache : gmap string (option string)) e :
  fs.readFileSync disk filePath = Throw e ->
  Treeview.parseBarrel createSourceFile disk filePath pathCache = (Throw e, pathCache).
Proof.
  intros Hread. unfold Treeview.parseBarrel, bind, lift. now rewrite Hread.
Qed.

(** C8: a workspace whose [index.ts] cannot be read makes the root query of
    the tree view throw, where [cacheSourceFile] drops the stale record;
    the barrel branch of the cached provider throws for a barrel that is
    no longer on the disk. *)
Theorem getChildren_throws_on_unreadable_index :
  let disk := [fs.Directory "ws" [fs.File "index.ts" None]] in
  let stale : gmap string ts.Node := {["/ws/index.ts" := ts.sourceFile []]} in
  fst (Treeview.getChildren Scenario.parse disk (Some ["/ws"]) None ∅) = Throw EACCES
  /\ Provider.cacheSourceFile Scenario.parse disk "/ws/index.ts" stale !! "/ws/index.ts"
     = None
  /\ Provider.getChildrenOfBarrel Scenario.parse [fs.Directory "ws" []] stale "/"
       (Provider.newTreeItem stale "/ws/index.ts" false true) = Throw ENOENT.
Proof. vm_compute. repeat split. Qed.

(** ** Resolution of module specifiers *)

(** On a miss of [pathCache] the candidates are probed in the order of
    [possiblePaths], and the first that exists is returned. *)
Lemma resolveModulePath_miss disk (pathCache : gmap string (option string))
    baseDir moduleSpecifier :
  pathCache !! path.join baseDir moduleSpecifier = None ->
  fst (Treeview.resolveModulePath disk pathCache baseDir moduleSpecifier)
  = find (fs.existsSync disk) (Treeview.possiblePaths baseDir moduleSpecifier).
Proof.
  intros Hmiss. unfold Treeview.resolveModulePath. rewrite Hmiss.
  now destruct (find _ _).
Qed.

(** On a hit the cached answer is returned, whatever the disk holds. *)
Lemma resolveModulePath_hit disk (pathCache : gmap string (option string))
    baseDir moduleSpecifier cached :
  pathCache !! path.join baseDir moduleSpecifier = Some cached ->
  Treeview.resolveModulePath disk pathCache baseDir moduleSpecifier = (cached, pathCache).
Proof. intros Hhit. unfold Treeview.resolveModulePath. now rewrite Hhit. Qed.

Lemma possiblePaths_eq baseDir s :
  Treeview.possiblePaths baseDir s =
  [path.join baseDir (s +:+ ".ts"); path.join3 baseDir s "index.ts";
   path.join baseDir (s +:+ ".tsx"); path.join3 baseDir s "index.tsx";
   path.join baseDir (s +:+ ".d.ts"); path.join3 baseDir s "index.d.ts";
   path.join baseDir (s +:+ ".patch.ts"); path.join3 baseDir s "index.patch.ts"].
Proof. reflexivity. Qed.

(** With [x.ts] and [x.d.ts] both in the base directory, a resolution of
    [./x] that probes the disk returns the [.ts] candidate, a path that
    ends in [.ts] and not in [.d.ts], whatever the order of the entries on
    the disk. *)
Lemma resolveModulePath_miss_prefers_ts disk (pathCache : gmap string (option string)) baseDir :
  pathCache !! path.join baseDir "./x" = None ->
  fs.existsSync disk (path.join baseDir "./x.ts") = true ->
  fs.existsSync disk (path.join baseDir "./x.d.ts") = true ->
  exists p,
    fst (Treeview.resolveModulePath disk pathCache baseDir "./x") = Some p
    /\ p = path.join baseDir "./x.ts"
    /\ p <> path.join baseDir "./x.d.ts"
    /\ JsString.endsWith p ".ts" = true
    /\ JsString.endsWith p ".d.ts" = false.
Proof.
  intros Hmiss Hts _. exists (path.join baseDir "./x.ts").
  destruct (join_x_ts baseDir) as [Hends Hnot]. repeat split; try assumption.
  - rewrite resolveModulePath_miss by assumption.
    rewrite possiblePaths_eq. cbn [find].
    change ("./x" +:+ ".ts") with "./x.ts". now rewrite Hts.
  - intros Heq. rewrite Heq, join_x_d_ts in Hnot. discriminate.
Qed.

(** C4: the root query of a folder whose barrel re-exports [./x] while
    [x.d.ts] alone is there, the creation of [x.ts] with its
    notification, and the root query again: with [x.ts] and [x.d.ts] both
    in the base directory, the resolution of [./x] returns the memoized
    path that ends in [.d.ts], and so does the barrel of the second
    query; a provider that starts on the same disk returns the path that
    ends in [.ts]. *)
Theorem resolveModulePath_returns_memoized_declaration :
  let rootQuery disk :=
    Treeview.query (Treeview.getChildren Scenario.parse disk Scenario.workspaceFolders None) in
  let st1 := snd (rootQuery Scenario.declarationDisk Treeview.initial) in
  let st2 := Treeview.onDidCreate "/ws/x.ts" st1 in
  fs.existsSync Scenario.sourceDisk (path.join "/ws" "./x.ts") = true
  /\ fs.existsSync Scenario.sourceDisk (path.join "/ws" "./x.d.ts") = true
  /\ fst (Treeview.resolveModulePath Scenario.sourceDisk (Treeview.pathCache st2) "/ws" "./x")
     = Some "/ws/x.d.ts"
  /\ JsString.endsWith "/ws/x.d.ts" ".d.ts" = true
  /\ Treeview.exportPaths (fst (rootQuery Scenario.sourceDisk st2)) = [["/ws/x.d.ts"]]
  /\ Treeview.exportPaths (fst (rootQuery Scenario.sourceDisk Treeview.initial))
     = [["/ws/x.ts"]].
Proof. vm_compute. repeat split. Qed.

(** A specifier of a directory is probed as [specifier/index.ts] once
    [specifier.ts] is not there. *)
Lemma resolveModulePath_probes_index disk (pathCache : gmap string (option string))
    baseDir moduleSpecifier :
  pathCache !! path.join baseDir moduleSpecifier = None ->
  fs.existsSync disk (path.join baseDir (moduleSpecifier +:+ ".ts")) = false ->
  fs.existsSync disk (path.join3 baseDir moduleSpecifier "index.ts") = true ->
  fst (Treeview.resolveModulePath disk pathCache baseDir moduleSpecifier)
  = Some (path.join3 baseDir moduleSpecifier "index.ts").
Proof.
  intros Hmiss Hts Hindex. rewrite resolveModulePath_miss by assumption.
  rewrite possiblePaths_eq. cbn [find]. now rewrite Hts, Hindex.
Qed.

(** Every candidate carries an extension appended to the specifier: when
    none of them exists the answer is [undefined], also when the path of
    the specifier itself exists. *)
Lemma resolveModulePath_none disk (pathCache : gmap string (option string))
    baseDir moduleSpecifier :
  pathCache !! path.join baseDir moduleSpecifier = None ->
  forallb (fun p => negb (fs.existsSync disk p))
          (Treeview.possiblePaths baseDir moduleSpecifier) = true ->
  fst (Treeview.resolveModulePath disk pathCache baseDir moduleSpecifier) = None.
Proof.
  intros Hmiss Hnone. rewrite resolveModulePath_miss by assumption.
  induction (Treeview.possiblePaths baseDir moduleSpecifier) as [|p ps IH]; [reflexivity|].
  simpl in *. apply andb_prop in Hnone as [Hp Hps].
  apply negb_true_iff in Hp. rewrite Hp. now apply IH.
Qed.

(** C5: [./a.ts] names an existing file of the barrel's directory, and
    [resolveModulePath] does not resolve it; the barrel branch of the
    cached provider does. *)
Theorem resolveModulePath_misses_specifier_with_extension :
  fs.existsSync Scenario.disk (path.join "/ws/pkg" "./a.ts") = true
  /\ fst (Treeview.resolveModulePath Scenario.disk ∅ "/ws/pkg" "./a.ts") = None
  /\ Provider.exportFilePathOf Scenario.disk "/" "/ws/pkg/index.ts"
       (ts.exportStar false "./a.ts") = Some "/ws/pkg/a.ts".
Proof. vm_compute. repeat split. Qed.

(** ** The resolution memo over time *)

(** A resolution keeps the memo on the disk, and answers with a path that
    is on the disk, as long as the memo was on the disk before. *)
Lemma resolveModulePath_onDisk disk (pathCache : gmap string (option string))
    baseDir moduleSpecifier :
  Treeview.memoOnDisk disk pathCache ->
  Treeview.memoOnDisk disk
    (snd (Treeview.resolveModulePath disk pathCache baseDir moduleSpecifier))
  /\ forall p, fst (Treeview.resolveModulePath disk pathCache baseDir moduleSpecifier) = Some p ->
               fs.existsSync disk p = true.
Proof.
  intros Hmemo. unfold Treeview.resolveModulePath.
  destruct (pathCache !! path.join baseDir moduleSpecifier) as [cached|] eqn:Hkey.
  - split; [assumption|]. simpl. intros p ->. eapply Hmemo, Hkey.
  - destruct (find _ _) as [p|] eqn:Hfind; simpl.
    + apply find_some in Hfind as [_ Hp]. split.
      * intros key q. rewrite lookup_insert. case_decide.
        -- now intros [= <-].
        -- apply Hmemo.
      * now intros q [= <-].
    + split; [|discriminate]. intros key q. rewrite lookup_insert. case_decide.
      * discriminate.
      * apply Hmemo.
Qed.

Lemma parseBarrelNode_onDisk disk barrelDir exports
    (pathCache : gmap string (option string)) node :
  Treeview.memoOnDisk disk pathCache ->
  Forall (fun e => fs.existsSync disk (Treeview.path e) = true) exports ->
  let st := Treeview.parseBarrelNode disk barrelDir (exports, pathCache) node in
  Treeview.memoOnDisk disk (snd st)
  /\ Forall (fun e => fs.existsSync disk (Treeview.path e) = true) (fst st).
Proof.
  intros Hmemo Hexports. unfold Treeview.parseBarrelNode.
  destruct (ts.moduleSpecifier node) as [spec|]; [|now split].
  destruct (ts.isExportDeclaration node && ts.isStringLiteral spec); [|now split].
  destruct (resolveModulePath_onDisk disk pathCache barrelDir (ts.text spec) Hmemo)
    as [Hmemo' Hres].
  destruct (Treeview.resolveModulePath disk pathCache barrelDir (ts.text spec))
    as [resolved pathCache'].
  simpl in Hmemo', Hres. unfold Treeview.truthy.
  destruct resolved as [p|]; [|now split].
  destruct (String.eqb p EmptyString); [now split|]. simpl. split; [assumption|].
  apply Forall_app. split; [assumption|]. constructor; [|constructor]. now apply Hres.
Qed.

(** Queries on a disk that does not change: from a memo on the disk, every
    entry of [parseBarrel] is on the disk, and so is the memo afterwards. *)
Lemma parseBarrel_onDisk createSourceFile disk filePath
    (pathCache pathCache' : gmap string (option string)) barrel :
  Treeview.memoOnDisk disk pathCache ->
  Treeview.parseBarrel createSourceFile disk filePath pathCache = (Ok barrel, pathCache') ->
  Treeview.memoOnDisk disk pathCache'
  /\ Forall (fun e => fs.existsSync disk (Treeview.path e) = true) (Treeview.exports barrel).
Proof.
  intros Hmemo. unfold Treeview.parseBarrel, bind, lift, throw.
  destruct (fs.readFileSync disk filePath) as [text|]; [|discriminate].
  destruct (createSourceFile filePath text) as [sf|]; [|discriminate].
  assert (Hinv : forall nodes exports (pc : gmap string (option string)),
             Treeview.memoOnDisk disk pc ->
             Forall (fun e => fs.existsSync disk (Treeview.path e) = true) exports ->
             let st := fold_left (Treeview.parseBarrelNode disk (path.dirname filePath))
                                 nodes (exports, pc) in
             Treeview.memoOnDisk disk (snd st)
             /\ Forall (fun e => fs.existsSync disk (Treeview.path e) = true) (fst st)).
  { induction nodes as [|node nodes IH]; intros exports pc Hpc Hex; [now split|].
    cbn [fold_left]. destruct (parseBarrelNode_onDisk disk (path.dirname filePath) exports pc node Hpc Hex)
      as [Hpc' Hex'].
    destruct (Treeview.parseBarrelNode disk (path.dirname filePath) (exports, pc) node)
      as [exports' pc'].
    now apply IH. }
  specialize (Hinv (ts.children sf) [] pathCache Hmemo (Forall_nil_2 _)).
  destruct (fold_left _ _ _) as [exports pc]. intros [= <- <-]. exact Hinv.
Qed.

Lemma memoOnDisk_empty disk : Treeview.memoOnDisk disk ∅.
Proof. intros key p. now rewrite lookup_empty. Qed.

(** C2: the root query, the deletion of [a.ts] with its notification, and
    the root query again: the barrel still lists [a.ts], which is not on
    the disk. *)
Theorem parseBarrel_lists_deleted_target :
  let rootQuery disk :=
    Treeview.query (Treeview.getChildren Scenario.parse disk Scenario.workspaceFolders None) in
  let st1 := snd (rootQuery Scenario.disk Treeview.initial) in
  let st2 := Treeview.onDidDelete "/ws/pkg/a.ts" st1 in
  exists barrel entry,
    fst (rootQuery Scenario.diskAfterDelete st2) = Ok [barrel]
    /\ In entry (Treeview.exports barrel)
    /\ Treeview.path entry = "/ws/pkg/a.ts"
    /\ fs.existsSync Scenario.diskAfterDelete (Treeview.path entry) = false.
Proof.
  do 2 eexists. split; [vm_compute; reflexivity|].
  split; [left; reflexivity|]. split; reflexivity.
Qed.

(** C3: no watcher callback of the tree view touches [pathCache]; in the
    package scenario the barrel lists [a.ts] and [b.ts] after
    [onDidDelete] as before, where a fresh provider lists [b.ts] alone. *)
Theorem onDidDelete_leaves_pathCache :
  (forall uri st,
      Treeview.pathCache (Treeview.onDidCreate uri st) = Treeview.pathCache st
      /\ Treeview.pathCache (Treeview.onDidChange uri st) = Treeview.pathCache st
      /\ Treeview.pathCache (Treeview.onDidDelete uri st) = Treeview.pathCache st)
  /\ let rootQuery disk :=
       Treeview.query
         (Treeview.getChildren Scenario.parse disk Scenario.workspaceFolders None) in
     let st1 := snd (rootQuery Scenario.disk Treeview.initial) in
     let st2 := Treeview.onDidDelete "/ws/pkg/a.ts" st1 in
     Treeview.exportPaths (fst (rootQuery Scenario.diskAfterDelete st2))
       = [["/ws/pkg/a.ts"; "/ws/pkg/b.ts"]]
     /\ Treeview.exportPaths (fst (rootQuery Scenario.diskAfterDelete Treeview.initial))
       = [["/ws/pkg/b.ts"]].
Proof. split; [intros uri st; repeat split|]. vm_compute. split; reflexivity. Qed.

(** The cached provider in the same scenario: the callbacks keep
    [sourceFileCache] in step with the disk, and the barrel shows [b.ts]
    alone after the deletion. *)
Lemma provider_after_delete :
  let c0 := Provider.scanAndCacheSourceFiles Scenario.parse Scenario.disk "/ws" ∅ in
  let c1 := Provider.onDidDelete "/ws/pkg/a.ts" c0 in
  let barrel := Provider.newTreeItem c1 "/ws/pkg/index.ts" false true in
  c1 !! "/ws/pkg/a.ts" = None
  /\ (map Provider.directory <$>
        match Provider.getChildrenOfBarrel Scenario.parse Scenario.diskAfterDelete c1 "/" barrel with
        | Ok items => Some items
        | Throw _ => None
        end) = Some ["/ws/pkg/b.ts"].
Proof. vm_compute. split; reflexivity. Qed.

(** ** The scans of the workspace *)

(** Induction on an entry, with the property for all entries of a
    directory. *)
Lemma Entry_ind' (P : fs.Entry -> Prop) :
  (forall name content, P (fs.File name content)) ->
  (forall name sub, Forall P sub -> P (fs.Directory name sub)) ->
  (forall name, P (fs.Closed name)) ->
  (forall name, P (fs.Dangling name)) ->
  forall e, P e.
Proof.
  intros file directory closed dangling. fix IH 1. intros [name content|name sub|name|name].
  - apply file.
  - apply directory. induction sub as [|e sub IHsub]; constructor; [apply IH|exact IHsub].
  - apply closed.
  - apply dangling.
Qed.

(** A loop whose body appends to the array appends the whole. *)
Lemma forOf_appends {A B} (l : list A) (body : A -> M (list B) unit) (out : A -> list B) :
  Forall (fun x => forall acc, body x acc = (Ok tt, acc ++ out x)) l ->
  forall acc, forOf l body acc = (Ok tt, acc ++ flat_map out l).
Proof.
  induction 1 as [|x l Hx Hl IH]; intros acc; simpl.
  - now rewrite app_nil_r.
  - unfold bind. rewrite Hx. fold (forOf l body). rewrite IH. now rewrite app_assoc.
Qed.

Lemma found_app barrelPath l1 l2 :
  Treeview.found barrelPath (l1 ++ l2) = Treeview.found barrelPath l1 ++ Treeview.found barrelPath l2.
Proof. unfold Treeview.found. now rewrite List.filter_app, List.map_app. Qed.

Lemma found_flat_map {A} barrelPath (f : A -> list (string * string * option string)) l :
  Treeview.found barrelPath (flat_map f l) = flat_map (fun x => Treeview.found barrelPath (f x)) l.
Proof.
  induction l as [|x l IH]; [reflexivity|]. simpl. now rewrite found_app, IH.
Qed.

(** What a loop throws, one of its bodies throws. *)
Lemma forOf_throw_inv {S A} (body : A -> M S unit) (l : list A) :
  forall s err s',
    forOf l body s = (Throw err, s') ->
    exists x s1, In x l /\ body x s1 = (Throw err, s').
Proof.
  induction l as [|x l IH]; intros s err s'; simpl; [discriminate|].
  unfold bind. destruct (body x s) as [[[]|err1] s1] eqn:Hbody.
  - fold (forOf l body). intros Hrest.
    destruct (IH _ _ _ Hrest) as (y & s2 & Hy & Hthrow). exists y, s2. split; [now right|exact Hthrow].
  - intros [= <- <-]. exists x, s. split; [now left|exact Hbody].
Qed.

(** A loop throws once one of its bodies throws from every state. *)
Lemma forOf_reaches_throw {S A} (body : A -> M S unit) (l : list A) :
  Exists (fun x => forall s, exists err s', body x s = (Throw err, s')) l ->
  forall s, exists err s', forOf l body s = (Throw err, s').
Proof.
  induction 1 as [x l Hx|x l Hl IH]; intros s; simpl; unfold bind.
  - destruct (Hx s) as (err & s' & ->). now exists err, s'.
  - destruct (body x s) as [[[]|err] s1].
    + fold (forOf l body). apply IH.
    + now exists err, s1.
Qed.

(** A property of the state that every body keeps, whether it returns or
    throws, is kept by the loop. *)
Lemma forOf_inv {S A} (I : S -> Prop) (body : A -> M S unit) (l : list A) :
  Forall (fun x => forall s, I s -> I (snd (body x s))) l ->
  forall s, I s -> I (snd (forOf l body s)).
Proof.
  induction 1 as [|x l Hx Hl IH]; intros s Hs; [exact Hs|].
  simpl. unfold bind. specialize (Hx s Hs).
  destruct (body x s) as [[[]|e] s']; simpl in Hx.
  - fold (forOf l body). now apply IH.
  - exact Hx.
Qed.

(** A loop whose bodies all return runs them in turn. *)
Lemma forOf_returns {S A} (body : A -> M S unit) (l : list A) :
  Forall (fun x => forall s, fst (body x s) = Ok tt) l ->
  forall s, forOf l body s = (Ok tt, fold_left (fun s x => snd (body x s)) l s).
Proof.
  induction 1 as [|x l Hx Hl IH]; intros s; [reflexivity|].
  simpl. unfold bind. specialize (Hx s).
  destruct (body x s) as [r s1]. simpl in *. subst r. fold (forOf l body). apply IH.
Qed.

(** A loop does not go past a body that throws: the elements after it
    are not visited. *)
Lemma forOf_cut {S A} (body : A -> M S unit) (before after : list A) x :
  (forall s, exists err, body x s = (Throw err, s)) ->
  forall s, snd (forOf (before ++ x :: after) body s) = snd (forOf before body s).
Proof.
  intros Hx. induction before as [|y before IH]; intros s; simpl; unfold bind.
  - now destruct (Hx s) as (err & ->).
  - destruct (body y s) as [[[]|err] s1]; [|reflexivity].
    fold (forOf (before ++ x :: after) body). fold (forOf before body). apply IH.
Qed.

Lemma forallb_false_Exists {A} (f : A -> bool) (l : list A) :
  forallb f l = false -> Exists (fun x => f x = false) l.
Proof.
  induction l as [|x l IH]; [discriminate|]. simpl.
  destruct (f x) eqn:Hx; [|now constructor]. intros Hl. apply Exists_cons_tl. now apply IH.
Qed.

Lemma forallb_flat_map_false {A B} (f : B -> bool) (g : A -> list B) (l : list A) :
  forallb f (flat_map g l) = false -> Exists (fun x => forallb f (g x) = false) l.
Proof.
  induction l as [|x l IH]; [discriminate|]. simpl. rewrite forallb_app.
  destruct (forallb f (g x)) eqn:Hx; [|now constructor].
  intros Hl. apply Exists_cons_tl. now apply IH.
Qed.

Lemma forallb_cons_true {A} (f : A -> bool) x (l : list A) :
  forallb f (x :: l) = true -> f x = true /\ forallb f l = true.
Proof. simpl. intros H. now apply andb_prop in H. Qed.

Lemma forallb_flat_map_cons {A B} (f : B -> bool) (g : A -> list B) x (l : list A) :
  forallb f (flat_map g (x :: l)) = true ->
  forallb f (g x) = true /\ forallb f (flat_map g l) = true.
Proof. simpl. rewrite forallb_app. intros H. now apply andb_prop in H. Qed.

Lemma searchFilesEntry_appends barrelPath e :
  forall directory,
  Treeview.openEntry e = true ->
  forallb Treeview.readableTs (Treeview.filesUnderEntry directory e) = true ->
  forall acc,
    Treeview.searchFilesEntry barrelPath directory e acc
    = (Ok tt, acc ++ Treeview.found barrelPath (Treeview.filesUnderEntry directory e)).
Proof.
  induction e as [name content|name sub IH|name|name] using Entry_ind';
    intros directory Hopen Hread acc; try discriminate Hopen.
  - simpl in *. unfold Treeview.found. simpl.
    destruct (JsString.endsWith name ".ts"); simpl.
    + destruct content as [text|]; [|discriminate Hread].
      unfold Treeview.quotes.
      destruct (_ || _); simpl; unfold modify, ret; [reflexivity|now rewrite app_nil_r].
    + unfold ret. now rewrite app_nil_r.
  - cbn [Treeview.searchFilesEntry Treeview.filesUnderEntry Treeview.openEntry
         fs.entryName] in *.
    rewrite found_flat_map. apply forOf_appends.
    set (filePath := path.join directory name) in *.
    clearbody filePath. induction IH as [|e sub He Hsub IHsub]; constructor.
    + apply forallb_cons_true in Hopen as [Hopen _].
      apply forallb_flat_map_cons in Hread as [Hread _].
      intros acc'. now apply He.
    + apply forallb_cons_true in Hopen as [_ Hopen].
      apply forallb_flat_map_cons in Hread as [_ Hread].
      now apply IHsub.
Qed.

Lemma searchFiles_appends disk barrelPath folder :
  Treeview.openFolder disk folder = true ->
  forallb Treeview.readableTs (Treeview.filesUnder disk folder) = true ->
  forall acc,
    Treeview.searchFiles disk barrelPath folder acc
    = (Ok tt, acc ++ Treeview.found barrelPath (Treeview.filesUnder disk folder)).
Proof.
  unfold Treeview.searchFiles, Treeview.filesUnder, Treeview.openFolder, bind, lift.
  destruct (fs.readdirSync disk folder) as [entries|]; [|discriminate].
  intros Hopen Hread acc. rewrite found_flat_map. apply forOf_appends.
  induction entries as [|e entries IH]; constructor.
  - apply forallb_cons_true in Hopen as [Hopen _].
    apply forallb_flat_map_cons in Hread as [Hread _].
    intros acc'. now apply searchFilesEntry_appends.
  - apply forallb_cons_true in Hopen as [_ Hopen].
    apply forallb_flat_map_cons in Hread as [_ Hread].
    now apply IH.
Qed.

Lemma findFilesUsingBarrel_eq disk folders barrelPath :
  forallb (Treeview.openFolder disk) folders = true ->
  forallb Treeview.readableTs (flat_map (Treeview.filesUnder disk) folders) = true ->
  Treeview.findFilesUsingBarrel disk (Some folders) barrelPath
  = Ok (Treeview.found barrelPath (flat_map (Treeview.filesUnder disk) folders)).
Proof.
  intros Hopen Hread. unfold Treeview.findFilesUsingBarrel.
  rewrite (forOf_appends folders (Treeview.searchFiles disk barrelPath)
             (fun folder => Treeview.found barrelPath (Treeview.filesUnder disk folder))).
  - now rewrite found_flat_map.
  - induction folders as [|folder folders IH]; constructor.
    + apply forallb_cons_true in Hopen as [Hopen _].
      apply forallb_flat_map_cons in Hread as [Hread _].
      intros acc. now apply searchFiles_appends.
    + apply forallb_cons_true in Hopen as [_ Hopen].
      apply forallb_flat_map_cons in Hread as [_ Hread].
      now apply IH.
Qed.

(** A path is found exactly when it is the path of a listed file that is
    named [*.ts] and whose text quotes [barrelPath]. *)
Lemma In_found barrelPath files p :
  In p (Treeview.found barrelPath files) <->
  exists name text, In (p, name, Some text) files
                    /\ JsString.endsWith name ".ts" = true
                    /\ Treeview.quotes barrelPath text = true.
Proof.
  unfold Treeview.found. rewrite in_map_iff. split.
  - intros ([[q name] content] & <- & Hin). apply filter_In in Hin as [Hin Href].
    simpl in Href. apply andb_prop in Href as [Hname Htext].
    destruct content as [text|]; [|discriminate]. now exists name, text.
  - intros (name & text & Hin & Hname & Htext). exists (p, name, Some text).
    split; [reflexivity|]. apply filter_In. split; [assumption|].
    simpl. now rewrite Hname, Htext.
Qed.

(** The listing enters a directory whatever its name is: [node_modules]
    and names with a leading dot are no exception. *)
Lemma filesUnderEntry_enters directory name sub e f :
  In e sub -> In f (Treeview.filesUnderEntry (path.join directory name) e) ->
  In f (Treeview.filesUnderEntry directory (fs.Directory name sub)).
Proof.
  intros He Hf. cbn [Treeview.filesUnderEntry fs.entryName].
  apply in_flat_map. now exists e.
Qed.

(** C9, amended: when every workspace folder and every directory below
    lists, no link below dangles and every file named [*.ts] can be read,
    [findFilesUsingBarrel] returns the paths of the files below the
    workspace folders that are named [*.ts] and quote the target path, in
    the order of the traversal; the listing [filesUnder] enters every
    directory. *)
Theorem findFilesUsingBarrel_lists_references disk folders barrelPath :
  forallb (Treeview.openFolder disk) folders = true ->
  forallb Treeview.readableTs (flat_map (Treeview.filesUnder disk) folders) = true ->
  exists files,
    Treeview.findFilesUsingBarrel disk (Some folders) barrelPath = Ok files
    /\ files = Treeview.found barrelPath (flat_map (Treeview.filesUnder disk) folders)
    /\ forall p,
         In p files <->
         exists name text,
           In (p, name, Some text) (flat_map (Treeview.filesUnder disk) folders)
           /\ JsString.endsWith name ".ts" = true
           /\ Treeview.quotes barrelPath text = true.
Proof.
  intros Hdirs Hread. eexists. split; [now apply findFilesUsingBarrel_eq|].
  split; [reflexivity|]. intros p. apply In_found.
Qed.

(** The amended C9 on the workspace of the scenario. *)
Lemma findFilesUsingBarrel_lists_references_witness :
  exists files,
    Treeview.findFilesUsingBarrel Scenario.usersDisk (Some ["/ws"]) "/ws/pkg/index.ts"
    = Ok files
    /\ files = ["/ws/node_modules/dep/main.ts"; "/ws/.cache/gen.ts"; "/ws/src/app.ts"].
Proof.
  destruct (findFilesUsingBarrel_lists_references
              Scenario.usersDisk ["/ws"] "/ws/pkg/index.ts")
    as (files & Hfiles & Heq & _); try reflexivity.
  exists files. split; [exact Hfiles|exact Heq].
Defined.

(** C9, as stated, fails: the scan returns files of [node_modules] and of
    a hidden directory, and leaves out a file that quotes the path but is
    not named [*.ts]. *)
Lemma findFilesUsingBarrel_enters_node_modules :
  exists files,
    Treeview.findFilesUsingBarrel Scenario.usersDisk (Some ["/ws"]) "/ws/pkg/index.ts" = Ok files
    /\ In "/ws/node_modules/dep/main.ts" files
    /\ In "/ws/.cache/gen.ts" files
    /\ ~ In "/ws/src/view.tsx" files.
Proof.
  eexists. split; [vm_compute; reflexivity|]. simpl.
  repeat split; [tauto|tauto|]. intros [H|[H|[H|[]]]]; discriminate H.
Qed.

(** The test of [collectBarrelFiles] on a file is the suffix test on its
    name. *)
Lemma collectBarrelFilesEntry_file createSourceFile disk directory name content :
  Treeview.collectBarrelFilesEntry createSourceFile disk directory (fs.File name content)
  = if JsString.endsWith name "index.ts" then
      let* barrelFile := Treeview.onPathCache
                           (Treeview.parseBarrel createSourceFile disk
                                                 (path.join directory name)) in
      modify (fun st => (fst st ++ [barrelFile], snd st))
    else ret tt.
Proof. reflexivity. Qed.

(** C10: [myindex.ts] with a re-export-from declaration is listed as a
    barrel; the same file named [main.ts] is not. *)
Theorem collectBarrelFiles_selects_by_suffix :
  exists (disk disk' : fs.Disk) (barrel : Treeview.BarrelFile),
    disk = Scenario.pkg [Scenario.a_ts; Scenario.b_ts;
                         fs.File "myindex.ts" (Some Scenario.indexText)]
    /\ disk' = Scenario.pkg [Scenario.a_ts; Scenario.b_ts;
                             fs.File "main.ts" (Some Scenario.indexText)]
    /\ fst (Treeview.getChildren Scenario.parse disk Scenario.workspaceFolders None ∅)
       = Ok [barrel]
    /\ Treeview.barrelPath barrel = "/ws/pkg/myindex.ts"
    /\ path.basename (Treeview.barrelPath barrel) <> "index.ts"
    /\ map Treeview.path (Treeview.exports barrel) = ["/ws/pkg/a.ts"; "/ws/pkg/b.ts"]
    /\ fst (Treeview.getChildren Scenario.parse disk' Scenario.workspaceFolders None ∅)
       = Ok [].
Proof.
  do 3 eexists. split; [reflexivity|]. split; [reflexivity|].
  split; [vm_compute; reflexivity|]. repeat split. discriminate.
Qed.

(** * Further facts about the providers *)

(** ** The two export classifiers of the cached provider *)

Lemma sum_app l1 l2 : Provider.sum (l1 ++ l2) = Provider.sum l1 + Provider.sum l2.
Proof.
  unfold Provider.sum. rewrite fold_left_app.
  generalize (fold_left (fun a b => a + b) l1 0). intros k.
  revert k. induction l2 as [|x l2 IH]; intros k; simpl; [lia|].
  rewrite IH, (IH x). lia.
Qed.

(** A left fold of children that each add to the counter. *)
Lemma fold_children_add (f : ts.Node -> nat -> nat) (cs : list ts.Node) :
  Forall (fun c => forall k, f c k = k + f c 0) cs ->
  forall k, fold_left (fun n c => f c n) cs k
            = k + fold_right (fun c acc => f c 0 + acc) 0 cs.
Proof.
  induction 1 as [|c cs Hc Hcs IH]; intros k; simpl; [lia|].
  rewrite IH, Hc. lia.
Qed.

Lemma numberOfExportsIn_eq t node k :
  Provider.numberOfExportsIn t node k =
  fold_left (fun n child => Provider.numberOfExportsIn t child n) (ts.children node)
            (k + Provider.numberOfExportsHere t node).
Proof. destruct node; reflexivity. Qed.

Lemma numberOfExportsIn_add t node :
  forall k, Provider.numberOfExportsIn t node k = k + Provider.numberOfExportsIn t node 0.
Proof.
  induction node as [n IH] using Node_ind'. intros k.
  rewrite !numberOfExportsIn_eq, !(fold_children_add _ _ IH). lia.
Qed.

Lemma numberOfExportsIn_children t node :
  Provider.numberOfExportsIn t node 0 =
  Provider.numberOfExportsHere t node
  + fold_right (fun c acc => Provider.numberOfExportsIn t c 0 + acc) 0 (ts.children node).
Proof.
  rewrite numberOfExportsIn_eq, fold_children_add; [reflexivity|].
  apply Forall_forall. intros c _. apply numberOfExportsIn_add.
Qed.

Lemma appendCounts_assoc c d e :
  Notions.appendCounts (Notions.appendCounts c d) e
  = Notions.appendCounts c (Notions.appendCounts d e).
Proof. unfold Notions.appendCounts. simpl. now rewrite <- !app_assoc. Qed.

Lemma appendCounts_noCounts c : Notions.appendCounts c Notions.noCounts = c.
Proof. destruct c. unfold Notions.appendCounts. simpl. now rewrite !app_nil_r. Qed.

Lemma countExportsHere_append node c :
  Provider.countExportsHere node c
  = Notions.appendCounts c (Provider.countExportsHere node Notions.noCounts).
Proof.
  destruct c as [v t].
  unfold Provider.countExportsHere, Provider.handleExportDeclaration,
    Provider.handleExportKeyword, Provider.pushValue, Provider.pushType,
    Notions.appendCounts.
  repeat match goal with |- context [if ?b then _ else _] => destruct b end;
    try (destruct (ts.namedExports node));
    repeat match goal with |- context [if ?b then _ else _] => destruct b end;
    simpl; now rewrite ?app_nil_r.
Qed.

Lemma fold_countExports_append cs :
  Forall (fun child => forall c, Provider.countExports child c
                                 = Notions.appendCounts c (Provider.countExports child Notions.noCounts)) cs ->
  forall c, fold_left (fun c child => Provider.countExports child c) cs c
            = Notions.appendCounts c
                (fold_left (fun c child => Provider.countExports child c) cs Notions.noCounts).
Proof.
  induction 1 as [|x cs Hx Hcs IH]; intros c; simpl.
  - now rewrite appendCounts_noCounts.
  - rewrite IH, (IH (Provider.countExports x Notions.noCounts)), Hx.
    now rewrite appendCounts_assoc.
Qed.

(** [countExports] only appends to the two arrays. *)
Lemma countExports_append node :
  forall c, Provider.countExports node c
            = Notions.appendCounts c (Provider.countExports node Notions.noCounts).
Proof.
  induction node as [n IH] using Node_ind'. intros c.
  rewrite !countExports_eq, (fold_countExports_append _ IH).
  rewrite (fold_countExports_append _ IH (Provider.countExportsHere n Notions.noCounts)).
  now rewrite countExportsHere_append, appendCounts_assoc.
Qed.

(** The arrays of a node: those of the node itself, then those of its
    children in order. *)
Lemma countExports_children node :
  Provider.countExports node Notions.noCounts
  = Notions.appendCounts (Provider.countExportsHere node Notions.noCounts)
      (fold_right (fun child acc =>
                     Notions.appendCounts (Provider.countExports child Notions.noCounts) acc)
                  Notions.noCounts (ts.children node)).
Proof.
  rewrite countExports_eq.
  generalize (Provider.countExportsHere node Notions.noCounts). intros c.
  revert c. induction (ts.children node) as [|x cs IH]; intros c; simpl.
  - now rewrite appendCounts_noCounts.
  - rewrite IH, countExports_append. now rewrite appendCounts_assoc.
Qed.

Lemma exportsEnum_eq n :
  Notions.exportsEnum n =
  (negb (ts.isExportDeclaration n) && negb (ts.isExportAssignment n)
   && ts.hasExportModifier n && ts.isEnumDeclaration n)
  || existsb Notions.exportsEnum (ts.children n).
Proof. destruct n; reflexivity. Qed.

Lemma exportStatements_eq n :
  Notions.exportStatements n =
  (if ts.isExportDeclaration n || ts.isExportAssignment n || ts.hasExportModifier n
   then 1 else 0)
  + fold_right (fun child k => Notions.exportStatements child + k) 0 (ts.children n).
Proof. destruct n; reflexivity. Qed.

Ltac case_ifs :=
  repeat match goal with
         | |- context [if ?b then _ else _] => destruct b eqn:?
         | |- context [match ts.namedExports ?n with _ => _ end] =>
             destruct (ts.namedExports n) eqn:?
         end.

(** At one node the two classifiers add the same number of symbols. *)
Lemma here_total node :
  Provider.sum (Provider.value (Provider.countExportsHere node Notions.noCounts))
  + Provider.sum (Provider.type (Provider.countExportsHere node Notions.noCounts))
  = Provider.numberOfExportsHere false node + Provider.numberOfExportsHere true node.
Proof.
  unfold Provider.countExportsHere, Provider.handleExportDeclaration,
    Provider.handleExportKeyword, Provider.numberOfExportsHere,
    Provider.pushValue, Provider.pushType, Notions.noCounts.
  case_ifs; simpl in *; try discriminate; unfold Provider.sum; simpl; lia.
Qed.

(** They put them in the same bucket unless the node is an exported enum. *)
Lemma here_buckets node :
  negb (ts.isExportDeclaration node) && negb (ts.isExportAssignment node)
  && ts.hasExportModifier node && ts.isEnumDeclaration node = false ->
  Provider.sum (Provider.value (Provider.countExportsHere node Notions.noCounts))
  = Provider.numberOfExportsHere false node
  /\ Provider.sum (Provider.type (Provider.countExportsHere node Notions.noCounts))
     = Provider.numberOfExportsHere true node.
Proof.
  unfold Provider.countExportsHere, Provider.handleExportDeclaration,
    Provider.handleExportKeyword, Provider.numberOfExportsHere,
    Provider.pushValue, Provider.pushType, Notions.noCounts.
  intros Henum.
  case_ifs; simpl in *; try discriminate; unfold Provider.sum; simpl; split; lia.
Qed.

(** It pushes one entry at a node that bears an export, none elsewhere. *)
Lemma here_entries node :
  length (Provider.value (Provider.countExportsHere node Notions.noCounts))
  + length (Provider.type (Provider.countExportsHere node Notions.noCounts))
  = if ts.isExportDeclaration node || ts.isExportAssignment node
       || ts.hasExportModifier node then 1 else 0.
Proof.
  unfold Provider.countExportsHere, Provider.handleExportDeclaration,
    Provider.handleExportKeyword, Provider.pushValue, Provider.pushType, Notions.noCounts.
  destruct (ts.isExportDeclaration node), (ts.isExportAssignment node),
    (ts.hasExportModifier node); simpl; case_ifs; reflexivity.
Qed.

Lemma node_buckets node :
  Notions.exportsEnum node = false ->
  Provider.sum (Provider.value (Provider.countExports node Notions.noCounts))
  = Provider.numberOfExportsIn false node 0
  /\ Provider.sum (Provider.type (Provider.countExports node Notions.noCounts))
     = Provider.numberOfExportsIn true node 0.
Proof.
  induction node as [n IH] using Node_ind'. rewrite exportsEnum_eq. intros Hno.
  apply orb_false_elim in Hno as [Hhere Hkids].
  rewrite countExports_children, !numberOfExportsIn_children.
  destruct (here_buckets n Hhere) as [Hv Ht].
  cbn [Notions.appendCounts Provider.value Provider.type]. rewrite !sum_app, Hv, Ht.
  induction (ts.children n) as [|c cs IHcs]; [split; reflexivity|].
  apply Forall_cons in IH as [IHc IHrest]. simpl in Hkids.
  apply orb_false_elim in Hkids as [Hc Hcs].
  destruct (IHc Hc) as [Hcv Hct]. destruct (IHcs IHrest Hcs) as [Hrv Hrt].
  cbn [fold_right Notions.appendCounts Provider.value Provider.type].
  rewrite !sum_app. split; lia.
Qed.

Lemma node_total node :
  Provider.sum (Provider.value (Provider.countExports node Notions.noCounts))
  + Provider.sum (Provider.type (Provider.countExports node Notions.noCounts))
  = Provider.numberOfExportsIn false node 0 + Provider.numberOfExportsIn true node 0.
Proof.
  induction node as [n IH] using Node_ind'.
  rewrite countExports_children, !numberOfExportsIn_children.
  cbn [Notions.appendCounts Provider.value Provider.type]. rewrite !sum_app.
  pose proof (here_total n) as Hhere.
  enough (Provider.sum (Provider.value
            (fold_right (fun child acc =>
                           Notions.appendCounts (Provider.countExports child Notions.noCounts) acc)
                        Notions.noCounts (ts.children n)))
          + Provider.sum (Provider.type
            (fold_right (fun child acc =>
                           Notions.appendCounts (Provider.countExports child Notions.noCounts) acc)
                        Notions.noCounts (ts.children n)))
          = fold_right (fun c acc => Provider.numberOfExportsIn false c 0 + acc) 0 (ts.children n)
            + fold_right (fun c acc => Provider.numberOfExportsIn true c 0 + acc) 0 (ts.children n))
    by lia.
  induction (ts.children n) as [|c cs IHcs]; [reflexivity|].
  apply Forall_cons in IH as [IHc IHrest]. specialize (IHcs IHrest).
  cbn [fold_right Notions.appendCounts Provider.value Provider.type].
  rewrite !sum_app. lia.
Qed.

Lemma node_entries node :
  length (Provider.value (Provider.countExports node Notions.noCounts))
  + length (Provider.type (Provider.countExports node Notions.noCounts))
  = Notions.exportStatements node.
Proof.
  induction node as [n IH] using Node_ind'.
  rewrite countExports_children, exportStatements_eq, <- here_entries.
  cbn [Notions.appendCounts Provider.value Provider.type]. rewrite !length_app.
  enough (length (Provider.value
            (fold_right (fun child acc =>
                           Notions.appendCounts (Provider.countExports child Notions.noCounts) acc)
                        Notions.noCounts (ts.children n)))
          + length (Provider.type
            (fold_right (fun child acc =>
                           Notions.appendCounts (Provider.countExports child Notions.noCounts) acc)
                        Notions.noCounts (ts.children n)))
          = fold_right (fun child k => Notions.exportStatements child + k) 0 (ts.children n))
    by lia.
  induction (ts.children n) as [|c cs IHcs]; [reflexivity|].
  apply Forall_cons in IH as [IHc IHrest]. specialize (IHcs IHrest).
  cbn [fold_right Notions.appendCounts Provider.value Provider.type].
  rewrite !length_app. lia.
Qed.

(** X1: the two export classifiers of the cached provider count the same
    number of symbols: the value and the type count of
    [getNumberOfExports] add up to the export symbol count of the
    constructor of [TreeItem], for every file and every cache. *)
Theorem getNumberOfExports_total (sourceFileCache : gmap string ts.Node) filePath :
  Provider.getNumberOfExports sourceFileCache filePath false
  + Provider.getNumberOfExports sourceFileCache filePath true
  = Provider.exportSymbolCount (Provider.counts sourceFileCache filePath).
Proof.
  unfold Provider.counts, Provider.getNumberOfExports, Provider.getExportSymbolCounts.
  cbn [Provider.exportSymbolCount].
  destruct (sourceFileCache !! filePath) as [sf|]; [|reflexivity].
  symmetry. apply node_total.
Qed.

(** X2: for a cached source file without an enum exported through its
    modifier, the two classifiers agree bucket by bucket: the symbols of
    the value array add up to the value count of [getNumberOfExports],
    those of the type array to its type count. *)
Theorem getNumberOfExports_buckets (sourceFileCache : gmap string ts.Node) filePath sf :
  sourceFileCache !! filePath = Some sf ->
  Notions.exportsEnum sf = false ->
  Provider.sum (Provider.value (Provider.getExportSymbolCounts sourceFileCache filePath))
  = Provider.getNumberOfExports sourceFileCache filePath false
  /\ Provider.sum (Provider.type (Provider.getExportSymbolCounts sourceFileCache filePath))
     = Provider.getNumberOfExports sourceFileCache filePath true.
Proof.
  intros Hsf Hno. unfold Provider.getNumberOfExports, Provider.getExportSymbolCounts.
  rewrite Hsf. now apply node_buckets.
Qed.

(** X3: the value and the type export count of a file add up to the
    number of nodes of its tree that bear an export: [countExports] pushes
    one entry per export statement, nested ones included. *)
Theorem export_counts_are_statements (sourceFileCache : gmap string ts.Node) filePath sf :
  sourceFileCache !! filePath = Some sf ->
  Provider.valueExportCount (Provider.counts sourceFileCache filePath)
  + Provider.typeExportCount (Provider.counts sourceFileCache filePath)
  = Notions.exportStatements sf.
Proof.
  intros Hsf. unfold Provider.counts, Provider.getExportSymbolCounts.
  cbn [Provider.valueExportCount Provider.typeExportCount]. rewrite Hsf.
  apply node_entries.
Qed.

(** X2 and X3 on the barrel of the package. *)
Lemma getNumberOfExports_buckets_witness :
  let sf := ts.sourceFile [ts.exportStar false "./a"; ts.exportNamedFrom true ["B"] "./b"] in
  let sourceFileCache : gmap string ts.Node := {["/ws/pkg/index.ts" := sf]} in
  Provider.sum (Provider.value (Provider.getExportSymbolCounts sourceFileCache
                                                               "/ws/pkg/index.ts"))
  = Provider.getNumberOfExports sourceFileCache "/ws/pkg/index.ts" false
  /\ Provider.sum (Provider.type (Provider.getExportSymbolCounts sourceFileCache
                                                                 "/ws/pkg/index.ts"))
     = Provider.getNumberOfExports sourceFileCache "/ws/pkg/index.ts" true.
Proof.
  intros sf sourceFileCache.
  apply (getNumberOfExports_buckets sourceFileCache "/ws/pkg/index.ts" sf); reflexivity.
Defined.

Lemma export_counts_are_statements_witness :
  let sf := ts.sourceFile [ts.exportStar false "./a"; ts.exportNamedFrom true ["B"] "./b"] in
  let sourceFileCache : gmap string ts.Node := {["/ws/pkg/index.ts" := sf]} in
  Provider.valueExportCount (Provider.counts sourceFileCache "/ws/pkg/index.ts")
  + Provider.typeExportCount (Provider.counts sourceFileCache "/ws/pkg/index.ts")
  = 2.
Proof.
  intros sf sourceFileCache.
  apply (export_counts_are_statements sourceFileCache "/ws/pkg/index.ts" sf). reflexivity.
Defined.

(** ** The source-file cache over the events *)

Lemma cacheSourceFile_lookup createSourceFile disk filePath
    (sourceFileCache : gmap string ts.Node) :
  Provider.cacheSourceFile createSourceFile disk filePath sourceFileCache !! filePath
  = Notions.parsedAt createSourceFile disk filePath.
Proof.
  unfold Provider.cacheSourceFile, Notions.parsedAt.
  destruct (fs.readFileSync disk filePath) as [text|e].
  - destruct (createSourceFile filePath text).
    + apply lookup_insert_eq.
    + apply lookup_delete_eq.
  - apply lookup_delete_eq.
Qed.

(** X4: [onDidChange] twice is [onDidChange] once: on a disk that has not
    changed in between, the second notification leaves the cache, and so
    every count of every file, as the first left it; the record of the
    file is the parse of the text on the disk, or absent when the file
    cannot be read or parsed. *)
Theorem onDidChange_idempotent createSourceFile disk uri
    (sourceFileCache : gmap string ts.Node) :
  let once := Provider.onDidChange createSourceFile disk uri sourceFileCache in
  Provider.onDidChange createSourceFile disk uri once = once
  /\ once !! uri = Notions.parsedAt createSourceFile disk uri
  /\ forall filePath, Provider.counts (Provider.onDidChange createSourceFile disk uri once) filePath
                      = Provider.counts once filePath.
Proof.
  intros once.
  assert (Hsame : Provider.onDidChange createSourceFile disk uri once = once).
  { subst once. unfold Provider.onDidChange, Provider.cacheSourceFile.
    destruct (fs.readFileSync disk uri) as [text|e].
    - destruct (createSourceFile uri text).
      + apply insert_insert_eq.
      + apply delete_id, lookup_delete_eq.
    - apply delete_id, lookup_delete_eq. }
  split; [exact Hsame|]. split; [apply cacheSourceFile_lookup|].
  intros filePath. now rewrite Hsame.
Qed.

Lemma cacheOnDisk_cacheSourceFile createSourceFile disk filePath
    (sourceFileCache : gmap string ts.Node) :
  Notions.cacheOnDisk createSourceFile disk sourceFileCache ->
  Notions.cacheOnDisk createSourceFile disk
    (Provider.cacheSourceFile createSourceFile disk filePath sourceFileCache).
Proof.
  intros Hc p sf. destruct (decide (filePath = p)) as [<-|Hne].
  - now rewrite cacheSourceFile_lookup.
  - rewrite cacheSourceFile_other by assumption. apply Hc.
Qed.

Lemma cacheOnDisk_remove createSourceFile disk filePath
    (sourceFileCache : gmap string ts.Node) :
  Notions.cacheOnDisk createSourceFile disk sourceFileCache ->
  Notions.cacheOnDisk createSourceFile disk
    (Provider.removeSourceFileFromCache filePath sourceFileCache).
Proof.
  intros Hc p sf. unfold Provider.removeSourceFileFromCache.
  rewrite lookup_delete. case_decide; [discriminate|]. apply Hc.
Qed.

(** A property of the cache that [cacheSourceFile] keeps at every path is
    kept by the scan of an entry. *)
Lemma scanAndCacheEntry_keeps createSourceFile disk (I : gmap string ts.Node -> Prop) :
  (forall filePath c, I c -> I (Provider.cacheSourceFile createSourceFile disk filePath c)) ->
  forall e dir c, I c -> I (snd (Provider.scanAndCacheEntry createSourceFile disk dir e c)).
Proof.
  intros Hkeep. induction e as [name content|name sub IH|name|name] using Entry_ind';
    intros dir c Hc; try exact Hc.
  - simpl. destruct (_ || _); [now apply Hkeep|assumption].
  - cbn [Provider.scanAndCacheEntry fs.entryName]. unfold tryCatch. cbn [snd].
    apply forOf_inv; [|exact Hc].
    apply List.Forall_forall. intros e He c' Hc'.
    rewrite List.Forall_forall in IH. now apply IH.
Qed.

Lemma scanAndCacheSourceFiles_keeps createSourceFile disk (I : gmap string ts.Node -> Prop) :
  (forall filePath c, I c -> I (Provider.cacheSourceFile createSourceFile disk filePath c)) ->
  forall dir c, I c -> I (Provider.scanAndCacheSourceFiles createSourceFile disk dir c).
Proof.
  intros Hkeep dir c Hc. unfold Provider.scanAndCacheSourceFiles, tryCatch, bind, lift.
  cbn [snd]. destruct (fs.readdirSync disk dir) as [entries|]; [|exact Hc].
  apply forOf_inv; [|exact Hc].
  apply List.Forall_forall. intros e _ c' Hc'. now apply scanAndCacheEntry_keeps.
Qed.

(** X5: a notification for the path that changed restores the agreement
    of the cache with the disk: if every record was the parse of the file
    on the old disk, and the files of the other recorded paths parse on
    the new disk as on the old one, then after [onDidChange],
    [onDidCreate] or [onDidDelete] of [uri] every record is the parse of
    the file on the new disk. *)
Theorem notification_restores_cache createSourceFile disk disk' uri
    (sourceFileCache : gmap string ts.Node) :
  Notions.cacheOnDisk createSourceFile disk sourceFileCache ->
  (forall filePath sf, filePath <> uri -> sourceFileCache !! filePath = Some sf ->
     Notions.parsedAt createSourceFile disk' filePath
     = Notions.parsedAt createSourceFile disk filePath) ->
  Notions.cacheOnDisk createSourceFile disk'
    (Provider.onDidChange createSourceFile disk' uri sourceFileCache)
  /\ Notions.cacheOnDisk createSourceFile disk'
       (Provider.onDidCreate createSourceFile disk' uri sourceFileCache)
  /\ Notions.cacheOnDisk createSourceFile disk' (Provider.onDidDelete uri sourceFileCache).
Proof.
  intros Hc Hsame.
  assert (Hcache : Notions.cacheOnDisk createSourceFile disk'
                     (Provider.cacheSourceFile createSourceFile disk' uri sourceFileCache)).
  { intros p sf. destruct (decide (uri = p)) as [<-|Hne].
    - now rewrite cacheSourceFile_lookup.
    - rewrite cacheSourceFile_other by assumption. intros Hp.
      rewrite (Hsame p sf) by congruence. now apply Hc. }
  repeat split; try exact Hcache.
  intros p sf. unfold Provider.onDidDelete, Provider.removeSourceFileFromCache.
  rewrite lookup_delete. case_decide as Hp; [discriminate|]. intros Hsf.
  rewrite (Hsame p sf) by congruence. now apply Hc.
Qed.

(** X5 on the package: the cache holds the records of [a.ts] and of
    [b.ts], [a.ts] is deleted, and the notification is for [a.ts]; before
    the notification the record of [a.ts] is not what the disk holds. *)
Lemma notification_restores_cache_witness :
  let sfA := ts.sourceFile [ts.declaration ts.SyntaxKind.VariableStatement
                                           [ts.SyntaxKind.ExportKeyword] []] in
  let sfB := ts.sourceFile [ts.declaration ts.SyntaxKind.TypeAliasDeclaration
                                           [ts.SyntaxKind.ExportKeyword] []] in
  let sourceFileCache : gmap string ts.Node :=
    <["/ws/pkg/a.ts" := sfA]> (<["/ws/pkg/b.ts" := sfB]> ∅) in
  (sourceFileCache !! "/ws/pkg/a.ts" = Some sfA
   /\ Notions.parsedAt Scenario.parse Scenario.diskAfterDelete "/ws/pkg/a.ts" = None)
  /\ Notions.cacheOnDisk Scenario.parse Scenario.diskAfterDelete
       (Provider.onDidChange Scenario.parse Scenario.diskAfterDelete "/ws/pkg/a.ts"
                             sourceFileCache)
  /\ Notions.cacheOnDisk Scenario.parse Scenario.diskAfterDelete
       (Provider.onDidCreate Scenario.parse Scenario.diskAfterDelete "/ws/pkg/a.ts"
                             sourceFileCache)
  /\ Notions.cacheOnDisk Scenario.parse Scenario.diskAfterDelete
       (Provider.onDidDelete "/ws/pkg/a.ts" sourceFileCache).
Proof.
  intros sfA sfB sourceFileCache. split; [split; reflexivity|].
  apply (notification_restores_cache Scenario.parse Scenario.disk Scenario.diskAfterDelete).
  - intros p sf. subst sourceFileCache. rewrite lookup_insert. case_decide as Ha.
    + subst p. intros [= <-]. reflexivity.
    + rewrite lookup_insert. case_decide as Hb.
      * subst p. intros [= <-]. reflexivity.
      * rewrite lookup_empty. discriminate.
  - intros p sf Hp. subst sourceFileCache. rewrite lookup_insert. case_decide as Ha.
    + now subst p.
    + rewrite lookup_insert. case_decide as Hb.
      * subst p. intros _. reflexivity.
      * rewrite lookup_empty. discriminate.
Defined.

Lemma fold_left_establishes {A C} (step : C -> A -> C) (I : C -> Prop) (l : list A) x :
  (forall y c, I c -> I (step c y)) ->
  In x l -> (forall c, I (step c x)) ->
  forall c, I (fold_left step l c).
Proof.
  intros Hkeep Hin Hx. induction l as [|y l IH]; [contradiction|].
  intros c. simpl. destruct Hin as [->|Hin].
  - generalize (step c x) (Hx c). clear -Hkeep. induction l as [|z l IH]; intros c Hc.
    + exact Hc.
    + simpl. apply IH. now apply Hkeep.
  - now apply IH.
Qed.

Lemma cacheSourceFile_keeps_record createSourceFile disk p filePath
    (c : gmap string ts.Node) :
  c !! p = Notions.parsedAt createSourceFile disk p ->
  Provider.cacheSourceFile createSourceFile disk filePath c !! p
  = Notions.parsedAt createSourceFile disk p.
Proof.
  intros Hc. destruct (decide (filePath = p)) as [->|Hne].
  - apply cacheSourceFile_lookup.
  - now rewrite cacheSourceFile_other.
Qed.

(** The scan of an entry returns unless the entry is a dangling link:
    the call for a directory handles what it throws. *)
Lemma scanAndCacheEntry_returns createSourceFile disk dir e (c : gmap string ts.Node) :
  (if e is fs.Dangling _ then False else True) ->
  fst (Provider.scanAndCacheEntry createSourceFile disk dir e c) = Ok tt.
Proof.
  destruct e as [name content|name sub|name|name]; intros Hlinked;
    [|reflexivity|reflexivity|contradiction].
  simpl. now destruct (_ || _).
Qed.

Lemma linkedEntry_not_dangling e :
  Treeview.linkedEntry e = true -> if e is fs.Dangling _ then False else True.
Proof. now destruct e. Qed.

Lemma scanAndCacheEntries_fold createSourceFile disk dir entries (c : gmap string ts.Node) :
  forallb Treeview.linkedEntry entries = true ->
  forOf entries (Provider.scanAndCacheEntry createSourceFile disk dir) c
  = (Ok tt, fold_left (fun c e => snd (Provider.scanAndCacheEntry createSourceFile disk dir e c))
                      entries c).
Proof.
  intros Hlinked. apply forOf_returns. apply List.Forall_forall. intros e He c'.
  apply scanAndCacheEntry_returns, linkedEntry_not_dangling.
  rewrite forallb_forall in Hlinked. now apply Hlinked.
Qed.

Lemma scanAndCacheEntry_records createSourceFile disk e :
  forall dir (c : gmap string ts.Node) f,
    Treeview.linkedEntry e = true ->
    In f (Treeview.filesUnderEntry dir e) ->
    JsString.endsWith (fst (fst f)) ".ts" || JsString.endsWith (fst (fst f)) ".tsx" = true ->
    snd (Provider.scanAndCacheEntry createSourceFile disk dir e c) !! fst (fst f)
    = Notions.parsedAt createSourceFile disk (fst (fst f)).
Proof.
  induction e as [name content|name sub IH|name|name] using Entry_ind';
    intros dir c f Hlinked Hin Hsuffix; try contradiction Hin.
  - simpl in Hin. destruct Hin as [<-|[]]. simpl in *. rewrite Hsuffix.
    apply cacheSourceFile_lookup.
  - cbn [Provider.scanAndCacheEntry Treeview.filesUnderEntry Treeview.linkedEntry
         fs.entryName] in *.
    unfold tryCatch. cbn [snd]. rewrite scanAndCacheEntries_fold by assumption. cbn [snd].
    apply in_flat_map in Hin as (e & He & Hf).
    apply (fold_left_establishes
             (fun c e' => snd (Provider.scanAndCacheEntry createSourceFile disk
                                 (path.join dir name) e' c))
             (fun c => c !! fst (fst f)
                       = Notions.parsedAt createSourceFile disk (fst (fst f)))
             sub e).
    + intros e' c' Hc'.
      apply (scanAndCacheEntry_keeps createSourceFile disk
               (fun c => c !! fst (fst f)
                         = Notions.parsedAt createSourceFile disk (fst (fst f)))).
      * intros filePath c''. apply cacheSourceFile_keeps_record.
      * exact Hc'.
    + exact He.
    + intros c'. rewrite List.Forall_forall in IH. apply IH; try assumption.
      rewrite forallb_forall in Hlinked. now apply Hlinked.
Qed.

(** X6: when no link below the folder dangles, the scan of the
    constructor records every file below the folder whose path ends in
    [.ts] or [.tsx]: after it the record under the path of such a file is
    the parse of the file on the disk (absent when it cannot be read or
    parsed), whatever the cache held before; a directory that does not
    list is passed over. From the empty cache every record is such a
    parse. *)
Theorem scanAndCacheSourceFiles_records createSourceFile disk dir
    (sourceFileCache : gmap string ts.Node) f :
  Treeview.linkedFolder disk dir = true ->
  In f (Treeview.filesUnder disk dir) ->
  JsString.endsWith (fst (fst f)) ".ts" || JsString.endsWith (fst (fst f)) ".tsx" = true ->
  Provider.scanAndCacheSourceFiles createSourceFile disk dir sourceFileCache !! fst (fst f)
  = Notions.parsedAt createSourceFile disk (fst (fst f))
  /\ Notions.cacheOnDisk createSourceFile disk
       (Provider.scanAndCacheSourceFiles createSourceFile disk dir ∅).
Proof.
  intros Hlinked Hin Hsuffix. split.
  - unfold Provider.scanAndCacheSourceFiles, Treeview.filesUnder, Treeview.linkedFolder,
      tryCatch, bind, lift in *.
    cbn [snd]. destruct (fs.readdirSync disk dir) as [entries|]; [|contradiction].
    rewrite scanAndCacheEntries_fold by assumption. cbn [snd].
    apply in_flat_map in Hin as (e & He & Hf).
    apply (fold_left_establishes
             (fun c e' => snd (Provider.scanAndCacheEntry createSourceFile disk dir e' c))
             (fun c => c !! fst (fst f)
                       = Notions.parsedAt createSourceFile disk (fst (fst f)))
             entries e).
    + intros e' c' Hc'.
      apply (scanAndCacheEntry_keeps createSourceFile disk
               (fun c => c !! fst (fst f)
                         = Notions.parsedAt createSourceFile disk (fst (fst f)))).
      * intros filePath c''. apply cacheSourceFile_keeps_record.
      * exact Hc'.
    + exact He.
    + intros c'. apply scanAndCacheEntry_records; try assumption.
      rewrite forallb_forall in Hlinked. now apply Hlinked.
  - apply scanAndCacheSourceFiles_keeps.
    + intros filePath c. apply cacheOnDisk_cacheSourceFile.
    + intros p sf. now rewrite lookup_empty.
Qed.

(** X6 at [b.ts] of the package beside a directory that does not list,
    from a cache with a stale record. *)
Lemma scanAndCacheSourceFiles_records_witness :
  let disk := [fs.Directory "ws" [fs.Closed "private";
                                  fs.Directory "pkg" [Scenario.a_ts; Scenario.b_ts]]] in
  let stale : gmap string ts.Node := {["/ws/pkg/b.ts" := ts.sourceFile []]} in
  Provider.scanAndCacheSourceFiles Scenario.parse disk "/ws" stale !! "/ws/pkg/b.ts"
  = Some (ts.sourceFile [ts.declaration ts.SyntaxKind.TypeAliasDeclaration
                                        [ts.SyntaxKind.ExportKeyword] []])
  /\ Notions.cacheOnDisk Scenario.parse disk
       (Provider.scanAndCacheSourceFiles Scenario.parse disk "/ws" ∅).
Proof.
  intros disk stale.
  apply (scanAndCacheSourceFiles_records Scenario.parse disk "/ws" stale
           ("/ws/pkg/b.ts", "b.ts", Some Scenario.bText)).
  - reflexivity.
  - vm_compute. right. left. reflexivity.
  - reflexivity.
Defined.

(** X23: a link whose target is missing ends the scan of its directory:
    [statSync] throws at it into the handler that encloses the loop, so
    the call for the directory returns with the entries listed before the
    link scanned and those after it not visited, whatever they are. *)
Theorem scanAndCacheSourceFiles_stops_at_link createSourceFile disk dir name link
    before after (sourceFileCache : gmap string ts.Node) :
  Provider.scanAndCacheEntry createSourceFile disk dir
    (fs.Directory name (before ++ fs.Dangling link :: after)) sourceFileCache
  = (Ok tt, snd (Provider.scanAndCacheEntry createSourceFile disk dir
                   (fs.Directory name before) sourceFileCache)).
Proof.
  cbn [Provider.scanAndCacheEntry fs.entryName]. unfold tryCatch. cbn [snd]. f_equal.
  apply forOf_cut. intros c. now exists ENOENT.
Qed.

(** The scan of the constructor on the package with a dangling link
    between [a.ts] and [b.ts]: [a.ts] is recorded, [b.ts] and [index.ts]
    are not, though both parse. *)
Lemma scanAndCacheSourceFiles_after_link :
  let sourceFileCache :=
    Provider.scanAndCacheSourceFiles Scenario.parse Scenario.linkDisk "/ws" ∅ in
  sourceFileCache !! "/ws/pkg/a.ts"
  = Notions.parsedAt Scenario.parse Scenario.linkDisk "/ws/pkg/a.ts"
  /\ sourceFileCache !! "/ws/pkg/b.ts" = None
  /\ sourceFileCache !! "/ws/pkg/index.ts" = None
  /\ Notions.parsedAt Scenario.parse Scenario.linkDisk "/ws/pkg/b.ts"
     = Some (ts.sourceFile [ts.declaration ts.SyntaxKind.TypeAliasDeclaration
                                           [ts.SyntaxKind.ExportKeyword] []])
  /\ Provider.checkBarrelFile sourceFileCache "/ws/pkg/index.ts" = false.
Proof. vm_compute. repeat split. Qed.

(** Every query of the cached provider reads the cache at its path only. *)
Lemma queries_read_one_record (c c' : gmap string ts.Node) filePath :
  c !! filePath = c' !! filePath ->
  Provider.counts c filePath = Provider.counts c' filePath
  /\ Provider.checkBarrelFile c filePath = Provider.checkBarrelFile c' filePath.
Proof.
  intros Heq. unfold Provider.counts, Provider.getExportSymbolCounts,
    Provider.getNumberOfImports, Provider.checkBarrelFile.
  now rewrite Heq.
Qed.

(** X7: after [onDidDelete(uri)] the file under [uri] has all counts zero
    and is no barrel, whatever the cache held and whatever the disk holds;
    the counts and the barrel test of every other path are as before. *)
Theorem onDidDelete_forgets (sourceFileCache : gmap string ts.Node) uri filePath :
  let after := Provider.onDidDelete uri sourceFileCache in
  Provider.counts after filePath
  = (if decide (filePath = uri) then Notions.zeroCounts
     else Provider.counts sourceFileCache filePath)
  /\ Provider.checkBarrelFile after filePath
     = (if decide (filePath = uri) then false
        else Provider.checkBarrelFile sourceFileCache filePath).
Proof.
  intros after. subst after. unfold Provider.onDidDelete, Provider.removeSourceFileFromCache.
  case_decide as Hp.
  - subst filePath.
    unfold Provider.counts, Provider.getExportSymbolCounts, Provider.getNumberOfImports,
      Provider.checkBarrelFile.
    rewrite lookup_delete_eq. split; reflexivity.
  - apply queries_read_one_record. apply lookup_delete_ne. congruence.
Qed.

(** ** The barrel branch and the directory branch of the cached provider *)

Lemma exportFilePathOf_exists disk cwd barrel node p :
  Provider.exportFilePathOf disk cwd barrel node = Some p -> fs.existsSync disk p = true.
Proof.
  unfold Provider.exportFilePathOf.
  destruct (ts.moduleSpecifier node) as [spec|]; [|discriminate].
  destruct (ts.isExportDeclaration node); [|discriminate].
  match goal with |- context [fs.existsSync disk ?q] =>
    destruct (fs.existsSync disk q) eqn:Hq end; [|discriminate].
  now intros [= <-].
Qed.

(** X8: every child the cached provider shows under a barrel is on the
    disk at the time of the query, and is shown as a plain file: the
    branch probes the disk on every call and keeps no memo. *)
Theorem getChildrenOfBarrel_on_disk createSourceFile disk
    (sourceFileCache : gmap string ts.Node) cwd element items :
  Provider.getChildrenOfBarrel createSourceFile disk sourceFileCache cwd element = Ok items ->
  Forall (fun item => fs.existsSync disk (Provider.directory item) = true
                      /\ Provider.isBarrel item = false
                      /\ Provider.isDirectory item = false) items.
Proof.
  unfold Provider.getChildrenOfBarrel.
  destruct (fs.readFileSync disk (Provider.directory element)) as [text|]; [|discriminate].
  destruct (createSourceFile (Provider.directory element) text) as [sf|]; [|discriminate].
  intros [= <-]. apply List.Forall_forall. intros item Hin.
  apply in_flat_map in Hin as (node & _ & Hitem).
  destruct (Provider.exportFilePathOf disk cwd (Provider.directory element) node)
    as [p|] eqn:Hp; [|contradiction].
  destruct Hitem as [<-|[]]. simpl. repeat split.
  eapply exportFilePathOf_exists, Hp.
Qed.

(** X8 on the barrel of the package once [a.ts] is deleted. *)
Lemma getChildrenOfBarrel_on_disk_witness :
  let barrel := Provider.newTreeItem ∅ "/ws/pkg/index.ts" false true in
  exists items,
    Provider.getChildrenOfBarrel Scenario.parse Scenario.diskAfterDelete ∅ "/" barrel
    = Ok items
    /\ Forall (fun item => fs.existsSync Scenario.diskAfterDelete (Provider.directory item)
                           = true
                           /\ Provider.isBarrel item = false
                           /\ Provider.isDirectory item = false) items.
Proof.
  intros barrel. eexists. split; [vm_compute; reflexivity|].
  apply (getChildrenOfBarrel_on_disk Scenario.parse Scenario.diskAfterDelete ∅ "/" barrel).
  vm_compute. reflexivity.
Defined.

Lemma filterResult_kept {A} (f : A -> Result bool) (l kept : list A) x :
  filterResult f l = Ok kept -> In x kept -> In x l /\ f x = Ok true.
Proof.
  revert kept. induction l as [|y l IH]; intros kept; simpl.
  - intros [= <-] [].
  - destruct (f y) as [keep|] eqn:Hy; [|discriminate].
    destruct (filterResult f l) as [kept'|]; [|discriminate].
    intros [= <-] Hin. destruct keep.
    + destruct Hin as [<-|Hin]; [now split; [left|]|].
      destruct (IH kept' eq_refl Hin). split; [now right|assumption].
    + destruct (IH kept' eq_refl Hin). split; [now right|assumption].
Qed.

(** X9: the directory branch of the cached provider shows two kinds of
    items only. A directory item is an entry of the directory that is a
    directory (one that lists or one that does not), is not
    named [node_modules], has no leading dot, and holds an [index.ts] with
    at least one value export in the cache; the other item is the
    [index.ts] of the directory itself, shown as a barrel, when it is on
    the disk and [checkBarrelFile] accepts it. Plain files are not shown. *)
Theorem getChildrenOfDirectory_items sort (sourceFileCache : gmap string ts.Node)
    disk directory item :
  (forall l, Permutation (sort l) l) ->
  In item (ProviderListing.getChildrenOfDirectory sort sourceFileCache disk directory) ->
  (Provider.isDirectory item = true
   /\ Provider.isBarrel item = false
   /\ exists name sub entries,
        fs.readdirSync disk directory = Ok entries
        /\ (In (fs.Directory name sub) entries \/ In (fs.Closed name) entries)
        /\ Provider.directory item = path.join directory name
        /\ name <> "node_modules"
        /\ JsString.startsWith name "." = false
        /\ fs.existsSync disk (path.join (path.join directory name) "index.ts") = true
        /\ 0 < Provider.getNumberOfExports sourceFileCache
                 (path.join (path.join directory name) "index.ts") false)
  \/ (Provider.isDirectory item = false
      /\ Provider.isBarrel item = true
      /\ Provider.directory item = path.join directory "index.ts"
      /\ fs.existsSync disk (path.join directory "index.ts") = true
      /\ Provider.checkBarrelFile sourceFileCache (path.join directory "index.ts") = true).
Proof.
  intros Hsort. unfold ProviderListing.getChildrenOfDirectory.
  destruct (fs.readdirSync disk directory) as [entries|]; [|contradiction].
  destruct (filterResult _ entries) as [files|] eqn:Hfiles; [|contradiction].
  intros Hin. apply (Permutation_in _ (Hsort _)) in Hin.
  unfold ProviderListing.directoryItems in Hin. apply in_app_or in Hin as [Hin|Hin].
  - left. apply in_map_iff in Hin as (e & <- & He).
    apply filter_In in He as [He Hdir].
    destruct (filterResult_kept _ _ _ _ Hfiles He) as [Hentry Hlisted].
    apply andb_prop in Hdir as [_ Hdir].
    assert (Hkind : exists name sub,
               fs.entryName e = name
               /\ (e = fs.Directory name sub \/ e = fs.Closed name)
               /\ fs.statEntry e = Ok e /\ fs.isFile e = false).
    { destruct e as [name content|name sub|name|name]; try discriminate Hdir.
      - exists name, sub. repeat split. now left.
      - exists name, []. repeat split. now right. }
    destruct Hkind as (name & sub & Hname & Hkind & Hstat & Hfile).
    unfold ProviderListing.listed in Hlisted. rewrite Hstat, Hfile, Hname in Hlisted.
    destruct (negb (String.eqb name "node_modules") && negb (JsString.startsWith name "."))
      eqn:Hnames; [|discriminate].
    injection Hlisted as Hindex. simpl in Hindex.
    apply andb_prop in Hnames as [Hnm Hdot].
    apply negb_true_iff in Hnm, Hdot. apply String.eqb_neq in Hnm.
    unfold ProviderListing.hasIndex in Hindex.
    apply andb_prop in Hindex as [Hexists Hcount]. apply Nat.ltb_lt in Hcount.
    rewrite Hname. repeat split. exists name, sub, entries.
    repeat split; try assumption.
    destruct Hkind as [->| ->]; [now left|now right].
  - right. destruct (fs.existsSync disk (path.join directory "index.ts")) eqn:Hex;
      [|contradiction].
    destruct (Provider.checkBarrelFile sourceFileCache (path.join directory "index.ts"))
      eqn:Hbarrel; [|contradiction].
    destruct Hin as [<-|[]]. repeat split.
Qed.

(** X9 at the directory [pkg] of the workspace of the package. *)
Lemma getChildrenOfDirectory_items_witness :
  let sourceFileCache :=
    Provider.scanAndCacheSourceFiles Scenario.parse Scenario.disk "/ws" ∅ in
  let item := Provider.newTreeItem sourceFileCache "/ws/pkg" true false in
  In item (ProviderListing.getChildrenOfDirectory (fun l => l) sourceFileCache
                                                  Scenario.disk "/ws")
  /\ Provider.isDirectory item = true
  /\ 0 < Provider.getNumberOfExports sourceFileCache "/ws/pkg/index.ts" false.
Proof.
  intros sourceFileCache item.
  assert (Hin : In item (ProviderListing.getChildrenOfDirectory
                           (fun l => l) sourceFileCache Scenario.disk "/ws")).
  { vm_compute. left. reflexivity. }
  split; [exact Hin|].
  destruct (getChildrenOfDirectory_items (fun l => l) sourceFileCache Scenario.disk "/ws" item
              (fun l => Permutation_refl l) Hin)
    as [(Hdir & _ & name & sub & entries & _ & _ & Hpath & _ & _ & _ & Hcount)
       |(Hfile & _)].
  - split; [exact Hdir|]. vm_compute. lia.
  - discriminate Hfile.
Defined.

Lemma filterResult_throws {A} (f : A -> Result bool) (l : list A) x err :
  In x l -> f x = Throw err -> exists err', filterResult f l = Throw err'.
Proof.
  intros Hin Hx. induction l as [|y l IH]; [contradiction|]. simpl.
  destruct Hin as [->|Hin].
  - rewrite Hx. now exists err.
  - destruct (f y) as [keep|err1]; [|now exists err1].
    destruct (IH Hin) as (err' & ->). now exists err'.
Qed.

(** X25: a link whose target is missing, listed in a directory under a
    name that is neither [node_modules] nor hidden, empties the directory
    branch of the cached provider: [statSync] throws in the first filter,
    and the handler answers with no item, also when the directory holds
    sub-directories with barrels and a barrel of its own. *)
Theorem getChildrenOfDirectory_empty_at_link sort (sourceFileCache : gmap string ts.Node)
    disk directory entries link :
  fs.readdirSync disk directory = Ok entries ->
  In (fs.Dangling link) entries ->
  link <> "node_modules" ->
  JsString.startsWith link "." = false ->
  ProviderListing.getChildrenOfDirectory sort sourceFileCache disk directory = [].
Proof.
  intros Hentries Hin Hname Hdot. unfold ProviderListing.getChildrenOfDirectory.
  rewrite Hentries.
  destruct (filterResult_throws (ProviderListing.listed sourceFileCache disk directory)
              entries (fs.Dangling link) ENOENT Hin) as (err & ->); [|reflexivity].
  unfold ProviderListing.listed. cbn [fs.entryName fs.statEntry].
  apply String.eqb_neq in Hname. now rewrite Hname, Hdot.
Qed.

(** X25 at the directory [pkg] of the package with a dangling link: the
    barrel [index.ts] is on the disk and in the cache, and is not shown;
    without the link it is. *)
Lemma getChildrenOfDirectory_empty_at_link_witness :
  let sourceFileCache : gmap string ts.Node :=
    <["/ws/pkg/index.ts" := ts.sourceFile [ts.exportStar false "./a";
                                           ts.exportNamedFrom true ["B"] "./b"]]> ∅ in
  ProviderListing.getChildrenOfDirectory (fun l => l) sourceFileCache Scenario.linkDisk
                                         "/ws/pkg" = []
  /\ fs.existsSync Scenario.linkDisk "/ws/pkg/index.ts" = true
  /\ Provider.checkBarrelFile sourceFileCache "/ws/pkg/index.ts" = true
  /\ map Provider.directory
         (ProviderListing.getChildrenOfDirectory (fun l => l) sourceFileCache Scenario.disk
                                                 "/ws/pkg") = ["/ws/pkg/index.ts"].
Proof.
  intros sourceFileCache. split; [|vm_compute; repeat split].
  apply (getChildrenOfDirectory_empty_at_link (fun l => l) sourceFileCache Scenario.linkDisk
           "/ws/pkg" [Scenario.a_ts; fs.Dangling "link.ts"; Scenario.b_ts; Scenario.index_ts]
           "link.ts").
  - reflexivity.
  - right. left. reflexivity.
  - discriminate.
  - reflexivity.
Defined.

(** ** The provider that parses on every call *)

Lemma fold_left_count {A} (f : A -> bool) (l : list A) (k : nat) :
  fold_left (fun count x => if f x then S count else count) l k
  = k + length (List.filter f l).
Proof.
  revert k. induction l as [|x l IH]; intros k; simpl; [lia|].
  rewrite IH. destruct (f x); simpl; lia.
Qed.

Lemma existsb_filter {A} (f : A -> bool) (l : list A) :
  existsb f l = Nat.ltb 0 (length (List.filter f l)).
Proof.
  induction l as [|x l IH]; [reflexivity|]. simpl. destruct (f x); [reflexivity|exact IH].
Qed.

(** X10: in the provider that parses on every call the barrel test and
    the export count agree: [checkBarrelFile] answers [true] exactly when
    [getNumberOfExports] is positive, and the two throw the same error
    when the file cannot be read or parsed. *)
Theorem checkBarrelFile_is_positive_count createSourceFile disk filePath :
  match ProviderUncached.checkBarrelFile createSourceFile disk filePath,
        UncachedCounts.getNumberOfExports createSourceFile disk filePath with
  | Ok isBarrelFile, Ok exportCount => isBarrelFile = Nat.ltb 0 exportCount
  | Throw e, Throw e' => e = e'
  | _, _ => False
  end.
Proof.
  unfold ProviderUncached.checkBarrelFile, UncachedCounts.getNumberOfExports,
    UncachedCounts.countWithSpecifier.
  destruct (fs.readFileSync disk filePath) as [text|]; [|reflexivity].
  destruct (createSourceFile filePath text) as [sf|]; [|reflexivity].
  rewrite (fold_left_pointwise _ (fun acc node =>
             if Notions.withSpecifier ts.SyntaxKind.ExportDeclaration node
             then true else acc)).
  2:{ intros acc node. unfold Notions.withSpecifier.
      now destruct (ts.moduleSpecifier node). }
  rewrite (fold_left_pointwise
             (fun count node => match ts.moduleSpecifier node with
                                | Some _ => if ts.isKind ts.SyntaxKind.ExportDeclaration node
                                            then S count else count
                                | None => count
                                end)
             (fun count node =>
                if Notions.withSpecifier ts.SyntaxKind.ExportDeclaration node
                then S count else count)).
  2:{ intros acc node. unfold Notions.withSpecifier.
      now destruct (ts.moduleSpecifier node). }
  rewrite fold_left_flag, fold_left_count. simpl. apply existsb_filter.
Qed.

(** ** The memo of the tree view *)

(** X11: a resolution writes the memo under its own key, once: the memo
    afterwards is the memo before with the answer under the joined path,
    and a second resolution of the same specifier gives the same answer
    and the same memo on every disk, also on one where the answer no
    longer holds. *)
Theorem resolveModulePath_memoized disk disk' (pathCache : gmap string (option string))
    baseDir moduleSpecifier :
  let first := Treeview.resolveModulePath disk pathCache baseDir moduleSpecifier in
  snd first = <[path.join baseDir moduleSpecifier := fst first]> pathCache
  /\ Treeview.resolveModulePath disk' (snd first) baseDir moduleSpecifier = first.
Proof.
  intros first. subst first. unfold Treeview.resolveModulePath.
  destruct (pathCache !! path.join baseDir moduleSpecifier) as [cached|] eqn:Hkey.
  - simpl. rewrite Hkey. split; [|reflexivity]. symmetry. now apply insert_id.
  - destruct (find _ _) as [p|]; simpl; rewrite lookup_insert_eq; split; reflexivity.
Qed.

(** What [find] answers is the first element that passes the test. *)
Lemma find_first {A} (f : A -> bool) (l : list A) :
  match find f l with
  | Some p =>
      f p = true
      /\ exists before after, l = before ++ p :: after /\ Forall (fun q => f q = false) before
  | None => Forall (fun q => f q = false) l
  end.
Proof.
  induction l as [|q qs IH]; simpl.
  - constructor.
  - destruct (f q) eqn:Hq.
    + split; [assumption|]. exists [], qs. split; [reflexivity|constructor].
    + destruct (find f qs) as [p|].
      * destruct IH as (Hp & before & after & -> & Hbefore). split; [assumption|].
        exists (q :: before), after. split; [reflexivity|]. now constructor.
      * now constructor.
Qed.

(** X12: a resolution that probes the disk returns the first of its eight
    candidates that is on the disk: the candidates before it are not on
    the disk; it returns [undefined] exactly when no candidate is. The
    order of the candidates is [s.ts], [s/index.ts], [s.tsx],
    [s/index.tsx], [s.d.ts], [s/index.d.ts], [s.patch.ts],
    [s/index.patch.ts], each joined to the base directory. *)
Theorem resolveModulePath_first_match disk (pathCache : gmap string (option string))
    baseDir moduleSpecifier :
  pathCache !! path.join baseDir moduleSpecifier = None ->
  let candidates :=
    [path.join baseDir (moduleSpecifier +:+ ".ts");
     path.join3 baseDir moduleSpecifier "index.ts";
     path.join baseDir (moduleSpecifier +:+ ".tsx");
     path.join3 baseDir moduleSpecifier "index.tsx";
     path.join baseDir (moduleSpecifier +:+ ".d.ts");
     path.join3 baseDir moduleSpecifier "index.d.ts";
     path.join baseDir (moduleSpecifier +:+ ".patch.ts");
     path.join3 baseDir moduleSpecifier "index.patch.ts"] in
  match fst (Treeview.resolveModulePath disk pathCache baseDir moduleSpecifier) with
  | Some p =>
      fs.existsSync disk p = true
      /\ exists before after,
           candidates = before ++ p :: after
           /\ Forall (fun q => fs.existsSync disk q = false) before
  | None => Forall (fun q => fs.existsSync disk q = false) candidates
  end.
Proof.
  intros Hmiss candidates. rewrite resolveModulePath_miss by assumption.
  rewrite possiblePaths_eq. apply find_first.
Qed.

(** X12 on a disk with [x/index.tsx] and [x.d.ts]: the index file of the
    earlier extension wins over the file of the later one. *)
Lemma resolveModulePath_first_match_witness :
  let disk := [fs.Directory "ws" [fs.Directory "x" [fs.File "index.tsx" (Some EmptyString)];
                                  fs.File "x.d.ts" (Some EmptyString)]] in
  let answer := fst (Treeview.resolveModulePath disk ∅ "/ws" "./x") in
  answer = Some "/ws/x/index.tsx"
  /\ fs.existsSync disk "/ws/x.d.ts" = true
  /\ match answer with
     | Some p =>
         fs.existsSync disk p = true
         /\ exists before after,
              ["/ws/x.ts"; "/ws/x/index.ts"; "/ws/x.tsx"; "/ws/x/index.tsx";
               "/ws/x.d.ts"; "/ws/x/index.d.ts"; "/ws/x.patch.ts"; "/ws/x/index.patch.ts"]
              = before ++ p :: after
              /\ Forall (fun q => fs.existsSync disk q = false) before
     | None => False
     end.
Proof.
  intros disk answer. split; [reflexivity|]. split; [reflexivity|].
  pose proof (resolveModulePath_first_match disk ∅ "/ws" "./x" eq_refl) as Hfirst.
  cbv zeta in Hfirst. subst answer.
  change (fst (Treeview.resolveModulePath disk ∅ "/ws" "./x"))
    with (Some "/ws/x/index.tsx") in *.
  exact Hfirst.
Defined.

Lemma mapM_inv {S A B} (I : S -> Prop) (f : A -> M S B) (l : list A) :
  (forall x s, I s -> I (snd (f x s))) ->
  forall s, I s -> I (snd (mapM f l s)).
Proof.
  intros Hf. induction l as [|x l IH]; intros s Hs; [exact Hs|].
  simpl. unfold bind. specialize (Hf x s Hs).
  destruct (f x s) as [[y|e] s']; simpl in Hf; [|exact Hf].
  specialize (IH s' Hf). destruct (mapM f l s') as [[ys|e] s'']; exact IH.
Qed.

Lemma collectBarrelFilesEntry_inv createSourceFile disk I :
  Notions.keptByParse createSourceFile disk I ->
  forall e directory st,
    I st -> I (snd (Treeview.collectBarrelFilesEntry createSourceFile disk directory e st)).
Proof.
  intros Hparse. induction e as [name content|name sub IH|name|name] using Entry_ind';
    intros directory [barrelFiles pathCache] Hst; try exact Hst.
  - cbn [Treeview.collectBarrelFilesEntry fs.entryName].
    destruct (JsString.endsWith name "index.ts"); [|exact Hst].
    unfold bind, Treeview.onPathCache, modify. simpl.
    specialize (Hparse (path.join directory name) barrelFiles pathCache Hst).
    destruct (Treeview.parseBarrel _ _ _ _) as [[barrel|e] pathCache']; exact Hparse.
  - cbn [Treeview.collectBarrelFilesEntry fs.entryName].
    apply forOf_inv; [|exact Hst].
    apply List.Forall_forall. intros e He st' Hst'.
    rewrite List.Forall_forall in IH. now apply IH.
Qed.

Lemma collectBarrelFiles_inv createSourceFile disk I :
  Notions.keptByParse createSourceFile disk I ->
  forall directory st,
    I st -> I (snd (Treeview.collectBarrelFiles createSourceFile disk directory st)).
Proof.
  intros Hparse directory st Hst. unfold Treeview.collectBarrelFiles, bind, lift.
  destruct (fs.readdirSync disk directory) as [entries|]; [|exact Hst].
  apply forOf_inv; [|exact Hst].
  apply List.Forall_forall. intros e _ st' Hst'. now apply collectBarrelFilesEntry_inv.
Qed.

(** The root query keeps what [parseBarrel] keeps. *)
Lemma getChildren_root_inv createSourceFile disk folders I :
  Notions.keptByParse createSourceFile disk I ->
  forall pathCache,
    I ([], pathCache) ->
    match Treeview.getChildren createSourceFile disk (Some folders) None pathCache with
    | (Ok barrels, pathCache') => I (barrels, pathCache')
    | (Throw _, pathCache') => exists barrelFiles, I (barrelFiles, pathCache')
    end.
Proof.
  intros Hparse pathCache Hst. cbn [Treeview.getChildren].
  assert (Hend : I (snd (forOf folders (Treeview.collectBarrelFiles createSourceFile disk)
                               ([], pathCache)))).
  { apply forOf_inv; [|exact Hst].
    apply List.Forall_forall. intros folder _ st Hst'. now apply collectBarrelFiles_inv. }
  destruct (forOf folders _ _) as [[[]|e] [barrelFiles pathCache']]; simpl in Hend.
  - exact Hend.
  - now exists barrelFiles.
Qed.

Lemma resolveModulePath_grows disk (pathCache : gmap string (option string))
    baseDir moduleSpecifier :
  pathCache ⊆ snd (Treeview.resolveModulePath disk pathCache baseDir moduleSpecifier).
Proof.
  unfold Treeview.resolveModulePath.
  destruct (pathCache !! path.join baseDir moduleSpecifier) eqn:Hkey; [reflexivity|].
  destruct (find _ _); simpl; now apply insert_subseteq.
Qed.

Lemma parseBarrelNode_grows disk barrelDir st node :
  snd st ⊆ snd (Treeview.parseBarrelNode disk barrelDir st node).
Proof.
  destruct st as [exports pathCache]. unfold Treeview.parseBarrelNode.
  destruct (ts.moduleSpecifier node) as [spec|]; [|reflexivity].
  destruct (_ && _); [|reflexivity].
  pose proof (resolveModulePath_grows disk pathCache barrelDir (ts.text spec)) as Hg.
  destruct (Treeview.resolveModulePath disk pathCache barrelDir (ts.text spec))
    as [resolved pathCache'].
  destruct (Treeview.truthy resolved); exact Hg.
Qed.

Lemma parseBarrel_grows createSourceFile disk filePath
    (pathCache : gmap string (option string)) :
  pathCache ⊆ snd (Treeview.parseBarrel createSourceFile disk filePath pathCache).
Proof.
  unfold Treeview.parseBarrel, bind, lift, throw.
  destruct (fs.readFileSync disk filePath) as [text|]; [|reflexivity].
  destruct (createSourceFile filePath text) as [sf|]; [|reflexivity].
  assert (Hfold : forall nodes st,
             snd st ⊆ snd (fold_left (Treeview.parseBarrelNode disk (path.dirname filePath))
                                      nodes st)).
  { induction nodes as [|node nodes IH]; intros st; [reflexivity|].
    cbn [fold_left]. etrans; [apply parseBarrelNode_grows|apply IH]. }
  specialize (Hfold (ts.children sf) ([], pathCache)).
  destruct (fold_left _ _ _) as [exports pathCache']. exact Hfold.
Qed.

(** X13: no query of the tree view removes or changes an entry of
    [pathCache]: the memo after [getChildren], of either copy of the
    provider, for the root or for an element, returned or thrown, holds
    every entry it held before, with the same answer. *)
Theorem pathCache_only_grows createSourceFile disk workspaceFolders element
    (pathCache : gmap string (option string)) :
  pathCache ⊆ snd (Treeview.getChildren createSourceFile disk workspaceFolders element
                                         pathCache)
  /\ pathCache ⊆ snd (TreeviewNested.getChildren createSourceFile disk workspaceFolders
                                                  element pathCache).
Proof.
  assert (Hroot : forall folders,
             pathCache ⊆ snd (Treeview.getChildren createSourceFile disk (Some folders)
                                                    None pathCache)).
  { intros folders.
    pose proof (getChildren_root_inv createSourceFile disk folders
                  (fun st => pathCache ⊆ snd st)) as H.
    assert (Hkept : Notions.keptByParse createSourceFile disk
                      (fun st => pathCache ⊆ snd st)).
    { intros filePath barrelFiles pc Hpc.
      pose proof (parseBarrel_grows createSourceFile disk filePath pc) as Hg.
      destruct (Treeview.parseBarrel _ _ _ _) as [[barrel|e] pc']; simpl in *;
        (etrans; [exact Hpc|exact Hg]). }
    specialize (H Hkept pathCache (reflexivity _)).
    destruct (Treeview.getChildren _ _ _ _ _) as [[barrels|e] pc']; simpl.
    - exact H.
    - now destruct H. }
  destruct workspaceFolders as [folders|]; [|split; reflexivity].
  destruct element as [element|]; [|split; apply Hroot].
  split.
  - cbn [Treeview.getChildren]. destruct (Treeview.exports element); [|reflexivity].
    unfold bind, lift. now destruct (Treeview.findFilesUsingBarrel _ _ _).
  - cbn [TreeviewNested.getChildren].
    apply (mapM_inv (fun pc => pathCache ⊆ pc)); [|reflexivity].
    intros exportInfo pc Hpc. unfold bind.
    pose proof (parseBarrel_grows createSourceFile disk (Treeview.path exportInfo) pc) as Hg.
    destruct (Treeview.parseBarrel _ _ _ _) as [[barrel|e] pc']; simpl in *;
      (etrans; [exact Hpc|exact Hg]).
Qed.

Lemma parseBarrel_throw_state createSourceFile disk filePath
    (pathCache pathCache' : gmap string (option string)) e :
  Treeview.parseBarrel createSourceFile disk filePath pathCache = (Throw e, pathCache') ->
  pathCache' = pathCache.
Proof.
  unfold Treeview.parseBarrel, bind, lift, throw.
  destruct (fs.readFileSync disk filePath) as [text|]; [|now intros [= _ <-]].
  destruct (createSourceFile filePath text) as [sf|]; [|now intros [= _ <-]].
  destruct (fold_left _ _ _). discriminate.
Qed.

(** X14: the root query on a disk that agrees with the memo: if every path
    the memo holds is on the disk (as for the empty memo of a fresh
    provider), then every entry of every barrel the query lists is on the
    disk, and every path of the memo afterwards is on the disk as well,
    so that the next query on the same disk starts from the same
    footing. *)
Theorem getChildren_entries_on_disk createSourceFile disk workspaceFolders
    (pathCache : gmap string (option string)) :
  Treeview.memoOnDisk disk pathCache ->
  match Treeview.getChildren createSourceFile disk workspaceFolders None pathCache with
  | (Ok barrels, pathCache') =>
      Treeview.memoOnDisk disk pathCache' /\ Forall (Notions.entriesOnDisk disk) barrels
  | (Throw _, pathCache') => Treeview.memoOnDisk disk pathCache'
  end.
Proof.
  intros Hmemo. destruct workspaceFolders as [folders|]; [|now split].
  pose proof (getChildren_root_inv createSourceFile disk folders
                (fun st => Treeview.memoOnDisk disk (snd st)
                           /\ Forall (Notions.entriesOnDisk disk) (fst st))) as H.
  assert (Hkept : Notions.keptByParse createSourceFile disk
                    (fun st => Treeview.memoOnDisk disk (snd st)
                               /\ Forall (Notions.entriesOnDisk disk) (fst st))).
  { intros filePath barrelFiles pc [Hpc Hbf]. simpl in Hpc, Hbf.
    destruct (Treeview.parseBarrel createSourceFile disk filePath pc)
      as [[barrel|e] pc'] eqn:Hparse; simpl.
    - destruct (parseBarrel_onDisk _ _ _ _ _ _ Hpc Hparse) as [Hpc' Hentries].
      split; [assumption|]. apply Forall_app. split; [assumption|].
      constructor; [exact Hentries|constructor].
    - apply parseBarrel_throw_state in Hparse as ->. now split. }
  specialize (H Hkept pathCache (conj Hmemo (Forall_nil_2 _))).
  destruct (Treeview.getChildren _ _ _ _ _) as [[barrels|e] pc']; simpl in H.
  - exact H.
  - destruct H as (bf & Hpc' & _). exact Hpc'.
Qed.

(** X14 for a fresh provider on the package of the scenario. *)
Lemma getChildren_entries_on_disk_witness :
  Treeview.memoOnDisk Scenario.disk ∅
  /\ match Treeview.getChildren Scenario.parse Scenario.disk Scenario.workspaceFolders
                                None ∅ with
     | (Ok barrels, pathCache') =>
         Treeview.memoOnDisk Scenario.disk pathCache'
         /\ Forall (Notions.entriesOnDisk Scenario.disk) barrels
     | (Throw _, pathCache') => Treeview.memoOnDisk Scenario.disk pathCache'
     end.
Proof.
  split; [apply memoOnDisk_empty|].
  apply (getChildren_entries_on_disk Scenario.parse Scenario.disk Scenario.workspaceFolders ∅).
  apply memoOnDisk_empty.
Defined.

(** ** What the root query lists *)

Lemma parseBarrel_parsed createSourceFile disk filePath
    (pathCache : gmap string (option string)) sf :
  Notions.parsedAt createSourceFile disk filePath = Some sf ->
  exists barrel pathCache',
    Treeview.parseBarrel createSourceFile disk filePath pathCache = (Ok barrel, pathCache')
    /\ Treeview.barrelPath barrel = filePath.
Proof.
  unfold Notions.parsedAt, Treeview.parseBarrel, bind, lift.
  destruct (fs.readFileSync disk filePath) as [text|]; [|discriminate].
  intros ->. destruct (fold_left _ _ _) as [exports pathCache']. now eexists _, _.
Qed.

Lemma indexPaths_app l1 l2 :
  Notions.indexPaths (l1 ++ l2) = Notions.indexPaths l1 ++ Notions.indexPaths l2.
Proof. unfold Notions.indexPaths. now rewrite List.filter_app, List.map_app. Qed.

Lemma indexPaths_flat_map {A} (f : A -> list (string * string * option string)) l :
  Notions.indexPaths (flat_map f l) = flat_map (fun x => Notions.indexPaths (f x)) l.
Proof.
  induction l as [|x l IH]; [reflexivity|]. simpl. now rewrite indexPaths_app, IH.
Qed.

(** A loop whose bodies push barrels, with whatever they do to the memo. *)
Lemma forOf_pushes {A} (l : list A)
    (body : A -> M (list Treeview.BarrelFile * gmap string (option string)) unit)
    (out : A -> list string) :
  Forall (fun x => forall barrelFiles pathCache,
            exists pushed pathCache',
              body x (barrelFiles, pathCache) = (Ok tt, (barrelFiles ++ pushed, pathCache'))
              /\ map Treeview.barrelPath pushed = out x) l ->
  forall barrelFiles pathCache,
    exists pushed pathCache',
      forOf l body (barrelFiles, pathCache) = (Ok tt, (barrelFiles ++ pushed, pathCache'))
      /\ map Treeview.barrelPath pushed = flat_map out l.
Proof.
  induction 1 as [|x l Hx Hl IH]; intros barrelFiles pathCache.
  - exists [], pathCache. simpl. now rewrite app_nil_r.
  - destruct (Hx barrelFiles pathCache) as (p1 & pc1 & Hbody & Hp1).
    destruct (IH (barrelFiles ++ p1) pc1) as (p2 & pc2 & Hrest & Hp2).
    exists (p1 ++ p2), pc2. simpl. unfold bind. rewrite Hbody.
    fold (forOf l body). rewrite Hrest. split.
    + now rewrite app_assoc.
    + now rewrite List.map_app, Hp1, Hp2.
Qed.

Lemma collectBarrelFilesEntry_pushes createSourceFile disk e :
  forall directory,
    Treeview.openEntry e = true ->
    forallb (Notions.parsableIndex createSourceFile disk)
            (Treeview.filesUnderEntry directory e) = true ->
    forall barrelFiles pathCache,
      exists pushed pathCache',
        Treeview.collectBarrelFilesEntry createSourceFile disk directory e
                                         (barrelFiles, pathCache)
        = (Ok tt, (barrelFiles ++ pushed, pathCache'))
        /\ map Treeview.barrelPath pushed
           = Notions.indexPaths (Treeview.filesUnderEntry directory e).
Proof.
  induction e as [name content|name sub IH|name|name] using Entry_ind';
    intros directory Hopen Hparsable barrelFiles pathCache; try discriminate Hopen.
  - cbn [Treeview.collectBarrelFilesEntry Treeview.filesUnderEntry fs.entryName] in *.
    unfold Notions.indexPaths. simpl in *.
    destruct (JsString.endsWith name "index.ts").
    + destruct (Notions.parsedAt createSourceFile disk (path.join directory name))
        as [sf|] eqn:Hsf; [|discriminate].
      destruct (parseBarrel_parsed createSourceFile disk _ pathCache sf Hsf)
        as (barrel & pc' & Hparse & Hpath).
      exists [barrel], pc'. unfold bind, Treeview.onPathCache, modify. simpl.
      rewrite Hparse. simpl. now rewrite Hpath.
    + exists [], pathCache. unfold ret. now rewrite app_nil_r.
  - cbn [Treeview.collectBarrelFilesEntry Treeview.filesUnderEntry Treeview.openEntry
         fs.entryName] in *.
    rewrite indexPaths_flat_map. apply forOf_pushes.
    set (filePath := path.join directory name) in *. clearbody filePath.
    induction IH as [|e sub He Hsub IHsub]; constructor.
    + apply forallb_cons_true in Hopen as [Hopen _].
      apply forallb_flat_map_cons in Hparsable as [Hparsable _].
      intros bf pc. now apply He.
    + apply forallb_cons_true in Hopen as [_ Hopen].
      apply forallb_flat_map_cons in Hparsable as [_ Hparsable].
      now apply IHsub.
Qed.

Lemma collectBarrelFiles_pushes createSourceFile disk folder :
  Treeview.openFolder disk folder = true ->
  forallb (Notions.parsableIndex createSourceFile disk) (Treeview.filesUnder disk folder)
  = true ->
  forall barrelFiles pathCache,
    exists pushed pathCache',
      Treeview.collectBarrelFiles createSourceFile disk folder (barrelFiles, pathCache)
      = (Ok tt, (barrelFiles ++ pushed, pathCache'))
      /\ map Treeview.barrelPath pushed
         = Notions.indexPaths (Treeview.filesUnder disk folder).
Proof.
  unfold Treeview.collectBarrelFiles, Treeview.filesUnder, Treeview.openFolder, bind, lift.
  destruct (fs.readdirSync disk folder) as [entries|]; [|discriminate].
  intros Hopen Hparsable. rewrite indexPaths_flat_map. apply forOf_pushes.
  induction entries as [|e entries IH]; constructor.
  - apply forallb_cons_true in Hopen as [Hopen _].
    apply forallb_flat_map_cons in Hparsable as [Hparsable _].
    intros bf pc. now apply collectBarrelFilesEntry_pushes.
  - apply forallb_cons_true in Hopen as [_ Hopen].
    apply forallb_flat_map_cons in Hparsable as [_ Hparsable].
    now apply IH.
Qed.

(** X15: the root query lists one barrel for each file below the
    workspace folders whose name ends with [index.ts], in the order of the
    traversal and whatever the file exports (a file without a re-export is
    listed too, and so is one in [node_modules]); files with other names
    and directories are not listed. This is the answer when the scan runs
    to its end: every workspace folder and every directory below lists,
    no link below dangles, and every such file can be read and parsed. *)
Theorem getChildren_lists_index_files createSourceFile disk folders
    (pathCache : gmap string (option string)) :
  forallb (Treeview.openFolder disk) folders = true ->
  forallb (Notions.parsableIndex createSourceFile disk)
          (flat_map (Treeview.filesUnder disk) folders) = true ->
  exists barrels pathCache',
    Treeview.getChildren createSourceFile disk (Some folders) None pathCache
    = (Ok barrels, pathCache')
    /\ map Treeview.barrelPath barrels
       = Notions.indexPaths (flat_map (Treeview.filesUnder disk) folders).
Proof.
  intros Hdirs Hparsable. cbn [Treeview.getChildren].
  destruct (forOf_pushes folders (Treeview.collectBarrelFiles createSourceFile disk)
              (fun folder => Notions.indexPaths (Treeview.filesUnder disk folder)))
    with (barrelFiles := @nil Treeview.BarrelFile) (pathCache := pathCache)
    as (pushed & pc' & Hrun & Hpaths).
  - induction folders as [|folder folders IH]; constructor.
    + apply forallb_cons_true in Hdirs as [Hdir _].
      apply forallb_flat_map_cons in Hparsable as [Hp _].
      intros bf pc. now apply collectBarrelFiles_pushes.
    + apply forallb_cons_true in Hdirs as [_ Hdirs].
      apply forallb_flat_map_cons in Hparsable as [_ Hp].
      now apply IH.
  - exists pushed, pc'. rewrite Hrun. simpl. split; [reflexivity|].
    now rewrite Hpaths, indexPaths_flat_map.
Qed.

(** X15 on the package of the scenario. *)
Lemma getChildren_lists_index_files_witness :
  exists barrels pathCache',
    Treeview.getChildren Scenario.parse Scenario.disk (Some ["/ws"]) None ∅
    = (Ok barrels, pathCache')
    /\ map Treeview.barrelPath barrels = ["/ws/pkg/index.ts"].
Proof.
  apply (getChildren_lists_index_files Scenario.parse Scenario.disk ["/ws"] ∅); reflexivity.
Defined.

(** ** The entries of a barrel *)

Lemma parseBarrelNode_adds disk barrelDir exports
    (pathCache : gmap string (option string)) node :
  exists added,
    fst (Treeview.parseBarrelNode disk barrelDir (exports, pathCache) node) = exports ++ added
    /\ sublist (map Notions.entryOrigin added)
               (map Notions.declarationOrigin (List.filter Notions.reExport [node])).
Proof.
  assert (Hnone : forall l, exists added : list Treeview.ExportedModuleInfo,
             exports = exports ++ added /\ sublist (map Notions.entryOrigin added) l).
  { intros l. exists []. rewrite app_nil_r. split; [reflexivity|apply sublist_nil_l]. }
  unfold Treeview.parseBarrelNode. cbn [List.filter].
  unfold Notions.reExport at 1.
  destruct (ts.moduleSpecifier node) as [spec|] eqn:Hspec; [|apply Hnone].
  destruct (ts.isExportDeclaration node && ts.isStringLiteral spec); [|apply Hnone].
  destruct (Treeview.resolveModulePath disk pathCache barrelDir (ts.text spec))
    as [resolved pathCache'].
  destruct (Treeview.truthy resolved) as [resolvedPath|]; [|apply Hnone].
  eexists [_]. split; [reflexivity|]. cbn [map].
  unfold Notions.declarationOrigin, Notions.specifierText, Notions.entryOrigin.
  rewrite Hspec. cbn. apply sublist_skip. constructor.
Qed.

Lemma parseBarrel_fold_adds disk barrelDir nodes :
  forall exports (pathCache : gmap string (option string)),
  exists added,
    fst (fold_left (Treeview.parseBarrelNode disk barrelDir) nodes (exports, pathCache))
    = exports ++ added
    /\ sublist (map Notions.entryOrigin added)
               (map Notions.declarationOrigin (List.filter Notions.reExport nodes)).
Proof.
  induction nodes as [|node nodes IH]; intros exports pathCache.
  - exists []. simpl. rewrite app_nil_r. split; [reflexivity|constructor].
  - cbn [fold_left].
    destruct (parseBarrelNode_adds disk barrelDir exports pathCache node) as (a1 & H1 & S1).
    destruct (Treeview.parseBarrelNode disk barrelDir (exports, pathCache) node)
      as [exports1 pc1]. simpl in H1. subst exports1.
    destruct (IH (exports ++ a1) pc1) as (a2 & H2 & S2).
    exists (a1 ++ a2). rewrite H2, app_assoc. split; [reflexivity|].
    rewrite List.map_app.
    change (node :: nodes) with ([node] ++ nodes).
    rewrite List.filter_app, List.map_app. now apply sublist_app.
Qed.

(** X16: the entries of a barrel follow its declarations: [parseBarrel]
    of a file that can be read and parsed returns a barrel under the path
    of the file whose entries, in order, come from a sub-sequence of the
    top-level export declarations with a string literal as module
    specifier, each entry with the specifier and the type-only flag of its
    declaration; declarations that do not resolve leave no entry, and no
    other statement leaves one. *)
Theorem parseBarrel_follows_declarations createSourceFile disk filePath
    (pathCache : gmap string (option string)) sf :
  Notions.parsedAt createSourceFile disk filePath = Some sf ->
  exists barrel pathCache',
    Treeview.parseBarrel createSourceFile disk filePath pathCache = (Ok barrel, pathCache')
    /\ Treeview.barrelPath barrel = filePath
    /\ sublist (map Notions.entryOrigin (Treeview.exports barrel))
               (map Notions.declarationOrigin
                    (List.filter Notions.reExport (ts.children sf))).
Proof.
  unfold Notions.parsedAt, Treeview.parseBarrel, bind, lift.
  destruct (fs.readFileSync disk filePath) as [text|]; [|discriminate].
  intros ->.
  destruct (parseBarrel_fold_adds disk (path.dirname filePath) (ts.children sf) [] pathCache)
    as (added & Hadded & Hsub).
  destruct (fold_left _ _ _) as [exports pathCache']. simpl in Hadded. subst exports.
  now eexists _, _.
Qed.

(** X16 on the barrel of the package once [a.ts] is deleted. *)
Lemma parseBarrel_follows_declarations_witness :
  exists barrel pathCache',
    Treeview.parseBarrel Scenario.parse Scenario.diskAfterDelete "/ws/pkg/index.ts" ∅
    = (Ok barrel, pathCache')
    /\ Treeview.barrelPath barrel = "/ws/pkg/index.ts"
    /\ sublist (map Notions.entryOrigin (Treeview.exports barrel))
               [("./a", false); ("./b", true)].
Proof.
  apply (parseBarrel_follows_declarations Scenario.parse Scenario.diskAfterDelete
           "/ws/pkg/index.ts" ∅
           (ts.sourceFile [ts.exportStar false "./a"; ts.exportNamedFrom true ["B"] "./b"])).
  reflexivity.
Defined.

(** ** Elements and their items *)

(** X17: the children of an element are leaves of the view: whichever
    branch [getChildren(element)] takes, each child it returns has no
    exports, so [getTreeItem] shows it as not collapsible with the
    description of a user of the barrel; the query leaves the memo as it
    is. An element itself is not collapsible exactly when it has no
    exports, which is when [getChildren] would search its users. *)
Theorem children_are_leaves createSourceFile disk workspaceFolders extensionPath element
    (pathCache pathCache' : gmap string (option string)) children :
  Treeview.getChildren createSourceFile disk workspaceFolders (Some element) pathCache
  = (Ok children, pathCache') ->
  pathCache' = pathCache
  /\ Forall (fun child =>
               Treeview.exports child = []
               /\ TreeviewItem.collapsibleState (TreeviewItem.getTreeItem extensionPath child)
                  = TreeviewItem.NotCollapsible
               /\ TreeviewItem.description (TreeviewItem.getTreeItem extensionPath child)
                  = "Used for barrel file(s)") children
  /\ (TreeviewItem.collapsibleState (TreeviewItem.getTreeItem extensionPath element)
      = TreeviewItem.NotCollapsible <-> Treeview.exports element = []).
Proof.
  intros Hq. split; [|split].
  - destruct workspaceFolders as [folders|]; cbn [Treeview.getChildren] in Hq.
    + destruct (Treeview.exports element).
      * unfold bind, lift, ret in Hq.
        destruct (Treeview.findFilesUsingBarrel _ _ _); now injection Hq.
      * now injection Hq.
    + now injection Hq.
  - destruct workspaceFolders as [folders|]; cbn [Treeview.getChildren] in Hq.
    + destruct (Treeview.exports element) as [|exp exps].
      * unfold bind, lift, ret in Hq.
        destruct (Treeview.findFilesUsingBarrel _ _ _) as [files|]; [|discriminate].
        injection Hq as <- _. apply List.Forall_forall. intros child Hin.
        apply in_map_iff in Hin as (filePath & <- & _). repeat split.
      * injection Hq as <- _. apply List.Forall_forall. intros child Hin.
        destruct Hin as [<-|Hin]; [repeat split|].
        apply in_map_iff in Hin as (e & <- & _). repeat split.
    + injection Hq as <- _. constructor.
  - unfold TreeviewItem.getTreeItem. cbn [TreeviewItem.collapsibleState].
    destruct (Treeview.exports element); simpl; split; intros H;
      first [reflexivity | discriminate].
Qed.

(** X17 on the barrel of the package. *)
Lemma children_are_leaves_witness :
  let barrel := {| Treeview.barrelPath := "/ws/pkg/index.ts"; Treeview.exports := [] |} in
  exists children,
    Treeview.getChildren Scenario.parse Scenario.usersDisk Scenario.workspaceFolders
                         (Some barrel) ∅ = (Ok children, ∅)
    /\ Forall (fun child =>
                 Treeview.exports child = []
                 /\ TreeviewItem.collapsibleState (TreeviewItem.getTreeItem "/ext" child)
                    = TreeviewItem.NotCollapsible
                 /\ TreeviewItem.description (TreeviewItem.getTreeItem "/ext" child)
                    = "Used for barrel file(s)") children.
Proof.
  intros barrel. eexists. split; [vm_compute; reflexivity|].
  eapply (children_are_leaves Scenario.parse Scenario.usersDisk Scenario.workspaceFolders
            "/ext" barrel ∅ ∅).
  vm_compute. reflexivity.
Defined.

Lemma parseBarrel_unparsed createSourceFile disk filePath
    (pathCache : gmap string (option string)) :
  Notions.parsedAt createSourceFile disk filePath = None ->
  exists e, Treeview.parseBarrel createSourceFile disk filePath pathCache
            = (Throw e, pathCache).
Proof.
  unfold Notions.parsedAt, Treeview.parseBarrel, bind, lift, throw.
  destruct (fs.readFileSync disk filePath) as [text|e]; [|now exists e].
  intros ->. now exists SyntaxError.
Qed.

(** X18: in the second copy of the provider, expanding an element parses
    the file of each of its entries. The expansion returns one child per
    entry, in order and under the path of the entry, exactly when every
    one of these files can be read and parsed; if one cannot (a file
    deleted since its path was memoized, for one), the expansion
    throws. *)
Theorem nested_getChildren_parses_entries createSourceFile disk folders element
    (pathCache : gmap string (option string)) :
  match fst (TreeviewNested.getChildren createSourceFile disk (Some folders) (Some element)
                                        pathCache) with
  | Ok children =>
      map Treeview.barrelPath children = map Treeview.path (Treeview.exports element)
      /\ Forall (fun e => Notions.parsedAt createSourceFile disk (Treeview.path e) <> None)
                (Treeview.exports element)
  | Throw _ =>
      Exists (fun e => Notions.parsedAt createSourceFile disk (Treeview.path e) = None)
             (Treeview.exports element)
  end.
Proof.
  cbn [TreeviewNested.getChildren].
  revert pathCache. induction (Treeview.exports element) as [|e es IH]; intros pathCache.
  - simpl. split; [reflexivity|constructor].
  - cbn [mapM]. unfold bind at 1.
    destruct (Notions.parsedAt createSourceFile disk (Treeview.path e)) as [sf|] eqn:Hsf.
    + destruct (parseBarrel_parsed createSourceFile disk _ pathCache sf Hsf)
        as (barrel & pc' & Hparse & _).
      unfold bind at 1. rewrite Hparse. unfold ret at 1. unfold bind at 1.
      specialize (IH pc').
      fold (@mapM (gmap string (option string)) _ _
              (fun exportInfo =>
                 let* childBarrelFile :=
                   Treeview.parseBarrel createSourceFile disk (Treeview.path exportInfo) in
                 ret {| Treeview.barrelPath := Treeview.path exportInfo;
                        Treeview.exports := Treeview.exports childBarrelFile |}) es) in *.
      destruct (mapM _ es pc') as [[children|err] pc'']; simpl in *.
      * destruct IH as [Hpaths Hall]. split; [now rewrite Hpaths|].
        constructor; [congruence|assumption].
      * now apply Exists_cons_tl.
    + destruct (parseBarrel_unparsed createSourceFile disk _ pathCache Hsf) as (err & Hparse).
      unfold bind at 1. rewrite Hparse. simpl. now apply Exists_cons_hd.
Qed.

(** ** The search for the users of a barrel *)

Lemma Exists_Forall_impl {A} (P Q : A -> Prop) (l : list A) :
  Exists P l -> Forall (fun x => P x -> Q x) l -> Exists Q l.
Proof.
  induction 1 as [x l Hx|x l Hl IH]; intros Himpl; inversion Himpl; subst.
  - apply Exists_cons_hd. auto.
  - apply Exists_cons_tl. auto.
Qed.

Lemma searchFilesEntry_throws barrelPath e :
  forall directory,
    forallb Treeview.readableTs (Treeview.filesUnderEntry directory e) = false ->
    forall acc, exists err acc',
      Treeview.searchFilesEntry barrelPath directory e acc = (Throw err, acc').
Proof.
  induction e as [name content|name sub IH|name|name] using Entry_ind';
    intros directory Hbad acc; try discriminate Hbad.
  - simpl in *. destruct (JsString.endsWith name ".ts"); [|discriminate].
    destruct content; [discriminate|]. now exists EACCES, acc.
  - cbn [Treeview.searchFilesEntry Treeview.filesUnderEntry fs.entryName] in *.
    apply forOf_reaches_throw. apply forallb_flat_map_false in Hbad.
    apply (Exists_Forall_impl _ _ _ Hbad).
    apply List.Forall_forall. intros e He Hbade. rewrite List.Forall_forall in IH.
    now apply IH.
Qed.

Lemma searchFiles_throws disk barrelPath folder :
  forallb Treeview.readableTs (Treeview.filesUnder disk folder) = false ->
  forall acc, exists err acc',
    Treeview.searchFiles disk barrelPath folder acc = (Throw err, acc').
Proof.
  unfold Treeview.searchFiles, Treeview.filesUnder, bind, lift.
  destruct (fs.readdirSync disk folder) as [entries|]; [|discriminate].
  intros Hbad. apply forOf_reaches_throw. apply forallb_flat_map_false in Hbad.
  apply (Exists_Forall_impl _ _ _ Hbad).
  apply List.Forall_forall. intros e _ Hbade. now apply searchFilesEntry_throws.
Qed.

(** Where every link has its target and every directory lists, the
    search throws what [readFileSync] throws at a file it may not read. *)
Lemma searchFilesEntry_open_throws barrelPath e :
  forall directory acc err acc',
    Treeview.openEntry e = true ->
    Treeview.searchFilesEntry barrelPath directory e acc = (Throw err, acc') ->
    err = EACCES.
Proof.
  induction e as [name content|name sub IH|name|name] using Entry_ind';
    intros directory acc err acc' Hopen; try discriminate Hopen.
  - simpl. destruct (JsString.endsWith name ".ts"); [|discriminate].
    destruct content as [text|]; [destruct (_ || _); discriminate|].
    now intros [= <- _].
  - cbn [Treeview.searchFilesEntry Treeview.openEntry fs.entryName] in *.
    intros Hthrow. apply forOf_throw_inv in Hthrow as (x & s1 & Hx & Hthrow).
    rewrite List.Forall_forall in IH. rewrite forallb_forall in Hopen.
    eapply IH; [exact Hx|now apply Hopen|exact Hthrow].
Qed.

Lemma searchFiles_open_throws disk barrelPath folder acc err acc' :
  Treeview.openFolder disk folder = true ->
  Treeview.searchFiles disk barrelPath folder acc = (Throw err, acc') ->
  err = EACCES.
Proof.
  unfold Treeview.searchFiles, Treeview.openFolder, bind, lift.
  destruct (fs.readdirSync disk folder) as [entries|]; [|discriminate].
  intros Hopen Hthrow. apply forOf_throw_inv in Hthrow as (x & s1 & Hx & Hthrow).
  rewrite forallb_forall in Hopen.
  eapply searchFilesEntry_open_throws; [|exact Hthrow]. now apply Hopen.
Qed.

(** X19: one file named [*.ts] that cannot be read, anywhere below the
    workspace folders, makes the search for the users of a barrel throw:
    [findFilesUsingBarrel] has no handler around [readFileSync], and
    returns no partial list. What it throws is the error of that
    [readFileSync] when every directory lists and no link dangles; a
    directory or a link that fails before the file is reached throws in
    its place. *)
Theorem findFilesUsingBarrel_throws disk folders barrelPath :
  forallb Treeview.readableTs (flat_map (Treeview.filesUnder disk) folders) = false ->
  exists err,
    Treeview.findFilesUsingBarrel disk (Some folders) barrelPath = Throw err
    /\ (forallb (Treeview.openFolder disk) folders = true -> err = EACCES).
Proof.
  intros Hbad. unfold Treeview.findFilesUsingBarrel.
  destruct (forOf_reaches_throw (Treeview.searchFiles disk barrelPath) folders)
    with (s := @nil string) as (err & acc & Hthrow).
  - apply forallb_flat_map_false in Hbad. apply (Exists_Forall_impl _ _ _ Hbad).
    apply List.Forall_forall. intros folder _ Hfolder. now apply searchFiles_throws.
  - rewrite Hthrow. exists err. split; [reflexivity|]. intros Hopen.
    apply forOf_throw_inv in Hthrow as (folder & s1 & Hfolder & Hthrow).
    rewrite forallb_forall in Hopen.
    eapply searchFiles_open_throws; [|exact Hthrow]. now apply Hopen.
Qed.

(** X19 on a workspace with a readable user and an unreadable file. *)
Lemma findFilesUsingBarrel_throws_witness :
  Treeview.findFilesUsingBarrel
    [fs.Directory "ws" [fs.File "app.ts" (Some "import '/ws/pkg/index.ts';");
                        fs.Directory "gen" [fs.File "locked.ts" None]]]
    (Some ["/ws"]) "/ws/pkg/index.ts" = Throw EACCES.
Proof.
  destruct (findFilesUsingBarrel_throws
              [fs.Directory "ws" [fs.File "app.ts" (Some "import '/ws/pkg/index.ts';");
                                  fs.Directory "gen" [fs.File "locked.ts" None]]]
              ["/ws"] "/ws/pkg/index.ts" eq_refl) as (err & Hthrow & Herr).
  rewrite Hthrow. f_equal. now apply Herr.
Defined.

Lemma searchFilesEntry_not_open barrelPath e :
  forall directory,
    Treeview.openEntry e = false ->
    forall acc, exists err acc',
      Treeview.searchFilesEntry barrelPath directory e acc = (Throw err, acc').
Proof.
  induction e as [name content|name sub IH|name|name] using Entry_ind';
    intros directory Hclosed acc; try discriminate Hclosed.
  - cbn [Treeview.searchFilesEntry Treeview.openEntry fs.entryName] in *.
    apply forOf_reaches_throw. apply forallb_false_Exists in Hclosed.
    apply (Exists_Forall_impl _ _ _ Hclosed).
    apply List.Forall_forall. intros e He Hbad. rewrite List.Forall_forall in IH.
    now apply IH.
  - now exists EACCES, acc.
  - now exists ENOENT, acc.
Qed.

Lemma collectBarrelFilesEntry_not_open createSourceFile disk e :
  forall directory,
    Treeview.openEntry e = false ->
    forall st, exists err st',
      Treeview.collectBarrelFilesEntry createSourceFile disk directory e st
      = (Throw err, st').
Proof.
  induction e as [name content|name sub IH|name|name] using Entry_ind';
    intros directory Hclosed st; try discriminate Hclosed.
  - cbn [Treeview.collectBarrelFilesEntry Treeview.openEntry fs.entryName] in *.
    apply forOf_reaches_throw. apply forallb_false_Exists in Hclosed.
    apply (Exists_Forall_impl _ _ _ Hclosed).
    apply List.Forall_forall. intros e He Hbad. rewrite List.Forall_forall in IH.
    now apply IH.
  - now exists EACCES, st.
  - now exists ENOENT, st.
Qed.

(** X24: a workspace folder that does not list, a directory below that
    does not list, or a link below whose target is missing makes the
    search for the users of a barrel and the root query throw: neither
    [searchFiles] nor [collectBarrelFiles] handles what [readdirSync] and
    [statSync] throw, and neither returns a partial list. *)
Theorem scans_throw_below_closed createSourceFile disk folders barrelPath
    (pathCache : gmap string (option string)) :
  forallb (Treeview.openFolder disk) folders = false ->
  (exists err, Treeview.findFilesUsingBarrel disk (Some folders) barrelPath = Throw err)
  /\ (exists err pathCache',
        Treeview.getChildren createSourceFile disk (Some folders) None pathCache
        = (Throw err, pathCache')).
Proof.
  intros Hclosed. apply forallb_false_Exists in Hclosed. split.
  - unfold Treeview.findFilesUsingBarrel.
    destruct (forOf_reaches_throw (Treeview.searchFiles disk barrelPath) folders)
      with (s := @nil string) as (err & acc & ->); [|now exists err].
    apply (Exists_Forall_impl _ _ _ Hclosed).
    apply List.Forall_forall. intros folder _.
    unfold Treeview.openFolder, Treeview.searchFiles, bind, lift.
    destruct (fs.readdirSync disk folder) as [entries|err]; [|now intros _ acc; exists err, acc].
    intros Hentries. apply forOf_reaches_throw. apply forallb_false_Exists in Hentries.
    apply (Exists_Forall_impl _ _ _ Hentries).
    apply List.Forall_forall. intros e _ He. now apply searchFilesEntry_not_open.
  - cbn [Treeview.getChildren].
    destruct (forOf_reaches_throw (Treeview.collectBarrelFiles createSourceFile disk) folders)
      with (s := (@nil Treeview.BarrelFile, pathCache)) as (err & [bf pc] & ->);
      [|now exists err, pc].
    apply (Exists_Forall_impl _ _ _ Hclosed).
    apply List.Forall_forall. intros folder _.
    unfold Treeview.openFolder, Treeview.collectBarrelFiles, bind, lift.
    destruct (fs.readdirSync disk folder) as [entries|err]; [|now intros _ st; exists err, st].
    intros Hentries. apply forOf_reaches_throw. apply forallb_false_Exists in Hentries.
    apply (Exists_Forall_impl _ _ _ Hentries).
    apply List.Forall_forall. intros e _ He. now apply collectBarrelFilesEntry_not_open.
Qed.

(** X24 on the package with a dangling link: both scans throw what
    [statSync] throws at the link. *)
Lemma scans_throw_below_closed_witness :
  Treeview.findFilesUsingBarrel Scenario.linkDisk (Some ["/ws"]) "/ws/pkg/index.ts"
  = Throw ENOENT
  /\ fst (Treeview.getChildren Scenario.parse Scenario.linkDisk (Some ["/ws"]) None ∅)
     = Throw ENOENT
  /\ (exists err,
        Treeview.findFilesUsingBarrel Scenario.linkDisk (Some ["/ws"]) "/ws/pkg/index.ts"
        = Throw err)
  /\ (exists err pathCache',
        Treeview.getChildren Scenario.parse Scenario.linkDisk (Some ["/ws"]) None ∅
        = (Throw err, pathCache')).
Proof.
  split; [reflexivity|]. split; [reflexivity|].
  apply (scans_throw_below_closed Scenario.parse Scenario.linkDisk ["/ws"]
           "/ws/pkg/index.ts" ∅).
  reflexivity.
Defined.

(** ** Imports, and barrels without re-exports *)

Lemma importStatements_eq n :
  Notions.importStatements n =
  (if ts.isImportDeclaration n || ts.isImportEqualsDeclaration n then 1 else 0)
  + fold_right (fun child k => Notions.importStatements child + k) 0 (ts.children n).
Proof. destruct n; reflexivity. Qed.

Lemma numberOfImportsIn_add t node :
  forall k, Provider.numberOfImportsIn t node k = k + Provider.numberOfImportsIn t node 0.
Proof.
  induction node as [n IH] using Node_ind'. intros k.
  rewrite !numberOfImportsIn_eq, !(fold_children_add _ _ IH). lia.
Qed.

Lemma numberOfImportsIn_children t node :
  Provider.numberOfImportsIn t node 0 =
  Provider.numberOfImportsHere t node
  + fold_right (fun c acc => Provider.numberOfImportsIn t c 0 + acc) 0 (ts.children node).
Proof.
  rewrite numberOfImportsIn_eq, fold_children_add; [reflexivity|].
  apply List.Forall_forall. intros c _. apply numberOfImportsIn_add.
Qed.

Lemma node_imports node :
  Provider.numberOfImportsIn false node 0 + Provider.numberOfImportsIn true node 0
  = Notions.importStatements node.
Proof.
  induction node as [n IH] using Node_ind'.
  rewrite !numberOfImportsIn_children, importStatements_eq.
  assert (Hhere : Provider.numberOfImportsHere false n + Provider.numberOfImportsHere true n
                  = if ts.isImportDeclaration n || ts.isImportEqualsDeclaration n
                    then 1 else 0).
  { unfold Provider.numberOfImportsHere.
    destruct (ts.isImportDeclaration n), (ts.isImportEqualsDeclaration n); simpl;
      try reflexivity;
      destruct (ts.importClause n) as [[[]]|]; reflexivity. }
  enough (fold_right (fun c acc => Provider.numberOfImportsIn false c 0 + acc) 0 (ts.children n)
          + fold_right (fun c acc => Provider.numberOfImportsIn true c 0 + acc) 0 (ts.children n)
          = fold_right (fun child k => Notions.importStatements child + k) 0 (ts.children n))
    by lia.
  induction (ts.children n) as [|c cs IHcs]; [reflexivity|].
  apply Forall_cons in IH as [IHc IHrest]. specialize (IHcs IHrest). simpl. lia.
Qed.

(** X20: imports are counted per statement: the import symbol count of a
    file is the number of import declarations and import-equals
    declarations of its tree, nested ones included, each counted once as
    a value or as a type import whatever it names. *)
Theorem import_count_is_statements (sourceFileCache : gmap string ts.Node) filePath sf :
  sourceFileCache !! filePath = Some sf ->
  Provider.importSymbolCount (Provider.counts sourceFileCache filePath)
  = Notions.importStatements sf
  /\ Provider.valueImportCount (Provider.counts sourceFileCache filePath)
     + Provider.typeImportCount (Provider.counts sourceFileCache filePath)
     = Notions.importStatements sf.
Proof.
  intros Hsf. unfold Provider.counts, Provider.getNumberOfImports.
  cbn [Provider.importSymbolCount Provider.valueImportCount Provider.typeImportCount].
  rewrite Hsf. split; apply node_imports.
Qed.

(** X20 on a file with a value import, a type import and a statement
    that imports nothing. *)
Lemma import_count_is_statements_witness :
  let sf := ts.sourceFile [ts.importFrom false "./a"; ts.importFrom true "./b";
                           ts.declaration ts.SyntaxKind.VariableStatement [] []] in
  let sourceFileCache : gmap string ts.Node := {["/ws/m.ts" := sf]} in
  Provider.importSymbolCount (Provider.counts sourceFileCache "/ws/m.ts") = 2
  /\ Provider.valueImportCount (Provider.counts sourceFileCache "/ws/m.ts")
     + Provider.typeImportCount (Provider.counts sourceFileCache "/ws/m.ts") = 2.
Proof.
  intros sf sourceFileCache.
  apply (import_count_is_statements sourceFileCache "/ws/m.ts" sf). reflexivity.
Defined.

(** X21: a file that the cached [checkBarrelFile] may accept but that has
    no export declaration with a module specifier at top level shows no
    children: the barrel branch of [getChildren] returns the empty list
    for it. *)
Theorem getChildrenOfBarrel_without_reexport createSourceFile disk
    (sourceFileCache : gmap string ts.Node) cwd element sf :
  Notions.parsedAt createSourceFile disk (Provider.directory element) = Some sf ->
  ~ ts.hasReExportFrom sf ->
  Provider.getChildrenOfBarrel createSourceFile disk sourceFileCache cwd element = Ok [].
Proof.
  unfold Notions.parsedAt, Provider.getChildrenOfBarrel.
  destruct (fs.readFileSync disk (Provider.directory element)) as [text|]; [|discriminate].
  intros -> Hno. f_equal.
  assert (Hnodes : forall node, In node (ts.children sf) ->
             Provider.exportFilePathOf disk cwd (Provider.directory element) node = None).
  { intros node Hin. unfold Provider.exportFilePathOf.
    destruct (ts.moduleSpecifier node) as [spec|] eqn:Hspec; [|reflexivity].
    destruct (ts.isExportDeclaration node) eqn:Hk; [|reflexivity].
    exfalso. apply Hno. exists node. repeat split; [assumption..|congruence]. }
  induction (ts.children sf) as [|node nodes IH]; [reflexivity|].
  simpl. rewrite (Hnodes node) by now left. simpl. apply IH.
  intros n Hn. apply Hnodes. now right.
Qed.

(** X21 on the file with a local export list that C1 is about. *)
Lemma getChildrenOfBarrel_without_reexport_witness :
  let disk := [fs.Directory "ws" [fs.File "index.ts" (Some Scenario.localText)]] in
  let sourceFileCache := Provider.cacheSourceFile Scenario.parse disk "/ws/index.ts" ∅ in
  Provider.checkBarrelFile sourceFileCache "/ws/index.ts" = true
  /\ Provider.getChildrenOfBarrel Scenario.parse disk sourceFileCache "/"
       (Provider.newTreeItem sourceFileCache "/ws/index.ts" false true) = Ok [].
Proof.
  intros disk sourceFileCache. split; [reflexivity|].
  eapply (getChildrenOfBarrel_without_reexport Scenario.parse disk sourceFileCache "/").
  - reflexivity.
  - intros (node & Hin & Hk & Hs). simpl in Hin.
    destruct Hin as [<-|[<-|[<-|[]]]]; first [discriminate Hk | now apply Hs].
Defined.

Lemma parseBarrel_fold_skips disk barrelDir nodes :
  List.filter Notions.reExport nodes = [] ->
  forall st, fold_left (Treeview.parseBarrelNode disk barrelDir) nodes st = st.
Proof.
  induction nodes as [|node nodes IH]; intros Hnone st; [reflexivity|].
  simpl in Hnone. destruct (Notions.reExport node) eqn:Hre; [discriminate|].
  cbn [fold_left]. rewrite <- (IH Hnone st) at 2. f_equal.
  destruct st as [exports pathCache]. unfold Treeview.parseBarrelNode.
  unfold Notions.reExport in Hre.
  destruct (ts.moduleSpecifier node) as [spec|]; [|reflexivity]. now rewrite Hre.
Qed.

(** X22: a file named [*index.ts] without a re-export, once parsed by
    [parseBarrel], is a barrel with no entries: the call leaves the memo
    as it is, and [getTreeItem] shows the barrel as not collapsible, with
    the description of a user of a barrel. *)
Theorem parseBarrel_without_reexport createSourceFile disk filePath extensionPath
    (pathCache : gmap string (option string)) sf :
  Notions.parsedAt createSourceFile disk filePath = Some sf ->
  List.filter Notions.reExport (ts.children sf) = [] ->
  let barrel := {| Treeview.barrelPath := filePath; Treeview.exports := [] |} in
  Treeview.parseBarrel createSourceFile disk filePath pathCache = (Ok barrel, pathCache)
  /\ TreeviewItem.collapsibleState (TreeviewItem.getTreeItem extensionPath barrel)
     = TreeviewItem.NotCollapsible
  /\ TreeviewItem.description (TreeviewItem.getTreeItem extensionPath barrel)
     = "Used for barrel file(s)".
Proof.
  intros Hsf Hnone barrel. split; [|split; reflexivity].
  unfold Notions.parsedAt in Hsf. unfold Treeview.parseBarrel, bind, lift.
  destruct (fs.readFileSync disk filePath) as [text|]; [|discriminate].
  rewrite Hsf. now rewrite parseBarrel_fold_skips.
Qed.

(** X22 on [a.ts] of the package, were it named as an index file. *)
Lemma parseBarrel_without_reexport_witness :
  let disk := Scenario.pkg [fs.File "index.ts" (Some Scenario.aText)] in
  let barrel := {| Treeview.barrelPath := "/ws/pkg/index.ts"; Treeview.exports := [] |} in
  Treeview.parseBarrel Scenario.parse disk "/ws/pkg/index.ts" ∅ = (Ok barrel, ∅)
  /\ TreeviewItem.collapsibleState (TreeviewItem.getTreeItem "/ext" barrel)
     = TreeviewItem.NotCollapsible
  /\ TreeviewItem.description (TreeviewItem.getTreeItem "/ext" barrel)
     = "Used for barrel file(s)".
Proof.
  intros disk barrel.
  apply (parseBarrel_without_reexport Scenario.parse disk "/ws/pkg/index.ts" "/ext" ∅
           (ts.sourceFile [ts.declaration ts.SyntaxKind.VariableStatement
                                          [ts.SyntaxKind.ExportKeyword] []]));
    reflexivity.
Defined.
